(** * getevo/network: network configuration discovery, ping and DNS helpers

    A shallow embedding of the Go package [network] (the configuration
    cache and its discovery on Linux and Windows, [ping.go], and the DNS
    lookups) and the properties of its specification.

    Conventions of the embedding.
    - A Go [string] is a sequence of bytes: Rocq's [string], whose
      characters are the 256 byte values.  [len] is [String.length].
    - A Go [int] is a 64-bit integer, modelled by [Z]; every integer the
      embedded code computes stays inside the 64-bit range (see [Atoi]).
    - Everything the package obtains from the operating system (process
      execution, path lookup, interface tables, the resolver) is read from
      an explicit record of oracles; the calls a function issues are
      collected in a trace.
    - Pointers are addresses into an explicit store ([gmap]). *)

From Stdlib Require Import ZArith QArith Ascii String DecimalString List Bool Lia.
From stdpp Require Import base list strings gmap.
Import ListNotations.
Close Scope Q_scope.

(** ** Go's [strings] package, as far as the sources use it *)

Module Strings.

Definition len (s : string) : nat := String.length s.

(** A string given by the numeric values of its bytes. *)
Definition bytes (l : list nat) : string :=
  string_of_list_ascii (map ascii_of_nat l).

Definition srev (s : string) : string :=
  string_of_list_ascii (rev (list_ascii_of_string s)).

(** [s[n:]]; the sources only slice after checking [len s > n]. *)
Fixpoint sdrop (n : nat) (s : string) : string :=
  match n, s with
  | S k, String _ s' => sdrop k s'
  | _, _ => s
  end.

(** [s[0:n]]. *)
Fixpoint stake (n : nat) (s : string) : string :=
  match n, s with
  | S k, String c s' => String c (stake k s')
  | _, _ => EmptyString
  end.

Definition HasPrefix (s p : string) : bool := String.prefix p s.

Definition HasSuffix (s p : string) : bool :=
  (len p <=? len s)%nat && String.eqb (sdrop (len s - len p) s) p.

Definition TrimPrefix (s p : string) : string :=
  if HasPrefix s p then sdrop (len p) s else s.

Definition TrimSuffix (s p : string) : string :=
  if HasSuffix s p then stake (len s - len p) s else s.

Fixpoint Contains (s sub : string) : bool :=
  String.prefix sub s ||
  match s with
  | EmptyString => false
  | String _ s' => Contains s' sub
  end.

Fixpoint memByte (c : ascii) (cs : string) : bool :=
  match cs with
  | EmptyString => false
  | String d cs' => Ascii.eqb c d || memByte c cs'
  end.

(** [strings.ContainsAny] for a set [chars] of ASCII characters (all its
    uses): some byte of [s] belongs to [chars]. *)
Fixpoint ContainsAny (s chars : string) : bool :=
  match s with
  | EmptyString => false
  | String c s' => memByte c chars || ContainsAny s' chars
  end.

(** [strings.Split s sep] for a non-empty separator (all its uses):
    the pieces between the leftmost non-overlapping occurrences of
    [sep].  [skip] counts the bytes of an occurrence still to be passed,
    [cur] is the piece being read. *)
Fixpoint splitAux (sep : string) (skip : nat) (cur s : string) : list string :=
  match s with
  | EmptyString => [cur]
  | String c s' =>
      match skip with
      | S k => splitAux sep k cur s'
      | O =>
          if String.prefix sep s
          then cur :: splitAux sep (len sep - 1) EmptyString s'
          else splitAux sep 0 (cur +:+ String c EmptyString) s'
      end
  end.

Definition Split (s sep : string) : list string := splitAux sep 0 EmptyString s.

Fixpoint Join (l : list string) (sep : string) : string :=
  match l with
  | [] => EmptyString
  | [x] => x
  | x :: rest => x +:+ sep +:+ Join rest sep
  end.

(** The UTF-8 encodings of the code points of [unicode.IsSpace]:
    TAB, LF, VT, FF, CR, SPACE, U+0085, U+00A0, U+1680, U+2000..U+200A,
    U+2028, U+2029, U+202F, U+205F, U+3000. *)
Definition spaceRunes : list string :=
  map bytes
    [ [9]; [10]; [11]; [12]; [13]; [32]; [194; 133]; [194; 160];
      [225; 154; 128];
      [226; 128; 128]; [226; 128; 129]; [226; 128; 130]; [226; 128; 131];
      [226; 128; 132]; [226; 128; 133]; [226; 128; 134]; [226; 128; 135];
      [226; 128; 136]; [226; 128; 137]; [226; 128; 138];
      [226; 128; 168]; [226; 128; 169]; [226; 128; 175];
      [226; 129; 159]; [227; 128; 128] ].

(** Width of the rune of [runes] that [s] starts with, [0] if none. *)
Definition runeLen (runes : list string) (s : string) : nat :=
  match List.find (fun r => String.prefix r s) runes with
  | Some r => len r
  | None => 0
  end.

Definition spaceLen (s : string) : nat := runeLen spaceRunes s.

Fixpoint trimLeftRunes (runes : list string) (fuel : nat) (s : string) : string :=
  match fuel with
  | O => s
  | S f =>
      match runeLen runes s with
      | O => s
      | k => trimLeftRunes runes f (sdrop k s)
      end
  end.

(** [strings.TrimSpace]: leading, then trailing white space is removed,
    one UTF-8 encoded rune at a time. *)
Definition TrimSpace (s : string) : string :=
  let l := trimLeftRunes spaceRunes (len s) s in
  srev (trimLeftRunes (map srev spaceRunes) (len l) (srev l)).

(** [strings.Fields]: the maximal runs of bytes between white space. *)
Fixpoint fieldsAux (skip : nat) (cur s : string) : list string :=
  match s with
  | EmptyString => match cur with EmptyString => [] | _ => [cur] end
  | String c s' =>
      match skip with
      | S k => fieldsAux k cur s'
      | O =>
          match spaceLen s with
          | O => fieldsAux 0 (cur +:+ String c EmptyString) s'
          | S k =>
              match cur with
              | EmptyString => fieldsAux k EmptyString s'
              | _ => cur :: fieldsAux k EmptyString s'
              end
          end
      end
  end.

Definition Fields (s : string) : list string := fieldsAux 0 EmptyString s.

(** [strings.TrimLeft], [TrimRight] and [Trim] for a cutset of ASCII
    characters (all their uses): bytes of the cutset are removed. *)
Fixpoint TrimLeft (s cutset : string) : string :=
  match s with
  | EmptyString => EmptyString
  | String c s' => if memByte c cutset then TrimLeft s' cutset else s
  end.

Definition TrimRight (s cutset : string) : string :=
  srev (TrimLeft (srev s) cutset).

Definition Trim (s cutset : string) : string :=
  TrimRight (TrimLeft s cutset) cutset.

End Strings.

Import Strings.

(** Line feed and carriage return. *)
Definition LF : string := bytes [10].
Definition CRLF : string := bytes [13; 10].

(** ** Configuration: the dotted-field extractor *)

(** The loop of [extractDotted]; [found] and [result] are its two
    variables, the value returned is [result] when the loop ends or
    breaks. *)
Fixpoint extractLoop (key : string) (lines : list string)
    (found : bool) (result : string) : string :=
  match lines with
  | [] => result
  | line :: rest =>
      if negb found then
        if HasPrefix line ("   " +:+ key) && (39 <? len line)%nat
        then extractLoop key rest true (sdrop 39 line +:+ "")
        else extractLoop key rest false result
      else
        if (39 <? len line)%nat && String.eqb (TrimSpace (stake 39 line)) ""
        then extractLoop key rest true (result +:+ "," +:+ TrimSpace (sdrop 39 line))
        else result
  end.

Definition extractDotted (lines : list string) (key : string) : list string :=
  Split (Trim (extractLoop key lines false "") ",") ",".

Definition spec_example_lines : list string :=
  [ "   Key . . . . . . . . . . . . . . . . . : 8.8.8.8";
    "                                        8.8.4.4" ].

Definition test_lines : list string :=
  [ "   Description . . . . . . . . . . . : Ethernet Adapter";
    "   Physical Address. . . . . . . . . : 00-11-22-33-44-55";
    "   DNS Servers . . . . . . . . . . . : 8.8.8.8";
    "                                        8.8.4.4";
    "                                        1.1.1.1";
    "   Default Gateway . . . . . . . . . : 192.168.1.1" ].


(** ** Errors, external calls and the monad of the embedding *)

(** A Go [error] value is represented by its message. *)
Definition error : Type := string.

Inductive result (A : Type) : Type :=
  | Ok (a : A)
  | Err (e : error).
Arguments Ok {A} a.
Arguments Err {A} e.

(** [net.IP] is a byte slice; [None] is the nil slice. *)
Definition IP : Type := option (list nat).
(** [net.HardwareAddr] is a byte slice; nil and empty are both [[]]. *)
Definition HardwareAddr : Type := list nat.

(** [net.Interface], without its MTU and flags. *)
Record NetInterface : Type := {
  Index : Z;
  Name : string;
  HardwareAddr_of : HardwareAddr
}.

(** What leaves the process: every use of the operating system or of the
    resolver is recorded as one [Call]. *)
Inductive Call : Type :=
  | CLookPath (file : string)
  | CExec (name : string) (args : list string)
  | CInterfaceByName (name : string)
  | CDial (network address : string)
  | CInterfaces
  | CLookupHost (host : string)
  | CLookupCNAME (host : string)
  | CLookupMX (host : string)
  | CLookupNS (host : string)
  | CLookupTXT (host : string)
  | CLookupAddr (addr : string).

(** [net.MX] and [net.NS] as the resolver returns them. *)
Record NetMX : Type := { mxHost : string; mxPref : Z }.

(** The collaborators of the package.  Process execution, the interface
    table and the resolver are oracles; [ParseIP], [IPString], [ParseMAC],
    [To4] and [PathJoin] stand for the pure functions [net.ParseIP],
    [IP.String], [net.ParseMAC], [IP.To4] and [filepath.Join] of Go's
    library. *)
Record Sys : Type := {
  GOOS : string;
  LookPath : string -> option string;
  Output : string -> list string -> result string;
  CombinedOutput : string -> list string -> string * option error;
  InterfaceByName : string -> result NetInterface;
  Interfaces : result (list (NetInterface * result (list string)));
  DialLocalAddr : result (option IP);
  ParseIP : string -> IP;
  IPString : IP -> string;
  To4 : list nat -> IP;
  ParseMAC : string -> option HardwareAddr;
  PathJoin : string -> string -> string;
  LookupHost : string -> result (list string);
  LookupCNAME : string -> result string;
  LookupMX : string -> result (list NetMX);
  LookupNS : string -> result (list string);
  LookupTXT : string -> result (list string);
  LookupAddr : string -> result (list string)
}.

Definition isWindows (sys : Sys) : bool := String.eqb (GOOS sys) "windows".

(** Computations over a state [S] that may stop with an error and that
    log their external calls: the calls issued, the state reached (also
    when the computation stops with an error) and the outcome. *)
Definition M (S A : Type) : Type := S -> list Call * S * result A.

Definition ret {S A} (a : A) : M S A := fun s => ([], s, Ok a).

Definition fail {S A} (e : error) : M S A := fun s => ([], s, Err e).

Definition bind {S A B} (m : M S A) (k : A -> M S B) : M S B :=
  fun s =>
    match m s with
    | (t, s', Err e) => (t, s', Err e)
    | (t, s', Ok a) =>
        match k a s' with
        | (t', s'', r) => (t ++ t', s'', r)
        end
    end.

Definition get {S} : M S S := fun s => ([], s, Ok s).
Definition modify {S} (f : S -> S) : M S unit := fun s => ([], f s, Ok tt).
Definition emit {S} (c : Call) : M S unit := fun s => ([c], s, Ok tt).

(** An oracle answer that is a value or an error which the caller returns. *)
Definition lift {S A} (r : result A) : M S A :=
  match r with
  | Ok a => ret a
  | Err e => fail e
  end.

Declare Scope go_scope.
Delimit Scope go_scope with go.
Notation "'let*' x ':=' m 'in' k" := (bind m (fun x => k))
  (at level 10, x name, m at level 100, k at level 200) : go_scope.
Notation "'do' m 'then' k" := (bind m (fun _ => k))
  (at level 10, m at level 100, k at level 200) : go_scope.
Local Open Scope go_scope.

(** [exec.LookPath]. *)
Definition lookPath {S} (sys : Sys) (file : string) : M S (option string) :=
  do emit (CLookPath file) then ret (LookPath sys file).

(** [exec.Command(name, args...).Output()], the error returned as it is. *)
Definition output {S} (sys : Sys) (name : string) (args : list string) : M S string :=
  do emit (CExec name args) then lift (Output sys name args).

(** ** Configuration: command lookup *)

Fixpoint findCommandPaths {S} (sys : Sys) (paths : list string) : M S (option string) :=
  match paths with
  | [] => ret None
  | path :: rest =>
      let* r := lookPath sys path in
      match r with
      | Some _ => ret (Some path)
      | None => findCommandPaths sys rest
      end
  end.

(** [findCommand]: the first candidate path that is executable, else what
    the search path gives for [name], else the empty string. *)
Definition findCommand {S} (sys : Sys) (name : string) (paths : list string) : M S string :=
  let* found := findCommandPaths sys paths in
  match found with
  | Some path => ret path
  | None =>
      let* r := lookPath sys name in
      match r with
      | Some path => ret path
      | None => ret ""
      end
  end.

(** ** Configuration: the snapshot *)

Record Network : Type := {
  LocalIP : IP;
  DNS : list string;
  SubnetMask : IP;
  DefaultGateway : IP;
  DefaultGatewayHardwareAddress : HardwareAddr;
  InterfaceName : string;
  HardwareAddress : HardwareAddr;
  Suffix : string;
  Interface : option NetInterface
}.

(** [Network{}]: every field has its zero value. *)
Definition Network_zero : Network :=
  {| LocalIP := None; DNS := []; SubnetMask := None; DefaultGateway := None;
     DefaultGatewayHardwareAddress := []; InterfaceName := ""; HardwareAddress := [];
     Suffix := ""; Interface := None |}.

Definition set_LocalIP (v : IP) (n : Network) : Network :=
  {| LocalIP := v; DNS := DNS n; SubnetMask := SubnetMask n;
     DefaultGateway := DefaultGateway n;
     DefaultGatewayHardwareAddress := DefaultGatewayHardwareAddress n;
     InterfaceName := InterfaceName n; HardwareAddress := HardwareAddress n;
     Suffix := Suffix n; Interface := Interface n |}.

Definition set_DNS (v : list string) (n : Network) : Network :=
  {| LocalIP := LocalIP n; DNS := v; SubnetMask := SubnetMask n;
     DefaultGateway := DefaultGateway n;
     DefaultGatewayHardwareAddress := DefaultGatewayHardwareAddress n;
     InterfaceName := InterfaceName n; HardwareAddress := HardwareAddress n;
     Suffix := Suffix n; Interface := Interface n |}.

Definition set_SubnetMask (v : IP) (n : Network) : Network :=
  {| LocalIP := LocalIP n; DNS := DNS n; SubnetMask := v;
     DefaultGateway := DefaultGateway n;
     DefaultGatewayHardwareAddress := DefaultGatewayHardwareAddress n;
     InterfaceName := InterfaceName n; HardwareAddress := HardwareAddress n;
     Suffix := Suffix n; Interface := Interface n |}.

Definition set_DefaultGateway (v : IP) (n : Network) : Network :=
  {| LocalIP := LocalIP n; DNS := DNS n; SubnetMask := SubnetMask n;
     DefaultGateway := v;
     DefaultGatewayHardwareAddress := DefaultGatewayHardwareAddress n;
     InterfaceName := InterfaceName n; HardwareAddress := HardwareAddress n;
     Suffix := Suffix n; Interface := Interface n |}.

Definition set_DefaultGatewayHardwareAddress (v : HardwareAddr) (n : Network) : Network :=
  {| LocalIP := LocalIP n; DNS := DNS n; SubnetMask := SubnetMask n;
     DefaultGateway := DefaultGateway n;
     DefaultGatewayHardwareAddress := v;
     InterfaceName := InterfaceName n; HardwareAddress := HardwareAddress n;
     Suffix := Suffix n; Interface := Interface n |}.

Definition set_InterfaceName (v : string) (n : Network) : Network :=
  {| LocalIP := LocalIP n; DNS := DNS n; SubnetMask := SubnetMask n;
     DefaultGateway := DefaultGateway n;
     DefaultGatewayHardwareAddress := DefaultGatewayHardwareAddress n;
     InterfaceName := v; HardwareAddress := HardwareAddress n;
     Suffix := Suffix n; Interface := Interface n |}.

Definition set_HardwareAddress (v : HardwareAddr) (n : Network) : Network :=
  {| LocalIP := LocalIP n; DNS := DNS n; SubnetMask := SubnetMask n;
     DefaultGateway := DefaultGateway n;
     DefaultGatewayHardwareAddress := DefaultGatewayHardwareAddress n;
     InterfaceName := InterfaceName n; HardwareAddress := v;
     Suffix := Suffix n; Interface := Interface n |}.

Definition set_Suffix (v : string) (n : Network) : Network :=
  {| LocalIP := LocalIP n; DNS := DNS n; SubnetMask := SubnetMask n;
     DefaultGateway := DefaultGateway n;
     DefaultGatewayHardwareAddress := DefaultGatewayHardwareAddress n;
     InterfaceName := InterfaceName n; HardwareAddress := HardwareAddress n;
     Suffix := v; Interface := Interface n |}.

Definition set_Interface (v : option NetInterface) (n : Network) : Network :=
  {| LocalIP := LocalIP n; DNS := DNS n; SubnetMask := SubnetMask n;
     DefaultGateway := DefaultGateway n;
     DefaultGatewayHardwareAddress := DefaultGatewayHardwareAddress n;
     InterfaceName := InterfaceName n; HardwareAddress := HardwareAddress n;
     Suffix := Suffix n; Interface := v |}.

(** [l[i]] of a slice of strings whose length has been checked. *)
Definition idx (l : list string) (i : nat) : string := nth i l "".

(** [net.ParseMAC] gives a nil address together with its error. *)
Definition parseMAC (sys : Sys) (s : string) : HardwareAddr :=
  match ParseMAC sys s with
  | Some hw => hw
  | None => []
  end.

(** ** Configuration: discovery on Linux *)

(** Step 1 of [getLinux]: [ip route get 8.8.8.8]. *)
Definition linuxRoute (sys : Sys) : M Network unit :=
  let* ipCmd := findCommand sys "ip" ["/bin/ip"; "/sbin/ip"; "/usr/bin/ip"; "/usr/sbin/ip"] in
  if String.eqb ipCmd "" then fail "ip command not found"
  else
    let* out := output sys ipCmd ["route"; "get"; "8.8.8.8"] in
    let parts := Fields out in
    if (length parts <? 7)%nat then fail "unexpected ip route output format"
    else
      do modify (set_DefaultGateway (ParseIP sys (idx parts 2))) then
      do modify (set_InterfaceName (idx parts 4)) then
      modify (set_LocalIP (ParseIP sys (idx parts 6))).

(** Step 2: the interface descriptor, whose failure is returned. *)
Definition linuxInterface (sys : Sys) : M Network unit :=
  let* network := get in
  do emit (CInterfaceByName (InterfaceName network)) then
  let* interf := lift (InterfaceByName sys (InterfaceName network)) in
  do modify (set_HardwareAddress (HardwareAddr_of interf)) then
  modify (set_Interface (Some interf)).

(** Step 3: [ifconfig <iface>], the mask is the fifth field of line 2. *)
Definition linuxSubnet (sys : Sys) : M Network unit :=
  let* found := findCommand sys "ifconfig"
      ["/sbin/ifconfig"; "/bin/ifconfig"; "/usr/sbin/ifconfig"; "/usr/bin/ifconfig"] in
  let ifconfigCmd := if String.eqb found "" then "ifconfig" else found in
  let* network := get in
  let* out := output sys ifconfigCmd [InterfaceName network] in
  let lines := Split out LF in
  if (1 <? length lines)%nat then
    let fields := Fields (TrimSpace (idx lines 1)) in
    if (4 <? length fields)%nat
    then modify (set_SubnetMask (ParseIP sys (idx fields 4)))
    else ret tt
  else ret tt.

(** The inner loop over the servers of one [domain-name-servers] line. *)
Fixpoint dnsItems (list : list string) (dnslist : string) : string :=
  match list with
  | [] => dnslist
  | dnsitem :: rest =>
      if negb (Contains dnslist dnsitem)
      then dnsItems rest (dnslist +:+ dnsitem +:+ ",")
      else dnsItems rest dnslist
  end.

(** The loop over the lines that [grep] found; the state is [dnslist] and
    the suffix ([None] while it has not been assigned). *)
Fixpoint leaseLines (lines : list string) (dnslist : string) (suffix : option string)
    : string * option string :=
  match lines with
  | [] => (dnslist, suffix)
  | line :: rest =>
      let trimmedLine := TrimSpace line in
      let '(dnslist1, suffix1) :=
        if Contains line "domain-name-servers" then
          if (26 <? len trimmedLine)%nat
          then (dnsItems (Split (TrimRight (sdrop 26 trimmedLine) ";") ",") dnslist, suffix)
          else (dnslist, suffix)
        else
          if (18 <? len trimmedLine)%nat
          then (dnslist, Some (TrimRight (sdrop 18 trimmedLine) ";"))
          else (dnslist, suffix) in
      leaseLines rest (TrimRight dnslist1 ",") suffix1
  end.

Definition shellMeta : string := ";&|`$()" +:+ LF.

(** Steps 4 and 5: the interface name is checked, then the lease file is
    searched. *)
Definition linuxLease (sys : Sys) : M Network unit :=
  let* network := get in
  if ContainsAny (InterfaceName network) shellMeta then fail "invalid interface name"
  else
    let leasePath :=
      PathJoin sys "/var/lib/dhcp" ("dhclient." +:+ InterfaceName network +:+ ".leases") in
    let* out := output sys "grep" ["domain-name"; leasePath] in
    let lines := Split (TrimSpace out) LF in
    let '(dnslist, suffix) := leaseLines lines "" None in
    do (match suffix with
        | Some s => modify (set_Suffix s)
        | None => ret tt
        end) then
    modify (set_DNS (Split dnslist ",")).

(** Step 6: [arp -e <gateway>], skipped without a gateway. *)
Definition linuxArp (sys : Sys) : M Network unit :=
  let* network := get in
  match DefaultGateway network with
  | None => ret tt
  | Some _ =>
      let* out := output sys "arp" ["-e"; IPString sys (DefaultGateway network)] in
      let lines := Split out LF in
      if (2 <=? length lines)%nat then
        let fields := Fields (idx lines 1) in
        if (2 <? length fields)%nat
        then modify (set_DefaultGatewayHardwareAddress (parseMAC sys (idx fields 2)))
        else ret tt
      else ret tt
  end.

Definition getLinux (sys : Sys) : M Network unit :=
  do linuxRoute sys then
  do linuxInterface sys then
  do linuxSubnet sys then
  do linuxLease sys then
  linuxArp sys.

(** ** Configuration: discovery on Windows *)

(** The scan of one section for [Default Gateway] lines. *)
Fixpoint gatewayLines (sys : Sys) (lines : list string) (network : Network) : Network :=
  match lines with
  | [] => network
  | line :: rest =>
      let network1 :=
        if Contains line "Default Gateway" then
          let parts := Split line ":" in
          if (length parts =? 2)%nat then
            match ParseIP sys (TrimSpace (idx parts 1)) with
            | Some ip => set_DefaultGateway (Some ip) network
            | None => network
            end
          else network
        else network in
      gatewayLines sys rest network1
  end.

(** The body of the loop over the sections of [ipconfig /all]. *)
Definition windowsItem (sys : Sys) (item : string) (network : Network) : Network :=
  let lines := Split item CRLF in
  let network1 :=
    if HasPrefix item (InterfaceName network) then
      let n1 := set_DNS (extractDotted lines "DNS Servers") network in
      let n2 :=
        if String.eqb (Suffix n1) "" then
          let suffixes := extractDotted lines "Connection-specific DNS Suffix" in
          if (0 <? length suffixes)%nat then set_Suffix (idx suffixes 0) n1 else n1
        else n1 in
      let subnetMasks := extractDotted lines "Subnet Mask" in
      if (0 <? length subnetMasks)%nat
      then set_SubnetMask (ParseIP sys (idx subnetMasks 0)) n2
      else n2
    else network in
  gatewayLines sys lines network1.

Definition windowsItems (sys : Sys) (items : list string) (network : Network) : Network :=
  fold_left (fun n item => windowsItem sys item n) items network.

Definition getWindows (sys : Sys) : M Network unit :=
  let* out := output sys "ipconfig" ["/all"] in
  let items := Split out "Ethernet adapter " in
  do modify (windowsItems sys items) then
  let* network := get in
  match DefaultGateway network with
  | None => ret tt
  | Some _ =>
      let gw := IPString sys (DefaultGateway network) in
      let* out := output sys "arp" ["-a"; gw] in
      let chunks := Split out gw in
      if (3 <=? length chunks)%nat then
        let fields := Fields (idx chunks 2) in
        if (0 <? length fields)%nat
        then modify (set_DefaultGatewayHardwareAddress (parseMAC sys (idx fields 0)))
        else ret tt
      else ret tt
  end.

(** The two nested loops of [GetConfig] over the interfaces and their
    addresses, the addresses rendered by [addr.String()].

    [network.Interface = &interf] stores the address of the range
    variable [interf], not a copy of the interface.  The package is
    written for Go 1.20 (README), where the range variable is one variable
    for all the iterations of its loop: every iteration assigns the next
    interface to it, and a descriptor that points to it shows that
    interface from then on.  The field [Interface] of the embedding holds
    the value that the descriptor points to, and [points] tells whether
    the descriptor is the range variable. *)

(** The inner loop, over the addresses of [interf]. *)
Fixpoint matchAddrs (sys : Sys) (interf : NetInterface) (addrs : list string)
    (network : Network) (points : bool) : Network * bool :=
  match addrs with
  | [] => (network, points)
  | addr :: rest =>
      if Contains addr (IPString sys (LocalIP network))
      then matchAddrs sys interf rest
             (set_Interface (Some interf)
                (set_HardwareAddress (HardwareAddr_of interf)
                   (set_InterfaceName (Name interf) network)))
             true
      else matchAddrs sys interf rest network points
  end.

(** One iteration of the outer loop: the interface is assigned to the
    range variable, which a descriptor that points to it shows at once;
    then its addresses are gone through, when [interf.Addrs()] gave
    them. *)
Definition matchInterface (sys : Sys) (st : Network * bool)
    (entry : NetInterface * result (list string)) : Network * bool :=
  let interf := fst entry in
  let network := if snd st then set_Interface (Some interf) (fst st) else fst st in
  match snd entry with
  | Ok addrs => matchAddrs sys interf addrs network (snd st)
  | Err _ => (network, snd st)
  end.

(** The outer loop; before it the descriptor is nil. *)
Definition matchInterfaces (sys : Sys)
    (interfaces : list (NetInterface * result (list string))) (network : Network) : Network :=
  fst (fold_left (matchInterface sys) interfaces (network, false)).

(** The Windows branch of [GetConfig] up to the call of [getWindows]. *)
Definition windowsProbe (sys : Sys) : M Network unit :=
  do emit (CDial "udp" "8.8.8.8:80") then
  let* localAddr := lift (DialLocalAddr sys) in
  match localAddr with
  | None => fail "failed to get local UDP address"
  | Some ip =>
      do modify (set_LocalIP ip) then
      do emit CInterfaces then
      match Interfaces sys with
      | Err e => fail ("failed to get network interfaces: " +:+ e)
      | Ok interfaces => modify (matchInterfaces sys interfaces)
      end
  end.

(** What [GetConfig] runs on the fresh [Network{}] when nothing is cached. *)
Definition discover (sys : Sys) : M Network unit :=
  if isWindows sys
  then do windowsProbe sys then getWindows sys
  else getLinux sys.

(** ** Configuration: the cache *)

(** The address of a [Network] value. *)
Abbreviation ptr := nat.

(** The package variable [instance] and the [Network] values that have been
    allocated.  The mutex [mu] serialises the calls; the embedding is of
    their sequential behaviour. *)
Record Cache : Type := {
  instance : option ptr;
  heap : gmap ptr Network
}.

Definition Cache_init : Cache := {| instance := None; heap := ∅ |}.

(** [GetConfig]: the cached address if there is one; else discovery on a
    fresh [Network{}], whose address is cached when discovery succeeds. *)
Definition GetConfig (sys : Sys) : M Cache ptr :=
  fun st =>
    match instance st with
    | Some p => ([], st, Ok p)
    | None =>
        match discover sys Network_zero with
        | (t, _, Err e) => (t, st, Err e)
        | (t, network, Ok _) =>
            let p := fresh (dom (heap st)) in
            (t, {| instance := Some p; heap := <[p := network]> (heap st) |}, Ok p)
        end
    end.

(** [RefreshConfig]: [instance = nil], then [GetConfig]. *)
Definition RefreshConfig (sys : Sys) : M Cache ptr :=
  do modify (fun st => {| instance := None; heap := heap st |}) then
  GetConfig sys.

(** ** Numbers of Go's library used by ping.go *)

Local Open Scope Z_scope.

Definition maxInt : Z := 2 ^ 63 - 1.
Definition minInt : Z := - 2 ^ 63.

(** Two's complement wrap-around of 64-bit arithmetic. *)
Definition wrap64 (z : Z) : Z := (z + 2 ^ 63) mod 2 ^ 64 - 2 ^ 63.

Definition isDigit (c : ascii) : bool :=
  (48 <=? nat_of_ascii c)%nat && (nat_of_ascii c <=? 57)%nat.

Definition digitVal (c : ascii) : Z := Z.of_nat (nat_of_ascii c) - 48.

Fixpoint allDigits (s : string) : bool :=
  match s with
  | EmptyString => true
  | String c s' => isDigit c && allDigits s'
  end.

Fixpoint decimalValue (acc : Z) (s : string) : Z :=
  match s with
  | EmptyString => acc
  | String c s' => decimalValue (10 * acc + digitVal c) s'
  end.

(** [strconv.Atoi]: the value and whether the error is nil.  A number out
    of range is replaced by the nearest 64-bit integer, with an error; a
    string that is no number gives 0, with an error. *)
Definition Atoi (s : string) : Z * bool :=
  let '(neg, ds) :=
    match s with
    | String "+" s' => (false, s')
    | String "-" s' => (true, s')
    | _ => (false, s)
    end in
  if negb (allDigits ds) || String.eqb ds "" then (0, false)
  else
    let v := if neg then - decimalValue 0 ds else decimalValue 0 ds in
    if v >? maxInt then (maxInt, false)
    else if v <? minInt then (minInt, false)
    else (v, true).

(** [strconv.Itoa]. *)
Definition Itoa (z : Z) : string := DecimalString.NilZero.string_of_int (Z.to_int z).

(** The operations on [float64] that the sources use.  The theorems on
    [Ping] hold for every implementation of them. *)
Class Float64 : Type := {
  float64 : Type;
  (** the conversion [float64(i)] of an integer *)
  f_of_int : Z -> float64;
  fadd : float64 -> float64 -> float64;
  fmul : float64 -> float64 -> float64;
  fdiv : float64 -> float64 -> float64;
  (** the conversion [int64(f)], which drops the fraction *)
  ftrunc : float64 -> Z;
  (** [strconv.ParseFloat(s, 64)]: the value and whether the error is nil *)
  ParseFloat : string -> float64 * bool
}.

(** ** regexp: the patterns of ping.go

    The five patterns of the sources are sequences of literal text and of
    the two capturing groups [(\d+)] and [(\d+(?:\.\d+)?)].  In each of
    them a group is followed by the end of the pattern or by a literal that
    starts with neither a digit nor a dot, so that the leftmost-first match
    of Go's [regexp] is the one in which every group takes the longest run
    it can; [FindStringSubmatch] below computes that match and returns the
    text of the groups ([matches[1:]]). *)

Inductive Item : Type :=
  | Lit (s : string)
  | Digits
  | Decimal.

(** The longest prefix of digits and what follows it. *)
Fixpoint digitRun (s : string) : string * string :=
  match s with
  | String c s' =>
      if isDigit c then let '(d, r) := digitRun s' in (String c d, r)
      else (EmptyString, s)
  | EmptyString => (EmptyString, EmptyString)
  end.

Definition matchItem (it : Item) (s : string) : option (option string * string) :=
  match it with
  | Lit l => if String.prefix l s then Some (None, sdrop (len l) s) else None
  | Digits =>
      let '(d, r) := digitRun s in
      if String.eqb d "" then None else Some (Some d, r)
  | Decimal =>
      let '(d, r) := digitRun s in
      if String.eqb d "" then None
      else
        match r with
        | String "." r' =>
            let '(e, r'') := digitRun r' in
            if String.eqb e "" then Some (Some d, r)
            else Some (Some (d +:+ "." +:+ e), r'')
        | _ => Some (Some d, r)
        end
  end.

Fixpoint matchHere (p : list Item) (s : string) : option (list string) :=
  match p with
  | [] => Some []
  | it :: p' =>
      match matchItem it s with
      | None => None
      | Some (g, r) =>
          match matchHere p' r with
          | None => None
          | Some gs => Some (match g with Some x => x :: gs | None => gs end)
          end
      end
  end.

Fixpoint FindStringSubmatch (p : list Item) (s : string) : option (list string) :=
  match matchHere p s with
  | Some gs => Some gs
  | None =>
      match s with
      | EmptyString => None
      | String _ s' => FindStringSubmatch p s'
      end
  end.

(** ** ping.go *)

(** [time.Duration] counts nanoseconds in an [int64]. *)
Definition Millisecond : Z := 1000000.
Definition Second : Z := 1000000000.

Record PingOptions : Type := {
  Count : Z;
  Timeout : Z;
  Size : Z
}.

#[global] Instance PingOptions_inhabited : Inhabited PingOptions :=
  populate {| Count := 0; Timeout := 0; Size := 0 |}.

(** The store of the [PingOptions] values that callers and [Ping] share. *)
Abbreviation Options := (gmap ptr PingOptions).

Definition regexPackets : list Item :=
  [Lit "Sent = "; Digits; Lit ", Received = "; Digits; Lit ", Lost = "; Digits].
Definition regexMinMax : list Item :=
  [Lit "Minimum = "; Digits; Lit "ms, Maximum = "; Digits; Lit "ms, Average = "; Digits; Lit "ms"].
Definition regexTransmitted : list Item :=
  [Digits; Lit " packets transmitted, "; Digits; Lit " received"].
Definition regexLoss : list Item := [Decimal; Lit "% packet loss"].
Definition regexRtt : list Item :=
  [Decimal; Lit "/"; Decimal; Lit "/"; Decimal; Lit "/"; Decimal].

Section Ping.

Context {F : Float64}.

Record PingResult : Type := {
  Host : string;
  Sent : Z;
  Received : Z;
  Lost : Z;
  PacketLoss : float64;
  MinRTT : Z;
  MaxRTT : Z;
  AvgRTT : Z;
  StdDevRTT : Z;
  Success : bool;
  ErrorMessage : string
}.

Definition with_Host (v : string) (r : PingResult) : PingResult :=
  {| Host := v; Sent := Sent r; Received := Received r; Lost := Lost r; PacketLoss := PacketLoss r; MinRTT := MinRTT r; MaxRTT := MaxRTT r; AvgRTT := AvgRTT r; StdDevRTT := StdDevRTT r; Success := Success r; ErrorMessage := ErrorMessage r |}.

Definition with_Sent (v : Z) (r : PingResult) : PingResult :=
  {| Host := Host r; Sent := v; Received := Received r; Lost := Lost r; PacketLoss := PacketLoss r; MinRTT := MinRTT r; MaxRTT := MaxRTT r; AvgRTT := AvgRTT r; StdDevRTT := StdDevRTT r; Success := Success r; ErrorMessage := ErrorMessage r |}.

Definition with_Received (v : Z) (r : PingResult) : PingResult :=
  {| Host := Host r; Sent := Sent r; Received := v; Lost := Lost r; PacketLoss := PacketLoss r; MinRTT := MinRTT r; MaxRTT := MaxRTT r; AvgRTT := AvgRTT r; StdDevRTT := StdDevRTT r; Success := Success r; ErrorMessage := ErrorMessage r |}.

Definition with_Lost (v : Z) (r : PingResult) : PingResult :=
  {| Host := Host r; Sent := Sent r; Received := Received r; Lost := v; PacketLoss := PacketLoss r; MinRTT := MinRTT r; MaxRTT := MaxRTT r; AvgRTT := AvgRTT r; StdDevRTT := StdDevRTT r; Success := Success r; ErrorMessage := ErrorMessage r |}.

Definition with_PacketLoss (v : float64) (r : PingResult) : PingResult :=
  {| Host := Host r; Sent := Sent r; Received := Received r; Lost := Lost r; PacketLoss := v; MinRTT := MinRTT r; MaxRTT := MaxRTT r; AvgRTT := AvgRTT r; StdDevRTT := StdDevRTT r; Success := Success r; ErrorMessage := ErrorMessage r |}.

Definition with_MinRTT (v : Z) (r : PingResult) : PingResult :=
  {| Host := Host r; Sent := Sent r; Received := Received r; Lost := Lost r; PacketLoss := PacketLoss r; MinRTT := v; MaxRTT := MaxRTT r; AvgRTT := AvgRTT r; StdDevRTT := StdDevRTT r; Success := Success r; ErrorMessage := ErrorMessage r |}.

Definition with_MaxRTT (v : Z) (r : PingResult) : PingResult :=
  {| Host := Host r; Sent := Sent r; Received := Received r; Lost := Lost r; PacketLoss := PacketLoss r; MinRTT := MinRTT r; MaxRTT := v; AvgRTT := AvgRTT r; StdDevRTT := StdDevRTT r; Success := Success r; ErrorMessage := ErrorMessage r |}.

Definition with_AvgRTT (v : Z) (r : PingResult) : PingResult :=
  {| Host := Host r; Sent := Sent r; Received := Received r; Lost := Lost r; PacketLoss := PacketLoss r; MinRTT := MinRTT r; MaxRTT := MaxRTT r; AvgRTT := v; StdDevRTT := StdDevRTT r; Success := Success r; ErrorMessage := ErrorMessage r |}.

Definition with_StdDevRTT (v : Z) (r : PingResult) : PingResult :=
  {| Host := Host r; Sent := Sent r; Received := Received r; Lost := Lost r; PacketLoss := PacketLoss r; MinRTT := MinRTT r; MaxRTT := MaxRTT r; AvgRTT := AvgRTT r; StdDevRTT := v; Success := Success r; ErrorMessage := ErrorMessage r |}.

Definition with_Success (v : bool) (r : PingResult) : PingResult :=
  {| Host := Host r; Sent := Sent r; Received := Received r; Lost := Lost r; PacketLoss := PacketLoss r; MinRTT := MinRTT r; MaxRTT := MaxRTT r; AvgRTT := AvgRTT r; StdDevRTT := StdDevRTT r; Success := v; ErrorMessage := ErrorMessage r |}.

Definition with_ErrorMessage (v : string) (r : PingResult) : PingResult :=
  {| Host := Host r; Sent := Sent r; Received := Received r; Lost := Lost r; PacketLoss := PacketLoss r; MinRTT := MinRTT r; MaxRTT := MaxRTT r; AvgRTT := AvgRTT r; StdDevRTT := StdDevRTT r; Success := Success r; ErrorMessage := v |}.

(** [&PingResult{Host: host}] *)
Definition PingResult_new (host : string) : PingResult :=
  {| Host := host; Sent := 0; Received := 0; Lost := 0; PacketLoss := f_of_int 0;
     MinRTT := 0; MaxRTT := 0; AvgRTT := 0; StdDevRTT := 0; Success := false;
     ErrorMessage := "" |}.

(** [DefaultPingOptions()], as a value. *)
Definition defaultOptions (sys : Sys) : PingOptions :=
  let size := if isWindows sys then 32 else 56 in
  {| Count := 4; Timeout := 4 * Second; Size := size |}.

(** [time.Duration(v) * time.Millisecond] when [Atoi] had no error. *)
Definition atoiMillis (s : string) (set : Z -> PingResult -> PingResult)
    (r : PingResult) : PingResult :=
  match Atoi s with
  | (v, true) => set (wrap64 (v * Millisecond)) r
  | (_, false) => r
  end.

(** [time.Duration(v * float64(time.Millisecond))] when [ParseFloat] had
    no error. *)
Definition floatMillis (s : string) (set : Z -> PingResult -> PingResult)
    (r : PingResult) : PingResult :=
  match ParseFloat s with
  | (v, true) => set (ftrunc (fmul v (f_of_int Millisecond))) r
  | (_, false) => r
  end.

(** The body of the loop of [parseWindowsPingOutput]. *)
Definition windowsPingLine (line0 : string) (result : PingResult) : PingResult :=
  let line := TrimSpace line0 in
  let result1 :=
    if Contains line "Packets:" then
      match FindStringSubmatch regexPackets line with
      | Some [m1; m2; m3] =>
          with_Lost (fst (Atoi m3))
            (with_Received (fst (Atoi m2)) (with_Sent (fst (Atoi m1)) result))
      | _ => result
      end
    else result in
  if Contains line "Minimum" && Contains line "Maximum" then
    match FindStringSubmatch regexMinMax line with
    | Some [m1; m2; m3] =>
        atoiMillis m3 with_AvgRTT
          (atoiMillis m2 with_MaxRTT (atoiMillis m1 with_MinRTT result1))
    | _ => result1
    end
  else result1.

Definition parseWindowsPingOutput (output : string) (result : PingResult) : PingResult :=
  fold_left (fun r line => windowsPingLine line r) (Split output LF) result.

(** The body of the loop of [parseLinuxPingOutput]. *)
Definition linuxPingLine (line0 : string) (result : PingResult) : PingResult :=
  let line := TrimSpace line0 in
  let result1 :=
    if Contains line "packets transmitted" then
      let r1 :=
        match FindStringSubmatch regexTransmitted line with
        | Some [m1; m2] => with_Received (fst (Atoi m2)) (with_Sent (fst (Atoi m1)) result)
        | _ => result
        end in
      match FindStringSubmatch regexLoss line with
      | Some [m1] => with_PacketLoss (fst (ParseFloat m1)) r1
      | _ => r1
      end
    else result in
  if Contains line "rtt min/avg/max" then
    match FindStringSubmatch regexRtt line with
    | Some [m1; m2; m3; m4] =>
        floatMillis m4 with_StdDevRTT
          (floatMillis m3 with_MaxRTT
             (floatMillis m2 with_AvgRTT (floatMillis m1 with_MinRTT result1)))
    | _ => result1
    end
  else result1.

Definition parseLinuxPingOutput (output : string) (result : PingResult) : PingResult :=
  let result1 := fold_left (fun r line => linuxPingLine line r) (Split output LF) result in
  if (Sent result1 >? 0) && (Lost result1 =? 0)
  then with_Lost (Sent result1 - Received result1) result1
  else result1.

Definition parsePingOutput (sys : Sys) (output : string) (result : PingResult) : PingResult :=
  if isWindows sys then parseWindowsPingOutput output result
  else parseLinuxPingOutput output result.


(** [DefaultPingOptions()]: a new value, at an address not in use. *)
Definition DefaultPingOptions (sys : Sys) : M Options ptr :=
  fun st =>
    let p := fresh (dom st) in
    ([], <[p := defaultOptions sys]> st, Ok p).

(** [d.Seconds()] of a [time.Duration]. *)
Definition Seconds (d : Z) : float64 :=
  fadd (f_of_int (Z.quot d Second)) (fdiv (f_of_int (Z.rem d Second)) (f_of_int Second)).

(** [d.Milliseconds()]. *)
Definition Milliseconds (d : Z) : Z := Z.quot d Millisecond.

(** [exec.Command(name, args...).CombinedOutput()]. *)
Definition combinedOutput {S} (sys : Sys) (name : string) (args : list string)
    : M S (string * option error) :=
  do emit (CExec name args) then ret (CombinedOutput sys name args).

Definition pingWindows (sys : Sys) (host : string) (options : ptr)
    : M Options (string * option error) :=
  let* st := get in
  let o := st !!! options in
  let args := ["-n"; Itoa (Count o); "-w"; Itoa (Milliseconds (Timeout o));
               "-l"; Itoa (Size o); host] in
  combinedOutput sys "ping" args.

Definition pingLinux (sys : Sys) (host : string) (options : ptr)
    : M Options (string * option error) :=
  let* found := findCommand sys "ping"
      ["/bin/ping"; "/sbin/ping"; "/usr/bin/ping"; "/usr/sbin/ping"] in
  let pingCmd := if String.eqb found "" then "ping" else found in
  let* st := get in
  let o := st !!! options in
  let args := ["-c"; Itoa (Count o); "-W"; Itoa (ftrunc (Seconds (Timeout o)));
               "-s"; Itoa (Size o); host] in
  combinedOutput sys pingCmd args.

(** The three assignments under [// Validate options], each made to the
    value at the address [options]. *)
Definition validateCount (o : PingOptions) : PingOptions :=
  if Count o <=? 0 then {| Count := 4; Timeout := Timeout o; Size := Size o |} else o.
Definition validateTimeout (o : PingOptions) : PingOptions :=
  if Timeout o <=? 0 then {| Count := Count o; Timeout := 4 * Second; Size := Size o |} else o.
Definition validateSize (o : PingOptions) : PingOptions :=
  if Size o <=? 0 then {| Count := Count o; Timeout := Timeout o; Size := 32 |} else o.

Definition validateOptions (options : ptr) : M Options unit :=
  do modify (alter validateCount options) then
  do modify (alter validateTimeout options) then
  modify (alter validateSize options).

(** The end of [Ping]: the output is parsed and the loss is computed. *)
Definition pingFinish (sys : Sys) (output : string) (result : PingResult) : PingResult :=
  let result1 := parsePingOutput sys output result in
  if Sent result1 >? 0 then
    let lost := Sent result1 - Received result1 in
    with_Success (Received result1 >? 0)
      (with_PacketLoss (fmul (fdiv (f_of_int lost) (f_of_int (Sent result1))) (f_of_int 100))
         (with_Lost lost result1))
  else result1.

(** What [Ping] makes of the output and the error of the process: on an
    error the output, if there is one, is parsed, and the call returns
    early when nothing was sent or nothing was received. *)
Definition pingOutcome (sys : Sys) (host : string) (oe : string * option error) : PingResult :=
  let result := PingResult_new host in
  let '(output, err) := oe in
  match err with
  | Some e =>
      let result1 :=
        if negb (String.eqb output "") then parsePingOutput sys output result
        else result in
      if (Sent result1 =? 0) || (Received result1 =? 0) then
        with_ErrorMessage ("failed to ping " +:+ host +:+ ": " +:+ e)
          (with_Success false result1)
      else pingFinish sys output result1
  | None => pingFinish sys output result
  end.

(** [Ping] returns the pair of a result (or nil) and an error (or nil). *)
Definition Ping (sys : Sys) (host : string) (options : option ptr)
    : M Options (option PingResult * option error) :=
  if String.eqb host "" then ret (None, Some "host cannot be empty")
  else
    let* options :=
      match options with
      | Some p => ret p
      | None => DefaultPingOptions sys
      end in
    do validateOptions options then
    let* oe := if isWindows sys then pingWindows sys host options
               else pingLinux sys host options in
    ret (Some (pingOutcome sys host oe), None).

End Ping.

(** ** DNS lookups *)

Module DNS.

Record MXRecord : Type := {
  Host : string;
  Priority : Z
}.

Record SOARecord : Type := {
  SOA_NS : string;
  Mbox : string;
  Serial : Z;
  Refresh : Z;
  Retry : Z;
  Expire : Z;
  MinTTL : Z
}.

Record DNSRecords : Type := {
  Domain : string;
  A : list string;
  AAAA : list string;
  CNAME : list string;
  MX : list MXRecord;
  NS : list string;
  TXT : list string;
  SOA : option SOARecord;
  PTR : list string
}.

(** The three lines under [// Remove protocol if present]. *)
Definition cleanDomain (domain : string) : string :=
  TrimSuffix (TrimPrefix (TrimPrefix domain "http://") "https://") "/".

(** The loop under [// Remove duplicates]: [uniqueIPs] is the map of the
    addresses seen, [result] the slice that is appended to. *)
Fixpoint uniqueLoop (ips : list string) (uniqueIPs : gmap string bool)
    (result : list string) : list string :=
  match ips with
  | [] => result
  | ip :: rest =>
      if negb (default false (uniqueIPs !! ip))
      then uniqueLoop rest (<[ip := true]> uniqueIPs) (result ++ [ip])
      else uniqueLoop rest uniqueIPs result
  end.

Definition NSLookup (sys : Sys) (domain : string) : M unit (list string) :=
  if String.eqb domain "" then fail "domain cannot be empty"
  else
    let domain := cleanDomain domain in
    do emit (CLookupHost domain) then
    match LookupHost sys domain with
    | Err err => fail ("failed to lookup " +:+ domain +:+ ": " +:+ err)
    | Ok ips => ret (uniqueLoop ips ∅ [])
    end.

(** The loop that sorts the addresses into [A] and [AAAA]. *)
Fixpoint hostAddrs (sys : Sys) (addrs : list string) (a aaaa : list string)
    : list string * list string :=
  match addrs with
  | [] => (a, aaaa)
  | addr :: rest =>
      match ParseIP sys addr with
      | Some ip =>
          match To4 sys ip with
          | Some _ => hostAddrs sys rest (a ++ [addr]) aaaa
          | None => hostAddrs sys rest a (aaaa ++ [addr])
          end
      | None => hostAddrs sys rest a aaaa
      end
  end.

(** [lookupSOA]: a record that names the first name server, if any. *)
Definition lookupSOA (sys : Sys) (domain : string) : M unit (option SOARecord) :=
  do emit (CLookupNS domain) then
  match LookupNS sys domain with
  | Ok (ns0 :: _) =>
      ret (Some {| SOA_NS := TrimSuffix ns0 "."; Mbox := ""; Serial := 0; Refresh := 0;
                   Retry := 0; Expire := 0; MinTTL := 0 |})
  | _ => ret None
  end.

Definition Resolve (sys : Sys) (domain : string) : M unit DNSRecords :=
  if String.eqb domain "" then fail "domain cannot be empty"
  else
    let domain := cleanDomain domain in
    do emit (CLookupHost domain) then
    let '(a, aaaa) :=
      match LookupHost sys domain with
      | Ok addrs => hostAddrs sys addrs [] []
      | Err _ => ([], [])
      end in
    do emit (CLookupCNAME domain) then
    let cname :=
      match LookupCNAME sys domain with
      | Ok cname =>
          if negb (String.eqb cname (domain +:+ ".")) then [TrimSuffix cname "."] else []
      | Err _ => []
      end in
    do emit (CLookupMX domain) then
    let mx :=
      match LookupMX sys domain with
      | Ok mxRecords =>
          map (fun m => {| Host := TrimSuffix (mxHost m) "."; Priority := mxPref m |}) mxRecords
      | Err _ => []
      end in
    do emit (CLookupNS domain) then
    let ns :=
      match LookupNS sys domain with
      | Ok nsRecords => map (fun h => TrimSuffix h ".") nsRecords
      | Err _ => []
      end in
    do emit (CLookupTXT domain) then
    let txt :=
      match LookupTXT sys domain with
      | Ok txtRecords => txtRecords
      | Err _ => []
      end in
    let* soa := lookupSOA sys domain in
    let* ptr :=
      match ParseIP sys domain with
      | Some _ =>
          do emit (CLookupAddr domain) then
          match LookupAddr sys domain with
          | Ok names => ret names
          | Err _ => ret []
          end
      | None => ret []
      end in
    ret {| Domain := domain; A := a; AAAA := aaaa; CNAME := cname; MX := mx; NS := ns;
           TXT := txt; SOA := soa; PTR := ptr |}.

End DNS.

(** * Notions used in the statements *)

(** The line that [extractDotted] selects for [key]: it starts with three
    spaces and the key, and is longer than 39 bytes. *)
Definition labelLine (key line : string) : bool :=
  HasPrefix line ("   " +:+ key) && (39 <? len line)%nat.

(** A continuation line: longer than 39 bytes, the first 39 blank. *)
Definition contLine (line : string) : bool :=
  (39 <? len line)%nat && String.eqb (TrimSpace (stake 39 line)) "".

(** The values of a selected line and its continuation lines, joined. *)
Definition joinedValues (line : string) (conts : list string) : string :=
  Join (sdrop 39 line :: map (fun c => TrimSpace (sdrop 39 c)) conts) ",".

(** A line without indentation whose value starts at byte 39. *)
Definition unindented_lines : list string :=
  [ "Key. . . . . . . . . . . . . . . . . : 8.8.8.8" ].

(** The example of the specification laid out as [ipconfig] does, the
    value starting at byte 39. *)
Definition column39_lines : list string :=
  [ "   Key . . . . . . . . . . . . . . . : 8.8.8.8";
    "                                        8.8.4.4" ].

(** The three components of what a computation returns. *)
Definition calls {S A} (x : list Call * S * result A) : list Call := fst (fst x).
Definition state {S A} (x : list Call * S * result A) : S := snd (fst x).
Definition outcome {S A} (x : list Call * S * result A) : result A := snd x.

(** The states of the cache that calls of [GetConfig] and [RefreshConfig]
    produce from the initial one, whatever the system answers. *)
Inductive reachable : Cache -> Prop :=
  | reachable_init : reachable Cache_init
  | reachable_GetConfig (sys : Sys) (st : Cache) :
      reachable st -> reachable (state (GetConfig sys st))
  | reachable_RefreshConfig (sys : Sys) (st : Cache) :
      reachable st -> reachable (state (RefreshConfig sys st)).

(** A cached address is the address of an allocated snapshot. *)
Definition cached_allocated (st : Cache) : Prop :=
  forall p, instance st = Some p -> p ∈ dom (heap st).

(** The cache after a series of calls of [GetConfig] and [RefreshConfig],
    each with its own answers of the system. *)
Inductive evolves : Cache -> Cache -> Prop :=
  | evolves_refl (st : Cache) : evolves st st
  | evolves_GetConfig (sys : Sys) (st st' : Cache) :
      evolves st st' -> evolves st (state (GetConfig sys st'))
  | evolves_RefreshConfig (sys : Sys) (st st' : Cache) :
      evolves st st' -> evolves st (state (RefreshConfig sys st')).

(** A series of calls of [GetConfig], one system answer each. *)
Fixpoint GetConfigs (syss : list Sys) (st : Cache)
    : list (list Call * result ptr) * Cache :=
  match syss with
  | [] => ([], st)
  | sys :: rest =>
      let r := GetConfig sys st in
      let '(rs, st') := GetConfigs rest (state r) in
      ((calls r, outcome r) :: rs, st')
  end.

(** The steps of [getLinux] that come before the check of the interface
    name. *)
Definition linuxBeforeLease (sys : Sys) : M Network unit :=
  do linuxRoute sys then
  do linuxInterface sys then
  linuxSubnet sys.

(** The search of the lease file: [grep domain-name <path>]. *)
Definition isLeaseLookup (c : Call) : Prop :=
  exists path, c = CExec "grep" ["domain-name"; path].

Definition isLookPath (c : Call) : Prop :=
  exists file, c = CLookPath file.

(** The calls that discovery on Linux can issue: a path lookup, the route
    query, the interface lookup, [ifconfig] with one argument, the search
    of the lease file of an interface whose name has no shell
    metacharacter, and the [arp] query. *)
Definition linuxCall (sys : Sys) (c : Call) : Prop :=
  (exists f, c = CLookPath f) \/
  (exists cmd, c = CExec cmd ["route"; "get"; "8.8.8.8"]) \/
  (exists name, c = CInterfaceByName name) \/
  (exists cmd name, c = CExec cmd [name]) \/
  (exists name,
      ContainsAny name shellMeta = false /\
      c = CExec "grep"
            ["domain-name";
             PathJoin sys "/var/lib/dhcp" ("dhclient." +:+ name +:+ ".leases")]) \/
  (exists gw, c = CExec "arp" ["-e"; gw]).

(** A counter that fits a non-negative 64-bit integer. *)
Definition counter (z : Z) : Prop := 0 <= z <= maxInt.

(** A pattern without the group of decimals. *)
Definition digitsPattern (p : list Item) : Prop := Forall (fun it => it <> Decimal) p.

(** A non-empty run of digits. *)
Definition digits (s : string) : Prop := allDigits s = true /\ s <> "".

(** The counters of a result are in range: what was sent and received are
    counters, and what was lost is a difference of counters or a
    counter. *)
Definition countersInRange {F : Float64} (r : PingResult) : Prop :=
  counter (Sent r) /\ counter (Received r) /\ - maxInt <= Lost r <= maxInt.

(** The candidate paths of the [ping] command, and the arguments of the
    process on each platform for options [o]. *)
Definition pingCandidates : list string :=
  ["/bin/ping"; "/sbin/ping"; "/usr/bin/ping"; "/usr/sbin/ping"].

Definition windowsPingArgs (host : string) (o : PingOptions) : list string :=
  ["-n"; Itoa (Count o); "-w"; Itoa (Milliseconds (Timeout o)); "-l"; Itoa (Size o); host].

Definition linuxPingArgs {F : Float64} (host : string) (o : PingOptions) : list string :=
  ["-c"; Itoa (Count o); "-W"; Itoa (ftrunc (Seconds (Timeout o))); "-s"; Itoa (Size o); host].

(** ** Sample systems, for the concrete evaluations

    [parseIPv4], [ipString], [to4] and [parseMACsample] stand in for Go's
    [net.ParseIP], [IP.String], [IP.To4] and [net.ParseMAC] on dotted
    quads and on one hardware address. *)

Definition v4InV6Prefix : list nat := [0; 0; 0; 0; 0; 0; 0; 0; 0; 0; 255; 255]%nat.

Definition parseOctet (s : string) : option nat :=
  match Atoi s with
  | (v, true) => if (0 <=? v) && (v <=? 255) && allDigits s then Some (Z.to_nat v) else None
  | (_, false) => None
  end.

Definition parseIPv4 (s : string) : IP :=
  match map parseOctet (Split s ".") with
  | [Some a; Some b; Some c; Some d] => Some (v4InV6Prefix ++ [a; b; c; d])
  | _ => None
  end.

Definition to4 (ip : list nat) : IP :=
  if (length ip =? 4)%nat then Some ip
  else if (length ip =? 16)%nat && bool_decide (take 12 ip = v4InV6Prefix)
       then Some (drop 12 ip)
       else None.

Definition ipString (ip : IP) : string :=
  match ip with
  | None => "<nil>"
  | Some bs =>
      match to4 bs with
      | Some q => Join (map (fun b => Itoa (Z.of_nat b)) q) "."
      | None => "?"
      end
  end.

Definition parseMACsample (s : string) : option HardwareAddr :=
  if String.eqb s "aa:bb:cc:dd:ee:ff" then Some [170; 187; 204; 221; 238; 255]%nat
  else None.

Definition noHost {A} (_ : string) : result A := Err "no such host".

Definition mkSys (goos : string) (lookPath : string -> option string)
    (out : string -> list string -> result string)
    (combined : string -> list string -> string * option error)
    (ifByName : string -> result NetInterface)
    (ifs : result (list (NetInterface * result (list string))))
    (dial : result (option IP))
    (lookupHost : string -> result (list string)) : Sys :=
  {| GOOS := goos; LookPath := lookPath; Output := out; CombinedOutput := combined;
     InterfaceByName := ifByName; Interfaces := ifs; DialLocalAddr := dial;
     ParseIP := parseIPv4; IPString := ipString; To4 := to4; ParseMAC := parseMACsample;
     PathJoin := fun dir file => dir +:+ "/" +:+ file;
     LookupHost := lookupHost; LookupCNAME := noHost; LookupMX := noHost;
     LookupNS := noHost; LookupTXT := noHost; LookupAddr := noHost |}.

(** The outputs of the tools on a Linux host whose default route leaves
    through [iface]. *)
Definition linuxOutput (iface : string) (name : string) (args : list string)
    : result string :=
  if String.eqb name "/bin/ip" then
    Ok ("8.8.8.8 via 192.168.1.1 dev " +:+ iface +:+ " src 192.168.1.10 uid 1000" +:+ LF)
  else if String.eqb name "/sbin/ifconfig" then
    Ok (iface +:+ ": flags=4163 mtu 1500" +:+ LF +:+
        "        inet 192.168.1.10  netmask 255.255.255.0  broadcast 192.168.1.255" +:+ LF)
  else if String.eqb name "grep" then
    Ok ("  option domain-name-servers 8.8.8.8,8.8.4.4;" +:+ LF +:+
        "  option domain-name example.org;" +:+ LF)
  else if String.eqb name "arp" then
    Ok ("Address HWtype HWaddress Flags Mask Iface" +:+ LF +:+
        "192.168.1.1 ether aa:bb:cc:dd:ee:ff C " +:+ iface +:+ LF)
  else Err "exit status 1".

Definition noCombined (_ : string) (_ : list string) : string * option error :=
  ("", Some "exec: not found").

(** A Linux host with the interface [iface] of hardware address [hw]. *)
Definition linuxSys (iface : string) (hw : HardwareAddr) : Sys :=
  mkSys "linux" (fun f => Some f) (linuxOutput iface) noCombined
    (fun name => Ok {| Index := 2; Name := name; HardwareAddr_of := hw |})
    (Err "not used") (Err "not used") noHost.

(** A Linux host without the [ip] command. *)
Definition linuxNoIp : Sys :=
  mkSys "linux" (fun _ => None) (fun _ _ => Err "exit status 127") noCombined
    (fun _ => Err "no such network interface")
    (Err "not used") (Err "not used") noHost.

Definition eth0Sys : Sys := linuxSys "eth0" [2; 66; 172; 17; 0; 2]%nat.

(** A first call on a Linux host, a refresh that succeeds and a refresh
    that fails because the [ip] command has disappeared. *)
Definition eth0_first := GetConfig eth0Sys Cache_init.
Definition eth0_refreshed := RefreshConfig eth0Sys (state eth0_first).
Definition eth0_refresh_failed := RefreshConfig linuxNoIp (state eth0_first).

(** A Linux host on which [ip route] names the interface [eth0;reboot]. *)
Definition injectSys : Sys := linuxSys "eth0;reboot" [2; 66; 172; 17; 0; 2]%nat.

(** The candidate paths of the [ip] command and the route query. *)
Definition ipCandidates : list string := ["/bin/ip"; "/sbin/ip"; "/usr/bin/ip"; "/usr/sbin/ip"].
Definition routeArgs : list string := ["route"; "get"; "8.8.8.8"].

(** The [arp] query of discovery on Linux. *)
Definition isArpQuery (c : Call) : Prop := exists gw, c = CExec "arp" ["-e"; gw].

(** A Linux host on which [ip route] prints an error text of four words. *)
Definition shortRouteSys : Sys :=
  mkSys "linux" (fun f => Some f)
    (fun name _ => if String.eqb name "/bin/ip" then Ok "RTNETLINK answers: Network unreachable"
                   else Err "exit status 1")
    noCombined (fun _ => Err "no such network interface")
    (Err "not used") (Err "not used") noHost.

(** A Linux host whose route is on-link: [ip route] prints no gateway, so
    that the third field is no address (and the fields that follow are
    shifted); the interface table answers for every name. *)
Definition noGatewaySys : Sys :=
  mkSys "linux" (fun f => Some f)
    (fun name args =>
       if String.eqb name "/bin/ip"
       then Ok ("8.8.8.8 dev eth0 src 192.168.1.10 uid 1000 cache" +:+ LF)
       else linuxOutput "eth0" name args)
    noCombined
    (fun name => Ok {| Index := 2; Name := name; HardwareAddr_of := [2; 66; 172; 17; 0; 2]%nat |})
    (Err "not used") (Err "not used") noHost.

(** A Linux host whose default route leaves through the tunnel [tun0],
    an interface without hardware address. *)
Definition tunSys : Sys := linuxSys "tun0" [].

(** A Windows host on which no interface lists the local address that the
    probe found. *)
Definition windowsOutput (name : string) (args : list string) : result string :=
  if String.eqb name "ipconfig" then
    Ok ("Windows IP Configuration" +:+ CRLF +:+ CRLF +:+
        "Ethernet adapter Ethernet:" +:+ CRLF +:+ CRLF +:+
        "   Connection-specific DNS Suffix  . : lan" +:+ CRLF +:+
        "   IPv4 Address. . . . . . . . . . . : 192.168.1.10" +:+ CRLF +:+
        "   Subnet Mask . . . . . . . . . . . : 255.255.255.0" +:+ CRLF +:+
        "   Default Gateway . . . . . . . . . : 192.168.1.1" +:+ CRLF +:+
        "   DNS Servers . . . . . . . . . . . : 8.8.8.8" +:+ CRLF)
  else if String.eqb name "arp" then
    Ok (CRLF +:+ "Interface: 192.168.1.10 --- 0x4" +:+ CRLF +:+
        "  Internet Address      Physical Address      Type" +:+ CRLF +:+
        "  192.168.1.1           aa-bb-cc-dd-ee-ff     dynamic" +:+ CRLF)
  else Err "exit status 1".

Definition windowsSys : Sys :=
  mkSys "windows" (fun f => Some f) windowsOutput noCombined
    (fun _ => Err "not used")
    (Ok [({| Index := 1; Name := "Loopback Pseudo-Interface 1"; HardwareAddr_of := [] |},
          Ok ["127.0.0.1/8"])])
    (Ok (Some (Some [192; 168; 1; 10]%nat))) noHost.

(** The fields of a snapshot that name its interface. *)
Definition sameInterface (n n' : Network) : Prop :=
  InterfaceName n' = InterfaceName n /\ HardwareAddress n' = HardwareAddress n /\
  Interface n' = Interface n /\ LocalIP n' = LocalIP n.

(** The name and the hardware address of a snapshot are those of its
    interface descriptor, or all three are unset. *)
Definition interfaceConsistent (n : Network) : Prop :=
  match Interface n with
  | Some interf => InterfaceName n = Name interf /\ HardwareAddress n = HardwareAddr_of interf
  | None => InterfaceName n = "" /\ HardwareAddress n = []
  end.

(** An entry of the interface table whose addresses could be listed and
    one of which contains the text of the address [ip]. *)
Definition listsAddress (sys : Sys) (ip : IP)
    (entry : NetInterface * result (list string)) : bool :=
  match snd entry with
  | Ok addrs => existsb (fun addr => Contains addr (IPString sys ip)) addrs
  | Err _ => false
  end.

(** A Windows host on which [ipconfig] cannot be run. *)
Definition windowsNoIpconfig : Sys :=
  mkSys "windows" (fun f => Some f) (fun _ _ => Err "exec: ipconfig: not found") noCombined
    (fun _ => Err "not used")
    (Ok [({| Index := 4; Name := "Ethernet"; HardwareAddr_of := [0; 17; 34; 51; 68; 85]%nat |},
          Ok ["192.168.1.10/24"])])
    (Ok (Some (Some [192; 168; 1; 10]%nat))) noHost.

(** A Windows host with two interfaces, of which the first lists the
    probed address. *)
Definition windowsTwoInterfaces : Sys :=
  mkSys "windows" (fun f => Some f) windowsOutput noCombined
    (fun _ => Err "not used")
    (Ok [({| Index := 4; Name := "Ethernet"; HardwareAddr_of := [0; 17; 34; 51; 68; 85]%nat |},
          Ok ["192.168.1.10/24"]);
         ({| Index := 1; Name := "Loopback Pseudo-Interface 1"; HardwareAddr_of := [] |},
          Ok ["127.0.0.1/8"])])
    (Ok (Some (Some [192; 168; 1; 10]%nat))) noHost.

(** A Windows host on which the probe socket cannot be opened. *)
Definition windowsNoNetwork : Sys :=
  mkSys "windows" (fun f => Some f) windowsOutput noCombined
    (fun _ => Err "not used") (Ok []) (Err "dial udp 8.8.8.8:80: connect: network is unreachable")
    noHost.

(** ** Exact arithmetic, for the concrete evaluations of [Ping]

    The numbers are rationals and no operation rounds; [parseDecimalQ]
    reads the decimals that the patterns of ping.go capture. *)

Definition parseDecimalQ (s : string) : Q * bool :=
  match Split s "." with
  | [i] =>
      if allDigits i && negb (String.eqb i "") then (inject_Z (decimalValue 0 i), true)
      else (0%Q, false)
  | [i; f] =>
      if allDigits i && negb (String.eqb i "") && allDigits f && negb (String.eqb f "")
      then (Qmake (decimalValue 0 (i +:+ f)) (Pos.pow 10 (Pos.of_nat (len f))), true)
      else (0%Q, false)
  | _ => (0%Q, false)
  end.

Definition exactFloat64 : Float64 :=
  {| float64 := Q;
     f_of_int := inject_Z;
     fadd := Qplus;
     fmul := Qmult;
     fdiv := Qdiv;
     ftrunc := fun q => Z.quot (Qnum q) (Zpos (Qden q));
     ParseFloat := parseDecimalQ |}.

(** What [ping] prints on Windows when no echo comes back; its exit status
    is 1. *)
Definition windowsTimedOut : string :=
  CRLF +:+ "Pinging 10.255.255.1 with 32 bytes of data:" +:+ CRLF +:+
  "Request timed out." +:+ CRLF +:+ "Request timed out." +:+ CRLF +:+
  "Request timed out." +:+ CRLF +:+ "Request timed out." +:+ CRLF +:+ CRLF +:+
  "Ping statistics for 10.255.255.1:" +:+ CRLF +:+
  "    Packets: Sent = 4, Received = 0, Lost = 4 (100% loss)," +:+ CRLF.

Definition windowsPingSys : Sys :=
  mkSys "windows" (fun f => Some f) windowsOutput
    (fun _ _ => (windowsTimedOut, Some "exit status 1"))
    (fun _ => Err "not used") (Err "not used") (Err "not used") noHost.

(** What [ping] prints on Linux when every echo comes back. *)
Definition linuxReplies : string :=
  "PING 8.8.8.8 (8.8.8.8) 56(84) bytes of data." +:+ LF +:+
  "64 bytes from 8.8.8.8: icmp_seq=1 ttl=117 time=10.5 ms" +:+ LF +:+ LF +:+
  "--- 8.8.8.8 ping statistics ---" +:+ LF +:+
  "4 packets transmitted, 4 received, 0% packet loss, time 3003ms" +:+ LF +:+
  "rtt min/avg/max/mdev = 10.5/14.6/20.1/3.5 ms".

Definition linuxPingSys : Sys :=
  mkSys "linux" (fun f => Some f) (linuxOutput "eth0")
    (fun _ _ => (linuxReplies, None))
    (fun _ => Err "not used") (Err "not used") (Err "not used") noHost.

(** A Linux host on which no process can be started. *)
Definition linuxNoPingSys : Sys :=
  mkSys "linux" (fun _ => None) (fun _ _ => Err "exit status 127") noCombined
    (fun _ => Err "not used") (Err "not used") (Err "not used") noHost.

(** A caller's options whose three fields are zero, at address 0. *)
Definition zeroOptions : gmap ptr PingOptions :=
  {[ 0%nat := {| Count := 0; Timeout := 0; Size := 0 |} ]}.

(** The outputs that the tests of the package parse. *)
Definition windowsTestOutput : string :=
  LF +:+ "Pinging 8.8.8.8 with 32 bytes of data:" +:+ LF +:+
  "Reply from 8.8.8.8: bytes=32 time=10ms TTL=117" +:+ LF +:+
  "Reply from 8.8.8.8: bytes=32 time=15ms TTL=117" +:+ LF +:+
  "Reply from 8.8.8.8: bytes=32 time=12ms TTL=117" +:+ LF +:+
  "Reply from 8.8.8.8: bytes=32 time=20ms TTL=117" +:+ LF +:+ LF +:+
  "Ping statistics for 8.8.8.8:" +:+ LF +:+
  "    Packets: Sent = 4, Received = 4, Lost = 0 (0% loss)," +:+ LF +:+
  "Approximate round trip times in milli-seconds:" +:+ LF +:+
  "    Minimum = 10ms, Maximum = 20ms, Average = 14ms" +:+ LF.

Definition linuxTestOutput : string :=
  "PING 8.8.8.8 (8.8.8.8) 56(84) bytes of data." +:+ LF +:+
  "64 bytes from 8.8.8.8: icmp_seq=1 ttl=117 time=10.5 ms" +:+ LF +:+
  "64 bytes from 8.8.8.8: icmp_seq=2 ttl=117 time=15.2 ms" +:+ LF +:+
  "64 bytes from 8.8.8.8: icmp_seq=3 ttl=117 time=12.8 ms" +:+ LF +:+
  "64 bytes from 8.8.8.8: icmp_seq=4 ttl=117 time=20.1 ms" +:+ LF +:+ LF +:+
  "--- 8.8.8.8 ping statistics ---" +:+ LF +:+
  "4 packets transmitted, 4 received, 0% packet loss, time 3003ms" +:+ LF +:+
  "rtt min/avg/max/mdev = 10.5/14.6/20.1/3.5 ms".

(** The address and the store that [Ping] works on: the caller's, or a
    new value made by [DefaultPingOptions] when the caller passes nil. *)
Definition optionsAddress (options : option ptr) (st : gmap ptr PingOptions) : ptr :=
  match options with
  | Some p => p
  | None => fresh (dom st)
  end.

Definition optionsStore (sys : Sys) (options : option ptr) (st : gmap ptr PingOptions)
    : gmap ptr PingOptions :=
  match options with
  | Some _ => st
  | None => <[fresh (dom st) := defaultOptions sys]> st
  end.

(** The three assignments of [Ping] to an options value. *)
Definition validated (o : PingOptions) : PingOptions :=
  {| Count := if Count o <=? 0 then 4 else Count o;
     Timeout := if Timeout o <=? 0 then 4 * Second else Timeout o;
     Size := if Size o <=? 0 then 32 else Size o |}.

(** The elements of a list in the order of their first occurrence, each
    once: an element is kept and its later occurrences are dropped. *)
Fixpoint firstOccurrences (l : list string) : list string :=
  match l with
  | [] => []
  | x :: rest => x :: filter (fun y => y <> x) (firstOccurrences rest)
  end.

(** A host whose resolver answers for [example.com] with a repeated
    address. *)
Definition dnsSys : Sys :=
  mkSys "linux" (fun f => Some f) (linuxOutput "eth0") noCombined
    (fun _ => Err "not used") (Err "not used") (Err "not used")
    (fun host =>
       if String.eqb host "example.com"
       then Ok ["93.184.216.34"; "2606:2800:220:1::1"; "93.184.216.34"]
       else Err "no such host").

(** ** Ping: an output without a line of packet statistics *)

(** The text by which the parser of the platform recognises the line of
    the packet statistics. *)
Definition statisticsMark (sys : Sys) : string :=
  if isWindows sys then "Packets:" else "packets transmitted".

(** No line of the output is taken for the line of the packet
    statistics. *)
Definition noStatistics (sys : Sys) (output : string) : bool :=
  forallb (fun line => negb (Contains (TrimSpace line) (statisticsMark sys)))
    (Split output LF).

(** The three packet counters of a result. *)
Definition packetCounters {F : Float64} (r : PingResult) : Z * Z * Z :=
  (Sent r, Received r, Lost r).

(** The statistics that a German Windows prints when every echo comes
    back. *)
Definition windowsGermanReplies : string :=
  "    Pakete: Gesendet = 4, Empfangen = 4, Verloren = 0" +:+ CRLF +:+
  "    (0% Verlust)," +:+ CRLF +:+
  "Ca. Zeitangaben in Millisek.:" +:+ CRLF +:+
  "    Minimum = 10ms, Maximum = 20ms, Mittelwert = 14ms" +:+ CRLF.

Definition windowsGermanSys : Sys :=
  mkSys "windows" (fun f => Some f) windowsOutput
    (fun _ _ => (windowsGermanReplies, None))
    (fun _ => Err "not used") (Err "not used") (Err "not used") noHost.

(** ** DNS lookups: the text of a record set *)

(** [strings.Repeat]. *)
Fixpoint Repeat (s : string) (count : nat) : string :=
  match count with
  | O => ""
  | S k => s +:+ Repeat s k
  end.

(** What a [strings.Builder] holds after the strings of [parts] have been
    written to it in order. *)
Fixpoint written (parts : list string) : string :=
  match parts with
  | [] => ""
  | part :: rest => part +:+ written rest
  end.

(** The lines ["  - %s\n"] of a category. *)
Definition recordLines (xs : list string) : list string :=
  map (fun x => "  - " +:+ x +:+ LF) xs.

(** A category: nothing when it is empty, else its title and its lines. *)
Definition category (title : string) (lines : list string) : string :=
  if (0 <? length lines)%nat then written ((title +:+ LF) :: lines) else "".

Definition mxLine (mx : DNS.MXRecord) : string :=
  "  - Priority " +:+ Itoa (DNS.Priority mx) +:+ ": " +:+ DNS.Host mx +:+ LF.

Definition soaText (soa : option DNS.SOARecord) : string :=
  match soa with
  | Some r =>
      written
        [ "SOA Record:" +:+ LF;
          "  - Primary NS: " +:+ DNS.SOA_NS r +:+ LF;
          if negb (String.eqb (DNS.Mbox r) "") then "  - Contact: " +:+ DNS.Mbox r +:+ LF
          else "" ]
  | None => ""
  end.

(** The parts that [String] writes, in order. *)
Definition DNSRecords_parts (r : DNS.DNSRecords) : list string :=
  [ "DNS Records for " +:+ DNS.Domain r +:+ ":" +:+ LF;
    Repeat "-" 50 +:+ LF;
    category "A Records (IPv4):" (recordLines (DNS.A r));
    category "AAAA Records (IPv6):" (recordLines (DNS.AAAA r));
    category "CNAME Records:" (recordLines (DNS.CNAME r));
    category "MX Records (Mail):" (map mxLine (DNS.MX r));
    category "NS Records (Name Servers):" (recordLines (DNS.NS r));
    category "TXT Records (includes SPF):" (recordLines (DNS.TXT r));
    soaText (DNS.SOA r);
    category "PTR Records (Reverse DNS):" (recordLines (DNS.PTR r)) ].

(** The method [String] of [DNSRecords]. *)
Definition DNSRecords_String (r : DNS.DNSRecords) : string :=
  written (DNSRecords_parts r).

(** The record set without any record. *)
Definition emptyRecords (domain : string) : DNS.DNSRecords :=
  {| DNS.Domain := domain; DNS.A := []; DNS.AAAA := []; DNS.CNAME := []; DNS.MX := [];
     DNS.NS := []; DNS.TXT := []; DNS.SOA := None; DNS.PTR := [] |}.

(** An answer of the resolver that parses as an IPv4 address, or as an
    address that is no IPv4 address. *)
Definition isIPv4 (sys : Sys) (addr : string) : bool :=
  match ParseIP sys addr with
  | Some ip => match To4 sys ip with Some _ => true | None => false end
  | None => false
  end.

Definition isIPv6 (sys : Sys) (addr : string) : bool :=
  match ParseIP sys addr with
  | Some ip => match To4 sys ip with Some _ => false | None => true end
  | None => false
  end.

(** The queries of [Resolve] for a domain, in order. *)
Definition resolveCalls (sys : Sys) (domain : string) : list Call :=
  [CLookupHost domain; CLookupCNAME domain; CLookupMX domain; CLookupNS domain;
   CLookupTXT domain; CLookupNS domain]
  ++ match ParseIP sys domain with
     | Some _ => [CLookupAddr domain]
     | None => []
     end.

(** What [Resolve] makes of the answers of the resolver for a domain. *)
Definition resolved (sys : Sys) (domain : string) : DNS.DNSRecords :=
  {| DNS.Domain := domain;
     DNS.A := match LookupHost sys domain with
              | Ok addrs => List.filter (isIPv4 sys) addrs
              | Err _ => []
              end;
     DNS.AAAA := match LookupHost sys domain with
                 | Ok addrs => List.filter (isIPv6 sys) addrs
                 | Err _ => []
                 end;
     DNS.CNAME := match LookupCNAME sys domain with
                  | Ok cname =>
                      if negb (String.eqb cname (domain +:+ ".")) then [TrimSuffix cname "."]
                      else []
                  | Err _ => []
                  end;
     DNS.MX := match LookupMX sys domain with
               | Ok mxRecords =>
                   map (fun m => {| DNS.Host := TrimSuffix (mxHost m) ".";
                                    DNS.Priority := mxPref m |}) mxRecords
               | Err _ => []
               end;
     DNS.NS := match LookupNS sys domain with
               | Ok nsRecords => map (fun h => TrimSuffix h ".") nsRecords
               | Err _ => []
               end;
     DNS.TXT := match LookupTXT sys domain with
                | Ok txtRecords => txtRecords
                | Err _ => []
                end;
     DNS.SOA := match LookupNS sys domain with
                | Ok (ns0 :: _) =>
                    Some {| DNS.SOA_NS := TrimSuffix ns0 "."; DNS.Mbox := ""; DNS.Serial := 0;
                            DNS.Refresh := 0; DNS.Retry := 0; DNS.Expire := 0;
                            DNS.MinTTL := 0 |}
                | _ => None
                end;
     DNS.PTR := match ParseIP sys domain with
                | Some _ =>
                    match LookupAddr sys domain with
                    | Ok names => names
                    | Err _ => []
                    end
                | None => []
                end |}.

(** A host whose resolver fails for every query. *)
Definition noDnsSys : Sys :=
  mkSys "linux" (fun f => Some f) (linuxOutput "eth0") noCombined
    (fun _ => Err "not used") (Err "not used") (Err "not used") noHost.

(** A host whose resolver answers for [example.com] with addresses, name
    servers and a mail exchanger. *)
Definition fullDnsSys : Sys :=
  {| GOOS := "linux"; LookPath := fun f => Some f; Output := linuxOutput "eth0";
     CombinedOutput := noCombined; InterfaceByName := fun _ => Err "not used";
     Interfaces := Err "not used"; DialLocalAddr := Err "not used";
     ParseIP := fun a => if String.eqb a "2606:2800:220:1::1"
                         then Some [38; 6; 40; 0; 2; 32; 0; 1; 0; 0; 0; 0; 0; 0; 0; 1]%nat
                         else parseIPv4 a;
     IPString := ipString; To4 := to4; ParseMAC := parseMACsample;
     PathJoin := fun dir file => dir +:+ "/" +:+ file;
     LookupHost := fun h => if String.eqb h "example.com"
                            then Ok ["93.184.216.34"; "2606:2800:220:1::1"; "93.184.216.34";
                                     "not-an-address"]
                            else Err "no such host";
     LookupCNAME := fun h => Ok (h +:+ ".");
     LookupMX := fun _ => Ok [{| mxHost := "mail.example.com."; mxPref := 10 |}];
     LookupNS := fun _ => Ok ["a.iana-servers.net."; "b.iana-servers.net."];
     LookupTXT := fun _ => Ok ["v=spf1 -all"];
     LookupAddr := noHost |}.

(** * Properties *)

(** ** The tests of the package, on the embedding *)

Example TestExtractDotted :
  extractDotted test_lines "DNS Servers" = ["8.8.8.8"; "8.8.4.4"; "1.1.1.1"] /\
  extractDotted test_lines "Default Gateway" = ["192.168.1.1"] /\
  extractDotted test_lines "NonExistent" = [""].
Proof. repeat split; vm_compute; reflexivity. Qed.

Example TestFindCommand :
  outcome (findCommand linuxNoIp "nonexistentcommand"
             ["/nonexistent/path"; "/another/nonexistent"] tt) = Ok "".
Proof. reflexivity. Qed.

Example TestPingWindowsOutputParsing :
  let r := parseWindowsPingOutput (F := exactFloat64) windowsTestOutput
             (PingResult_new "8.8.8.8") in
  Sent r = 4 /\ Received r = 4 /\ Lost r = 0 /\
  MinRTT r = 10 * Millisecond /\ MaxRTT r = 20 * Millisecond /\
  AvgRTT r = 14 * Millisecond.
Proof. vm_compute. repeat split. Qed.

Example TestPingLinuxOutputParsing :
  let r := parseLinuxPingOutput (F := exactFloat64) linuxTestOutput
             (PingResult_new "8.8.8.8") in
  Sent r = 4 /\ Received r = 4 /\ (PacketLoss r == 0)%Q.
Proof. vm_compute. repeat split. Qed.

(** ** Strings *)

Lemma append_cons (c : ascii) (s t : string) : String c s +:+ t = String c (s +:+ t).
Proof. reflexivity. Qed.

Lemma append_empty_r (s : string) : s +:+ "" = s.
Proof. induction s as [|c s IH]; [reflexivity | now rewrite append_cons, IH]. Qed.

Lemma append_assoc (s t u : string) : (s +:+ t) +:+ u = s +:+ (t +:+ u).
Proof. induction s as [|c s IH]; [reflexivity | now rewrite !append_cons, IH]. Qed.

Lemma splitAux_not_nil (sep : string) (s : string) :
  forall skip cur, splitAux sep skip cur s <> [].
Proof.
  induction s as [|c s IH]; intros skip cur; cbn [splitAux].
  - intros H; discriminate H.
  - destruct skip as [|k]; [|apply IH].
    destruct (String.prefix sep (String c s)); [intros H; discriminate H | apply IH].
Qed.

Lemma Split_not_nil (s sep : string) : Split s sep <> [].
Proof. apply splitAux_not_nil. Qed.

(** ** The dotted-field extractor *)

Lemma extractLoop_no_label (key : string) (lines : list string) (result : string) :
  Forall (fun l => labelLine key l = false) lines ->
  extractLoop key lines false result = result.
Proof.
  induction 1 as [|l ls Hl _ IH]; cbn [extractLoop negb]; [reflexivity|].
  unfold labelLine in Hl. rewrite Hl. exact IH.
Qed.

Lemma extractLoop_skip (key : string) (pre rest : list string) (result : string) :
  Forall (fun l => labelLine key l = false) pre ->
  extractLoop key (pre ++ rest) false result = extractLoop key rest false result.
Proof.
  induction 1 as [|l ls Hl _ IH]; cbn [extractLoop negb app]; [reflexivity|].
  unfold labelLine in Hl. rewrite Hl. exact IH.
Qed.

Lemma Join_snoc (x : string) (vs : list string) (v : string) :
  Join (x :: vs ++ [v]) "," = Join (x :: vs) "," +:+ "," +:+ v.
Proof.
  revert x. induction vs as [|y vs IH]; intros x.
  - reflexivity.
  - change (Join (x :: (y :: vs) ++ [v]) ",") with (x +:+ "," +:+ Join (y :: vs ++ [v]) ",").
    rewrite IH.
    change (Join (x :: y :: vs) ",") with (x +:+ "," +:+ Join (y :: vs) ",").
    now rewrite !append_assoc.
Qed.

Lemma extractLoop_conts (key : string) (conts rest : list string) :
  Forall (fun l => contLine l = true) conts ->
  (rest = [] \/ exists l rest', rest = l :: rest' /\ contLine l = false) ->
  forall (x : string) (vs : list string),
    extractLoop key (conts ++ rest) true (Join (x :: vs) ",")
    = Join (x :: vs ++ map (fun c => TrimSpace (sdrop 39 c)) conts) ",".
Proof.
  intros Hc Hrest. induction Hc as [|c cs Hcl _ IH]; intros x vs.
  - rewrite app_nil_r. simpl app.
    destruct Hrest as [-> | (l & rest' & -> & Hl)]; [reflexivity|].
    cbn [extractLoop negb]. unfold contLine in Hl. now rewrite Hl.
  - simpl app. cbn [extractLoop negb]. unfold contLine in Hcl. rewrite Hcl.
    rewrite <- Join_snoc. rewrite IH. cbn [map]. now rewrite <- app_assoc.
Qed.

(** C4 (as the specification states it).  On the two lines of the
    specification's example the label column ends at byte 43, not 39, and
    [extractDotted] does not return ["8.8.8.8"; "8.8.4.4"]: its first
    element is the text from byte 39 on, [". : 8.8.8.8"].  And a line
    whose trimmed form starts with the label, with the value at byte 39,
    is not selected when it does not start with three spaces. *)
Lemma extractDotted_spec_example_differs :
  extractDotted spec_example_lines "Key" = [". : 8.8.8.8"; "8.8.4.4"] /\
  extractDotted spec_example_lines "Key" <> ["8.8.8.8"; "8.8.4.4"] /\
  (HasPrefix (TrimSpace (idx unindented_lines 0)) "Key" = true /\
   sdrop 39 (idx unindented_lines 0) = "8.8.8.8" /\
   extractDotted unindented_lines "Key" = [""]).
Proof.
  split; [vm_compute; reflexivity|].
  split; [vm_compute; intros H; discriminate H|].
  repeat split; vm_compute; reflexivity.
Qed.

(** C4 (amended).  [extractDotted] never returns an empty list; it returns
    [[""]] when no line starts with three spaces and the label and is
    longer than 39 bytes; otherwise, for the first such line followed by
    continuation lines (longer than 39 bytes, first 39 bytes blank) and
    then by the end of the input or a line that is no continuation, it
    returns the pieces between commas of: the text of the selected line
    from byte 39 on and the trimmed texts from byte 39 on of the
    continuation lines, joined by commas, without leading and trailing
    commas.  On the example laid out with the value at byte 39 this is
    ["8.8.8.8"; "8.8.4.4"]. *)
Theorem extractDotted_contract :
  (forall lines key, extractDotted lines key <> []) /\
  (forall lines key,
      Forall (fun l => labelLine key l = false) lines ->
      extractDotted lines key = [""]) /\
  (forall key pre line conts rest,
      Forall (fun l => labelLine key l = false) pre ->
      labelLine key line = true ->
      Forall (fun l => contLine l = true) conts ->
      (rest = [] \/ exists l rest', rest = l :: rest' /\ contLine l = false) ->
      extractDotted (pre ++ line :: conts ++ rest) key
      = Split (Trim (joinedValues line conts) ",") ",") /\
  extractDotted column39_lines "Key" = ["8.8.8.8"; "8.8.4.4"].
Proof.
  repeat split.
  - intros lines key. apply Split_not_nil.
  - intros lines key H. unfold extractDotted.
    rewrite (extractLoop_no_label _ _ _ H). reflexivity.
  - intros key pre line conts rest Hpre Hline Hconts Hrest. unfold extractDotted.
    rewrite (extractLoop_skip _ _ _ _ Hpre). cbn [extractLoop negb].
    unfold labelLine in Hline. rewrite Hline. rewrite append_empty_r.
    change (sdrop 39 line) with (Join (sdrop 39 line :: []) ",") at 1.
    rewrite (extractLoop_conts _ _ _ Hconts Hrest). reflexivity.
Qed.

Lemma extractDotted_contract_witness :
  extractDotted test_lines "DNS Servers" = ["8.8.8.8"; "8.8.4.4"; "1.1.1.1"].
Proof.
  pose proof (proj1 (proj2 (proj2 extractDotted_contract))) as H.
  specialize (H "DNS Servers"
    [ "   Description . . . . . . . . . . . : Ethernet Adapter";
      "   Physical Address. . . . . . . . . : 00-11-22-33-44-55" ]
    "   DNS Servers . . . . . . . . . . . : 8.8.8.8"
    [ "                                        8.8.4.4";
      "                                        1.1.1.1" ]
    [ "   Default Gateway . . . . . . . . . : 192.168.1.1" ]).
  etransitivity; [apply H|].
  - repeat constructor.
  - reflexivity.
  - repeat constructor.
  - right. eexists _, _. split; [reflexivity | reflexivity].
  - vm_compute. reflexivity.
Defined.

(** ** The configuration cache *)

Lemma GetConfig_cached (sys : Sys) (st : Cache) (p : ptr) :
  instance st = Some p -> GetConfig sys st = ([], st, Ok p).
Proof. intros H. unfold GetConfig. now rewrite H. Qed.

(** What a call of [GetConfig] does, by cases. *)
Lemma GetConfig_cases (sys : Sys) (st : Cache) :
  (exists p, instance st = Some p /\ GetConfig sys st = ([], st, Ok p)) \/
  (instance st = None /\
   exists t n e, discover sys Network_zero = (t, n, Err e) /\
                 GetConfig sys st = (t, st, Err e)) \/
  (instance st = None /\
   exists t n, discover sys Network_zero = (t, n, Ok tt) /\
               GetConfig sys st =
               (t, {| instance := Some (fresh (dom (heap st)));
                      heap := <[fresh (dom (heap st)) := n]> (heap st) |},
                Ok (fresh (dom (heap st))))).
Proof.
  unfold GetConfig. destruct (instance st) as [p|] eqn:Hi.
  - left. now exists p.
  - right. destruct (discover sys Network_zero) as [[t n] [[]|e]] eqn:Hd.
    + right. split; [reflexivity|]. now exists t, n.
    + left. split; [reflexivity|]. now exists t, n, e.
Qed.

Lemma RefreshConfig_unfold (sys : Sys) (st : Cache) :
  RefreshConfig sys st = GetConfig sys {| instance := None; heap := heap st |}.
Proof.
  unfold RefreshConfig, bind, modify.
  destruct (GetConfig sys _) as [[t s] r]. reflexivity.
Qed.

Lemma GetConfig_allocated (sys : Sys) (st : Cache) :
  cached_allocated st -> cached_allocated (state (GetConfig sys st)).
Proof.
  intros Hst.
  destruct (GetConfig_cases sys st)
    as [(p & Hi & ->) | [(Hi & t & n & e & _ & ->) | (Hi & t & n & _ & ->)]];
    cbn [state fst snd]; try exact Hst.
  intros p [= <-]. cbn [heap]. rewrite dom_insert. set_solver.
Qed.

Lemma reachable_allocated (st : Cache) : reachable st -> cached_allocated st.
Proof.
  induction 1 as [|sys st _ IH|sys st _ IH].
  - intros p H. discriminate H.
  - now apply GetConfig_allocated.
  - rewrite RefreshConfig_unfold. apply GetConfig_allocated.
    intros p H. discriminate H.
Qed.

(** After a call that returned [p], the cache holds [p], an allocated
    address. *)
Lemma GetConfig_Ok (sys : Sys) (st st1 : Cache) (t : list Call) (p : ptr) :
  cached_allocated st ->
  GetConfig sys st = (t, st1, Ok p) ->
  instance st1 = Some p /\ p ∈ dom (heap st1).
Proof.
  intros Hst H.
  destruct (GetConfig_cases sys st)
    as [(q & Hi & E) | [(Hi & t' & n & e & _ & E) | (Hi & t' & n & _ & E)]];
    rewrite E in H; inversion H; subst; clear H.
  - split; [assumption | now apply Hst].
  - split; [reflexivity|]. cbn [heap]. rewrite dom_insert. set_solver.
Qed.

Lemma GetConfigs_cached (syss : list Sys) (st : Cache) (p : ptr) :
  instance st = Some p ->
  GetConfigs syss st = (map (fun _ => ([], Ok p)) syss, st).
Proof.
  intros Hi. induction syss as [|sys rest IH]; [reflexivity|].
  cbn [GetConfigs map]. rewrite (GetConfig_cached sys st p Hi).
  cbn [state calls outcome fst snd]. now rewrite IH.
Qed.

(** C2.  Once [GetConfig] has returned the address [p] of a snapshot,
    every later [GetConfig], whatever the system would answer, returns the
    same address [p], issues no external call and leaves the cache as it
    is; and when a [RefreshConfig] then succeeds, the [GetConfig] that
    follows it returns an address different from [p] (the one that the
    refresh returned). *)
Theorem cache_discipline (sys0 : Sys) (st st1 : Cache) (t0 : list Call) (p : ptr) :
  reachable st ->
  GetConfig sys0 st = (t0, st1, Ok p) ->
  (forall syss, GetConfigs syss st1 = (map (fun _ => ([], Ok p)) syss, st1)) /\
  (forall sys1 t1 q st2 sys2,
      RefreshConfig sys1 st1 = (t1, st2, Ok q) ->
      GetConfig sys2 st2 = ([], st2, Ok q) /\ q <> p).
Proof.
  intros Hr H0.
  destruct (GetConfig_Ok _ _ _ _ _ (reachable_allocated _ Hr) H0) as [Hi Hp].
  split.
  - intros syss. now apply GetConfigs_cached.
  - intros sys1 t1 q st2 sys2 H1. rewrite RefreshConfig_unfold in H1.
    destruct (GetConfig_cases sys1 {| instance := None; heap := heap st1 |})
      as [(q' & Hq & _) | [(_ & t' & n & e & _ & E) | (_ & t' & n & _ & E)]].
    + discriminate Hq.
    + rewrite E in H1. discriminate H1.
    + rewrite E in H1. inversion H1; subst; clear H1. cbn [heap] in *.
      split; [now apply GetConfig_cached|].
      intros Heq. rewrite <- Heq in Hp. exact (is_fresh _ Hp).
Qed.

Lemma cache_discipline_witness :
  outcome eth0_first = Ok 0%nat /\
  GetConfigs [linuxNoIp; eth0Sys] (state eth0_first)
  = ([([], Ok 0%nat); ([], Ok 0%nat)], state eth0_first) /\
  outcome eth0_refreshed = Ok 1%nat /\
  GetConfig linuxNoIp (state eth0_refreshed) = ([], state eth0_refreshed, Ok 1%nat) /\
  1%nat <> 0%nat.
Proof.
  assert (E0 : GetConfig eth0Sys Cache_init = (calls eth0_first, state eth0_first, Ok 0%nat))
    by (vm_compute; reflexivity).
  assert (E1 : RefreshConfig eth0Sys (state eth0_first)
               = (calls eth0_refreshed, state eth0_refreshed, Ok 1%nat))
    by (vm_compute; reflexivity).
  destruct (cache_discipline eth0Sys Cache_init (state eth0_first) (calls eth0_first) 0%nat
              reachable_init E0) as [Hsame Hfresh].
  split; [vm_compute; reflexivity|].
  split; [exact (Hsame [linuxNoIp; eth0Sys])|].
  split; [vm_compute; reflexivity|].
  exact (Hfresh eth0Sys (calls eth0_refreshed) 1%nat (state eth0_refreshed) linuxNoIp E1).
Defined.

(** C3 (as the specification states it).  A snapshot is cached at address
    0; a [RefreshConfig] whose discovery fails leaves the cache empty, and
    the [GetConfig] calls that follow do not return the prior snapshot:
    they fail while discovery fails and return a new address when it
    succeeds again. *)
Lemma failed_refresh_drops_snapshot :
  outcome eth0_first = Ok 0%nat /\
  instance (state eth0_first) = Some 0%nat /\
  outcome eth0_refresh_failed = Err "ip command not found" /\
  instance (state eth0_refresh_failed) = None /\
  outcome (GetConfig linuxNoIp (state eth0_refresh_failed)) = Err "ip command not found" /\
  outcome (GetConfig eth0Sys (state eth0_refresh_failed)) = Ok 1%nat.
Proof. repeat split; vm_compute; reflexivity. Qed.

(** C3 (amended).  When discovery fails no snapshot is produced, and the
    snapshots allocated before keep their addresses and values.  A
    [GetConfig] that fails found the cache empty and leaves the cache as
    it was.  A [RefreshConfig] that fails leaves the cache empty: a later
    [GetConfig] runs discovery again and, when it succeeds, returns the
    address of a new snapshot, the snapshots allocated before being
    unchanged. *)
Theorem discovery_failure (sys : Sys) (st st' : Cache) (t : list Call) (e : error) :
  (GetConfig sys st = (t, st', Err e) -> instance st = None /\ st' = st) /\
  (RefreshConfig sys st = (t, st', Err e) ->
   instance st' = None /\ heap st' = heap st /\
   forall sys2 t2 st2 q,
     GetConfig sys2 st' = (t2, st2, Ok q) ->
     (q ∉ dom (heap st)) /\
     forall p, p ∈ dom (heap st) -> heap st2 !! p = heap st !! p).
Proof.
  assert (Hfail : forall s s', GetConfig sys s = (t, s', Err e) ->
                               instance s = None /\ s' = s).
  { intros s s' H.
    destruct (GetConfig_cases sys s)
      as [(p & Hi & E) | [(Hi & t' & n & e' & _ & E) | (Hi & t' & n & _ & E)]];
      rewrite E in H; inversion H; subst; clear H.
    now split. }
  split; [apply Hfail|].
  intros H. rewrite RefreshConfig_unfold in H.
  destruct (Hfail _ _ H) as [_ ->]. cbn [instance heap].
  split; [reflexivity|]. split; [reflexivity|].
  intros sys2 t2 st2 q H2.
  destruct (GetConfig_cases sys2 {| instance := None; heap := heap st |})
    as [(p & Hi & _) | [(_ & t' & n & e' & _ & E) | (_ & t' & n & _ & E)]].
  - discriminate Hi.
  - rewrite E in H2. discriminate H2.
  - rewrite E in H2. inversion H2; subst; clear H2. cbn [heap].
    split; [apply is_fresh|].
    intros p Hp. apply lookup_insert_ne. intros Heq. subst p.
    exact (is_fresh _ Hp).
Qed.

Lemma discovery_failure_witness :
  (instance Cache_init = None /\ state (GetConfig linuxNoIp Cache_init) = Cache_init) /\
  instance (state eth0_refresh_failed) = None /\
  heap (state eth0_refresh_failed) = heap (state eth0_first) /\
  1%nat ∉ dom (heap (state eth0_first)).
Proof.
  assert (E0 : GetConfig linuxNoIp Cache_init
               = (calls (GetConfig linuxNoIp Cache_init),
                  state (GetConfig linuxNoIp Cache_init), Err "ip command not found"))
    by (vm_compute; reflexivity).
  assert (E1 : RefreshConfig linuxNoIp (state eth0_first)
               = (calls eth0_refresh_failed, state eth0_refresh_failed,
                  Err "ip command not found"))
    by (vm_compute; reflexivity).
  assert (E2 : GetConfig eth0Sys (state eth0_refresh_failed)
               = (calls (GetConfig eth0Sys (state eth0_refresh_failed)),
                  state (GetConfig eth0Sys (state eth0_refresh_failed)), Ok 1%nat))
    by (vm_compute; reflexivity).
  split.
  - exact (proj1 (discovery_failure linuxNoIp Cache_init _ _ _) E0).
  - destruct (proj2 (discovery_failure linuxNoIp (state eth0_first) _ _ _) E1)
      as (Hi & Hh & Hlater).
    split; [exact Hi|]. split; [exact Hh|].
    exact (proj1 (Hlater eth0Sys _ _ _ E2)).
Defined.

(** ** The monad *)

Lemma bind_Ok {S A B} (m : M S A) (k : A -> M S B) (s s' : S) (t : list Call) (b : B) :
  bind m k s = (t, s', Ok b) ->
  exists t1 s1 a t2, m s = (t1, s1, Ok a) /\ k a s1 = (t2, s', Ok b) /\ t = t1 ++ t2.
Proof.
  unfold bind. destruct (m s) as [[t1 s1] [a|e]]; [|intros H; discriminate H].
  destruct (k a s1) as [[t2 s2] r] eqn:Hk. intros [= <- <- ->].
  now exists t1, s1, a, t2.
Qed.

Lemma bind_run {S A B} (m : M S A) (k : A -> M S B) (s s1 : S) (t1 : list Call) (a : A) :
  m s = (t1, s1, Ok a) ->
  bind m k s = (t1 ++ calls (k a s1), state (k a s1), outcome (k a s1)).
Proof.
  intros H. unfold bind. rewrite H. now destruct (k a s1) as [[t2 s2] r].
Qed.

Lemma bind_assoc {S A B C} (m : M S A) (k : A -> M S B) (h : B -> M S C) (s : S) :
  bind (bind m k) h s = bind m (fun a => bind (k a) h) s.
Proof.
  unfold bind. destruct (m s) as [[t1 s1] [a|e]]; [|reflexivity].
  destruct (k a s1) as [[t2 s2] [b|e]]; [|reflexivity].
  destruct (h b s2) as [[t3 s3] r]. now rewrite app_assoc.
Qed.

Lemma bind_ext {S A B} (m : M S A) (k k' : A -> M S B) (s : S) :
  (forall a s1, k a s1 = k' a s1) -> bind m k s = bind m k' s.
Proof.
  intros H. unfold bind. destruct (m s) as [[t1 s1] [a|e]]; [|reflexivity].
  now rewrite H.
Qed.

Lemma get_bind {S B} (k : S -> M S B) (s : S) : bind get k s = k s s.
Proof. unfold bind, get. now destruct (k s s) as [[t s'] r]. Qed.

Lemma modify_bind {S B} (f : S -> S) (k : unit -> M S B) (s : S) :
  bind (modify f) k s = k tt (f s).
Proof. unfold bind, modify. now destruct (k tt (f s)) as [[t s'] r]. Qed.

Lemma emit_bind {S B} (c : Call) (k : unit -> M S B) (s : S) :
  bind (emit c) k s = (c :: calls (k tt s), state (k tt s), outcome (k tt s)).
Proof. unfold bind, emit. now destruct (k tt s) as [[t s'] r]. Qed.

(** ** Command lookup *)

Lemma lookPath_run {S} (sys : Sys) (file : string) (s : S) :
  lookPath sys file s = ([CLookPath file], s, Ok (LookPath sys file)).
Proof. reflexivity. Qed.

Lemma findCommandPaths_run {S} (sys : Sys) (paths : list string) (s : S) :
  exists t r, findCommandPaths sys paths s = (t, s, Ok r) /\ Forall isLookPath t.
Proof.
  induction paths as [|path rest (t & r & E & Ht)].
  - exists [], None. split; [reflexivity | constructor].
  - cbn [findCommandPaths]. rewrite (bind_run _ _ _ _ _ _ (lookPath_run sys path s)).
    destruct (LookPath sys path).
    + eexists _, _. split; [reflexivity|]. repeat constructor. now exists path.
    + rewrite E. eexists _, _. split; [reflexivity|].
      repeat constructor; [now exists path | exact Ht].
Qed.

(** [findCommand] never fails, leaves the state alone and only looks
    paths up. *)
Lemma findCommand_run {S} (sys : Sys) (name : string) (paths : list string) (s : S) :
  exists t r, findCommand sys name paths s = (t, s, Ok r) /\ Forall isLookPath t.
Proof.
  unfold findCommand.
  destruct (findCommandPaths_run sys paths s) as (t & [path|] & E & Ht);
    rewrite (bind_run _ _ _ _ _ _ E).
  - exists (t ++ []), path. split; [reflexivity|]. now rewrite app_nil_r.
  - rewrite (bind_run _ _ _ _ _ _ (lookPath_run sys name s)).
    destruct (LookPath sys name); eexists _, _; (split; [reflexivity|]);
      apply Forall_app; (split; [exact Ht|]); repeat constructor; now exists name.
Qed.

Lemma lookPath_not_lease (t : list Call) :
  Forall isLookPath t -> Forall (fun c => ~ isLeaseLookup c) t.
Proof.
  intros Ht. eapply Forall_impl; [exact Ht|].
  intros c [file ->] [path H]. discriminate H.
Qed.

(** ** Discovery on Linux *)

Lemma output_run {S} (sys : Sys) (name : string) (args : list string) (s : S) :
  output sys name args s = ([CExec name args], s, Output sys name args).
Proof.
  unfold output, bind, emit, lift, ret, fail.
  now destruct (Output sys name args).
Qed.

Lemma output_Ok {S A} (sys : Sys) (name : string) (args : list string)
    (k : string -> M S A) (s s' : S) (t : list Call) (a : A) :
  bind (output sys name args) k s = (t, s', Ok a) ->
  exists out, Output sys name args = Ok out /\
              t = CExec name args :: calls (k out s) /\
              s' = state (k out s) /\ outcome (k out s) = Ok a.
Proof.
  unfold bind. rewrite output_run.
  destruct (Output sys name args) as [out|e]; [|intros H; discriminate H].
  destruct (k out s) as [[t2 s2] r] eqn:Hk. intros [= <- <- ->].
  exists out. now rewrite Hk.
Qed.

Lemma linuxRoute_Ok (sys : Sys) (n0 n : Network) (t : list Call) :
  linuxRoute sys n0 = (t, n, Ok tt) ->
  exists t1 ipCmd out,
    Forall isLookPath t1 /\
    t = t1 ++ [CExec ipCmd ["route"; "get"; "8.8.8.8"]] /\
    Output sys ipCmd ["route"; "get"; "8.8.8.8"] = Ok out /\
    (7 <= length (Fields out))%nat /\
    n = set_LocalIP (ParseIP sys (idx (Fields out) 6))
          (set_InterfaceName (idx (Fields out) 4)
             (set_DefaultGateway (ParseIP sys (idx (Fields out) 2)) n0)).
Proof.
  unfold linuxRoute.
  destruct (findCommand_run sys "ip" ["/bin/ip"; "/sbin/ip"; "/usr/bin/ip"; "/usr/sbin/ip"] n0)
    as (t1 & ipCmd & E & Ht1).
  rewrite (bind_run _ _ _ _ _ _ E).
  destruct (String.eqb ipCmd ""); [intros H; discriminate H|].
  destruct (bind (output sys ipCmd _) _ n0) as [[t2 s2] r] eqn:Hk.
  cbn [calls state outcome fst snd]. intros [= <- <- ->].
  apply output_Ok in Hk. destruct Hk as (out & Hout & -> & -> & Hr).
  destruct (length (Fields out) <? 7)%nat eqn:Hlen; [discriminate Hr|].
  apply Nat.ltb_ge in Hlen.
  exists t1, ipCmd, out. repeat split; try assumption.
Qed.

Lemma linuxInterface_Ok (sys : Sys) (n0 n : Network) (t : list Call) :
  linuxInterface sys n0 = (t, n, Ok tt) ->
  exists interf,
    t = [CInterfaceByName (InterfaceName n0)] /\
    InterfaceByName sys (InterfaceName n0) = Ok interf /\
    n = set_Interface (Some interf) (set_HardwareAddress (HardwareAddr_of interf) n0).
Proof.
  unfold linuxInterface, bind, get, emit, lift, modify, ret, fail. cbn.
  destruct (InterfaceByName sys (InterfaceName n0)) as [interf|e]; cbn;
    intros [= <- <-]. now exists interf.
Qed.

Lemma linuxSubnet_Ok (sys : Sys) (n0 n : Network) (t : list Call) :
  linuxSubnet sys n0 = (t, n, Ok tt) ->
  exists t1 cmd,
    Forall isLookPath t1 /\
    t = t1 ++ [CExec cmd [InterfaceName n0]] /\
    InterfaceName n = InterfaceName n0 /\
    HardwareAddress n = HardwareAddress n0.
Proof.
  unfold linuxSubnet.
  destruct (findCommand_run sys "ifconfig"
              ["/sbin/ifconfig"; "/bin/ifconfig"; "/usr/sbin/ifconfig"; "/usr/bin/ifconfig"] n0)
    as (t1 & found & E & Ht1).
  rewrite (bind_run _ _ _ _ _ _ E).
  set (cmd := if String.eqb found "" then "ifconfig" else found).
  rewrite get_bind.
  destruct (bind (output sys cmd _) _ n0) as [[t2 s2] r] eqn:Hk.
  cbn [calls state outcome fst snd app]. intros [= <- <- ->].
  apply output_Ok in Hk. destruct Hk as (out & Hout & -> & -> & Hr).
  exists t1, cmd. split; [assumption|].
  destruct (1 <? length (Split out LF))%nat;
    [destruct (4 <? length (Fields (TrimSpace (idx (Split out LF) 1))))%nat|];
    cbn; repeat split.
Qed.

Lemma getLinux_split (sys : Sys) (n0 : Network) :
  getLinux sys n0
  = bind (linuxBeforeLease sys) (fun _ => bind (linuxLease sys) (fun _ => linuxArp sys)) n0.
Proof.
  unfold getLinux, linuxBeforeLease. rewrite bind_assoc.
  apply bind_ext. intros _ s1. now rewrite bind_assoc.
Qed.

Lemma linuxLease_rejects (sys : Sys) (n : Network) (k : unit -> M Network unit) :
  ContainsAny (InterfaceName n) shellMeta = true ->
  bind (linuxLease sys) k n = ([], n, Err "invalid interface name").
Proof.
  intros H. unfold bind at 1. unfold linuxLease. rewrite get_bind, H. reflexivity.
Qed.

(** What the steps before the check have done when they succeed. *)
Lemma linuxBeforeLease_Ok (sys : Sys) (n0 n : Network) (t : list Call) :
  linuxBeforeLease sys n0 = (t, n, Ok tt) ->
  (exists ipCmd out,
      Output sys ipCmd ["route"; "get"; "8.8.8.8"] = Ok out /\
      (7 <= length (Fields out))%nat /\
      InterfaceName n = idx (Fields out) 4) /\
  (exists interf,
      InterfaceByName sys (InterfaceName n) = Ok interf /\
      HardwareAddress n = HardwareAddr_of interf) /\
  Forall (fun c => ~ isLeaseLookup c) t.
Proof.
  unfold linuxBeforeLease. intros H.
  apply bind_Ok in H. destruct H as (tR & nR & [] & t' & HR & H & ->).
  apply bind_Ok in H. destruct H as (tI & nI & [] & tS & HI & HS & ->).
  apply linuxRoute_Ok in HR. destruct HR as (t1 & ipCmd & out & Ht1 & -> & Hout & Hlen & ->).
  apply linuxInterface_Ok in HI. destruct HI as (interf & -> & Hif & ->).
  apply linuxSubnet_Ok in HS. destruct HS as (t2 & cmd & Ht2 & -> & Hname & Hhw).
  cbn [InterfaceName HardwareAddress set_Interface set_HardwareAddress set_LocalIP
       set_InterfaceName set_DefaultGateway] in *.
  repeat split.
  - exists ipCmd, out. now rewrite Hname.
  - exists interf. now rewrite Hname, Hhw.
  - repeat (apply Forall_app; split);
      first [ apply lookPath_not_lease; assumption
            | repeat constructor; intros [path H]; discriminate H ].
Qed.

(** C7.  On Linux, when the steps of discovery before the check succeed
    and the interface name, the fifth field of the output of [ip route],
    contains one of the characters ; & | ` $ ( ) or a line feed, then
    [getLinux], and [GetConfig] on an empty cache, return the error
    "invalid interface name", and no call that they issued is the search
    of the lease file. *)
Theorem sanitization_blocks_lease_lookup (sys : Sys) (st : Cache) (t : list Call)
    (n : Network) :
  isWindows sys = false ->
  instance st = None ->
  linuxBeforeLease sys Network_zero = (t, n, Ok tt) ->
  ContainsAny (InterfaceName n) shellMeta = true ->
  (exists ipCmd out,
      Output sys ipCmd ["route"; "get"; "8.8.8.8"] = Ok out /\
      InterfaceName n = idx (Fields out) 4) /\
  getLinux sys Network_zero = (t, n, Err "invalid interface name") /\
  GetConfig sys st = (t, st, Err "invalid interface name") /\
  Forall (fun c => ~ isLeaseLookup c) t.
Proof.
  intros Hos Hst Hpre Hmeta.
  destruct (linuxBeforeLease_Ok _ _ _ _ Hpre) as ((ipCmd & out & Hout & _ & Hname) & _ & Ht).
  assert (Hget : getLinux sys Network_zero = (t, n, Err "invalid interface name")).
  { rewrite getLinux_split, (bind_run _ _ _ _ _ _ Hpre).
    rewrite (linuxLease_rejects _ _ _ Hmeta).
    cbn [calls state outcome fst snd]. now rewrite app_nil_r. }
  split; [now exists ipCmd, out|]. split; [exact Hget|]. split; [|exact Ht].
  unfold GetConfig, discover. now rewrite Hst, Hos, Hget.
Qed.

Lemma sanitization_blocks_lease_lookup_witness :
  InterfaceName (state (linuxBeforeLease injectSys Network_zero)) = "eth0;reboot" /\
  GetConfig injectSys Cache_init
  = (calls (linuxBeforeLease injectSys Network_zero), Cache_init,
     Err "invalid interface name") /\
  Forall (fun c => ~ isLeaseLookup c) (calls (linuxBeforeLease injectSys Network_zero)).
Proof.
  split; [vm_compute; reflexivity|].
  refine (proj2 (proj2 (sanitization_blocks_lease_lookup injectSys Cache_init
                          (calls (linuxBeforeLease injectSys Network_zero))
                          (state (linuxBeforeLease injectSys Network_zero)) _ _ _ _)));
    vm_compute; reflexivity.
Defined.

Lemma fieldsAux_nonempty (s : string) :
  forall skip cur, Forall (fun f => f <> "") (fieldsAux skip cur s).
Proof.
  induction s as [|c s IH]; intros skip cur; cbn [fieldsAux].
  - destruct cur; repeat constructor. intros H; discriminate H.
  - destruct skip as [|k]; [|apply IH].
    destruct (spaceLen (String c s)) as [|k]; [apply IH|].
    destruct cur; [apply IH|]. constructor; [intros H; discriminate H | apply IH].
Qed.

(** [strings.Fields] returns no empty string. *)
Lemma Fields_nonempty (s : string) (i : nat) :
  (i < length (Fields s))%nat -> idx (Fields s) i <> "".
Proof.
  intros Hi. pose proof (fieldsAux_nonempty s 0 "") as H.
  rewrite Forall_forall in H. apply H. apply list_elem_of_In. now apply nth_In.
Qed.

Lemma linuxLease_Ok (sys : Sys) (n0 n : Network) (t : list Call) :
  linuxLease sys n0 = (t, n, Ok tt) ->
  ContainsAny (InterfaceName n0) shellMeta = false /\
  InterfaceName n = InterfaceName n0 /\ HardwareAddress n = HardwareAddress n0.
Proof.
  unfold linuxLease. rewrite get_bind.
  destruct (ContainsAny (InterfaceName n0) shellMeta); [intros H; discriminate H|].
  intros H. apply output_Ok in H. destruct H as (out & _ & _ & -> & _).
  destruct (leaseLines _ _ _) as [dnslist [suffix|]];
    unfold bind, modify, ret; cbn; now repeat split.
Qed.

Lemma linuxArp_Ok (sys : Sys) (n0 n : Network) (t : list Call) :
  linuxArp sys n0 = (t, n, Ok tt) ->
  InterfaceName n = InterfaceName n0 /\ HardwareAddress n = HardwareAddress n0.
Proof.
  unfold linuxArp. rewrite get_bind.
  destruct (DefaultGateway n0); [|intros [= <- <-]; now split].
  intros H. apply output_Ok in H. destruct H as (out & _ & _ & -> & _).
  destruct (2 <=? length (Split out LF))%nat;
    [destruct (2 <? length (Fields (idx (Split out LF) 1)))%nat|];
    unfold modify, ret; cbn; now split.
Qed.

(** The part of the invariant that holds on Linux: a discovery that
    succeeds has set a non-empty interface name, and the hardware address
    is the one of the interface descriptor, whatever it is. *)
Lemma getLinux_Ok (sys : Sys) (n0 n : Network) (t : list Call) :
  getLinux sys n0 = (t, n, Ok tt) ->
  InterfaceName n <> "" /\
  exists interf, InterfaceByName sys (InterfaceName n) = Ok interf /\
                 HardwareAddress n = HardwareAddr_of interf.
Proof.
  rewrite getLinux_split. intros H.
  apply bind_Ok in H. destruct H as (t1 & n1 & [] & t2 & Hpre & H & ->).
  apply bind_Ok in H. destruct H as (t3 & n2 & [] & t4 & Hlease & Harp & ->).
  apply linuxBeforeLease_Ok in Hpre.
  destruct Hpre as ((ipCmd & out & _ & Hlen & Hname) & (interf & Hif & Hhw) & _).
  apply linuxLease_Ok in Hlease. destruct Hlease as (_ & Hn2 & Hh2).
  apply linuxArp_Ok in Harp. destruct Harp as (Hn3 & Hh3).
  rewrite Hn3, Hn2, Hh3, Hh2. split.
  - rewrite Hname. apply Fields_nonempty. lia.
  - exists interf. now split.
Qed.

(** C8 (the code at two inputs).  On a Linux host whose default route
    leaves through a tunnel, [GetConfig] returns without error a snapshot
    whose hardware address is empty; on a Windows host where no interface
    lists the probed local address, it returns without error a snapshot
    whose interface name and hardware address are both empty. *)
Theorem GetConfig_empty_hardware_address :
  (exists n, outcome (GetConfig tunSys Cache_init) = Ok 0%nat /\
             heap (state (GetConfig tunSys Cache_init)) !! 0%nat = Some n /\
             InterfaceName n = "tun0" /\ HardwareAddress n = []) /\
  (exists n, outcome (GetConfig windowsSys Cache_init) = Ok 0%nat /\
             heap (state (GetConfig windowsSys Cache_init)) !! 0%nat = Some n /\
             InterfaceName n = "" /\ HardwareAddress n = []).
Proof.
  split; eexists; (split; [vm_compute; reflexivity|]);
    (split; [vm_compute; reflexivity|]); split; reflexivity.
Qed.

(** ** Ping *)

Section PingProperties.

Context {F : Float64}.

Lemma validateOptions_run (p : ptr) (st : Options) :
  validateOptions p st
  = ([], alter validateSize p (alter validateTimeout p (alter validateCount p st)), Ok tt).
Proof. reflexivity. Qed.

Lemma pingWindows_run (sys : Sys) (host : string) (p : ptr) (st : Options) :
  exists args,
    pingWindows sys host p st = ([CExec "ping" args], st, Ok (CombinedOutput sys "ping" args)).
Proof.
  unfold pingWindows. rewrite get_bind. unfold combinedOutput.
  rewrite emit_bind. eexists. reflexivity.
Qed.

Lemma pingLinux_run (sys : Sys) (host : string) (p : ptr) (st : Options) :
  exists t cmd args,
    Forall isLookPath t /\
    pingLinux sys host p st = (t ++ [CExec cmd args], st, Ok (CombinedOutput sys cmd args)).
Proof.
  unfold pingLinux.
  destruct (findCommand_run sys "ping"
              ["/bin/ping"; "/sbin/ping"; "/usr/bin/ping"; "/usr/sbin/ping"] st)
    as (t & found & E & Ht).
  rewrite (bind_run _ _ _ _ _ _ E), get_bind. unfold combinedOutput.
  rewrite emit_bind. exists t. eexists _, _. split; [exact Ht | reflexivity].
Qed.

(** [Ping] on a non-empty host: the options are validated in the store,
    one process is run, after path lookups only, and the result is made of
    its answer; the error returned is nil. *)
Lemma Ping_run (sys : Sys) (host : string) (options : option ptr) (st : Options) :
  host <> "" ->
  exists t name args,
    Forall isLookPath t /\
    Ping sys host options st
    = (t ++ [CExec name args],
       alter validateSize (optionsAddress options st)
         (alter validateTimeout (optionsAddress options st)
            (alter validateCount (optionsAddress options st) (optionsStore sys options st))),
       Ok (Some (pingOutcome sys host (CombinedOutput sys name args)), None)).
Proof.
  intros Hhost. unfold Ping. apply String.eqb_neq in Hhost. rewrite Hhost.
  set (p := optionsAddress options st). set (st0 := optionsStore sys options st).
  assert (E : match options with
              | Some p => ret p
              | None => DefaultPingOptions sys
              end st = ([], st0, Ok p)) by (destruct options; reflexivity).
  rewrite (bind_run _ _ _ _ _ _ E).
  rewrite (bind_run _ _ _ _ _ _ (validateOptions_run p st0)).
  set (st1 := alter validateSize p _).
  destruct (isWindows sys).
  - destruct (pingWindows_run sys host p st1) as (args & Ew).
    rewrite (bind_run _ _ _ _ _ _ Ew).
    exists [], "ping", args. split; [constructor | reflexivity].
  - destruct (pingLinux_run sys host p st1) as (t & cmd & args & Ht & El).
    rewrite (bind_run _ _ _ _ _ _ El).
    exists t, cmd, args. split; [exact Ht|].
    cbn [calls state outcome fst snd ret app]. now rewrite app_nil_r.
Qed.

Lemma Ping_empty_host (sys : Sys) (options : option ptr) (st : Options) :
  Ping sys "" options st = ([], st, Ok (None, Some "host cannot be empty")).
Proof. reflexivity. Qed.

(** The parsers leave the host of the result alone. *)
Lemma fold_left_Host (f : PingResult -> string -> PingResult) (lines : list string) :
  (forall r line, Host (f r line) = Host r) ->
  forall r, Host (fold_left f lines r) = Host r.
Proof.
  intros Hf. induction lines as [|l ls IH]; intros r; [reflexivity|].
  cbn [fold_left]. now rewrite IH, Hf.
Qed.

Lemma atoiMillis_Host (s : string) (set : Z -> PingResult -> PingResult) (r : PingResult) :
  (forall v r', Host (set v r') = Host r') -> Host (atoiMillis s set r) = Host r.
Proof. intros H. unfold atoiMillis. destruct (Atoi s) as [v []]; [apply H | reflexivity]. Qed.

Lemma floatMillis_Host (s : string) (set : Z -> PingResult -> PingResult) (r : PingResult) :
  (forall v r', Host (set v r') = Host r') -> Host (floatMillis s set r) = Host r.
Proof.
  intros H. unfold floatMillis. destruct (ParseFloat s) as [v []]; [apply H | reflexivity].
Qed.

Lemma windowsPingLine_Host (line : string) (r : PingResult) :
  Host (windowsPingLine line r) = Host r.
Proof.
  unfold windowsPingLine.
  set (r1 := if Contains (TrimSpace line) "Packets:" then _ else _).
  assert (H1 : Host r1 = Host r).
  { subst r1. destruct (Contains _ "Packets:"); [|reflexivity].
    destruct (FindStringSubmatch regexPackets _) as [[|m1 [|m2 [|m3 [|m4 ms]]]]|];
      reflexivity. }
  destruct (Contains _ "Minimum" && Contains _ "Maximum"); [|exact H1].
  destruct (FindStringSubmatch regexMinMax _) as [[|m1 [|m2 [|m3 [|m4 ms]]]]|];
    try exact H1.
  now rewrite !atoiMillis_Host.
Qed.

Lemma linuxPingLine_Host (line : string) (r : PingResult) :
  Host (linuxPingLine line r) = Host r.
Proof.
  unfold linuxPingLine.
  set (r1 := if Contains (TrimSpace line) "packets transmitted" then _ else _).
  assert (H1 : Host r1 = Host r).
  { subst r1. destruct (Contains _ "packets transmitted"); [|reflexivity].
    destruct (FindStringSubmatch regexLoss _) as [[|l1 [|l2 ls]]|];
      destruct (FindStringSubmatch regexTransmitted _) as [[|m1 [|m2 [|m3 ms]]]|];
      reflexivity. }
  destruct (Contains _ "rtt min/avg/max"); [|exact H1].
  destruct (FindStringSubmatch regexRtt _) as [[|m1 [|m2 [|m3 [|m4 [|m5 ms]]]]]|];
    try exact H1.
  now rewrite !floatMillis_Host.
Qed.

Lemma parsePingOutput_Host (sys : Sys) (output : string) (r : PingResult) :
  Host (parsePingOutput sys output r) = Host r.
Proof.
  unfold parsePingOutput, parseWindowsPingOutput, parseLinuxPingOutput.
  destruct (isWindows sys).
  - apply fold_left_Host. intros; apply windowsPingLine_Host.
  - match goal with |- Host (if ?c then _ else _) = _ => destruct c end; cbn [Host with_Lost];
      apply fold_left_Host; intros; apply linuxPingLine_Host.
Qed.

Lemma pingFinish_Host (sys : Sys) (output : string) (r : PingResult) :
  Host (pingFinish sys output r) = Host r.
Proof.
  unfold pingFinish. destruct (Sent _ >? 0); cbn [Host with_Success with_PacketLoss with_Lost];
    apply parsePingOutput_Host.
Qed.

Lemma pingOutcome_Host (sys : Sys) (host : string) (oe : string * option error) :
  Host (pingOutcome sys host oe) = host.
Proof.
  unfold pingOutcome. destruct oe as [output [e|]].
  - destruct (negb (String.eqb output ""));
      match goal with |- Host (if ?c then _ else _) = _ => destruct c end;
      cbn [Host with_ErrorMessage with_Success];
      rewrite ?pingFinish_Host, ?parsePingOutput_Host; reflexivity.
  - now rewrite pingFinish_Host.
Qed.

(** The early return of [Ping]: the process returned an error and there
    is nothing sent or nothing received in what it printed. *)
Lemma pingOutcome_failed (sys : Sys) (host out : string) (e : error) :
  out = "" \/
  Sent (parsePingOutput sys out (PingResult_new host)) = 0 \/
  Received (parsePingOutput sys out (PingResult_new host)) = 0 ->
  Success (pingOutcome sys host (out, Some e)) = false /\
  ErrorMessage (pingOutcome sys host (out, Some e))
  = "failed to ping " +:+ host +:+ ": " +:+ e.
Proof.
  intros H. unfold pingOutcome.
  set (r1 := if negb (String.eqb out "") then _ else _).
  assert (H1 : (Sent r1 =? 0) || (Received r1 =? 0) = true).
  { subst r1. destruct (String.eqb_spec out "") as [->|Hne]; [reflexivity|].
    cbn [negb]. destruct H as [H | [H | H]]; [contradiction | |]; rewrite H.
    - reflexivity.
    - apply orb_true_r. }
  rewrite H1. split; reflexivity.
Qed.

(** C1.  [Ping] returns a non-nil error exactly when the host is empty.
    For a non-empty host it returns a nil error and a result whose host is
    the one given, also when the process that it ran (the last call that
    it issued) returned an error and printed nothing, or nothing that
    shows a packet sent and a packet received: then [Success] is false and
    [ErrorMessage] is not empty. *)
Theorem Ping_error_iff_empty_host (sys : Sys) (host : string) (options : option ptr)
    (st : Options) :
  exists res err,
    outcome (Ping sys host options st) = Ok (res, err) /\
    (err <> None <-> host = "") /\
    (host <> "" ->
     err = None /\
     exists pr,
       res = Some pr /\ Host pr = host /\
       forall name args out e,
         last (calls (Ping sys host options st)) = Some (CExec name args) ->
         CombinedOutput sys name args = (out, Some e) ->
         out = "" \/
         Sent (parsePingOutput sys out (PingResult_new host)) = 0 \/
         Received (parsePingOutput sys out (PingResult_new host)) = 0 ->
         Success pr = false /\ ErrorMessage pr <> "").
Proof.
  destruct (String.eqb_spec host "") as [->|Hhost].
  - exists None, (Some "host cannot be empty"). rewrite Ping_empty_host.
    split; [reflexivity|]. split; [|intros H; now contradiction H].
    split; [reflexivity | intros _ H; discriminate H].
  - destruct (Ping_run sys host options st Hhost) as (t & name & args & _ & E).
    rewrite E. cbn [calls state outcome fst snd].
    eexists _, None. split; [reflexivity|].
    split; [split; [intros H; now contradiction H | intros H; contradiction]|].
    intros _. split; [reflexivity|]. eexists. split; [reflexivity|].
    split; [apply pingOutcome_Host|].
    intros name' args' out e Hlast Hout Hnone.
    rewrite last_snoc in Hlast. injection Hlast as <- <-.
    rewrite Hout. destruct (pingOutcome_failed sys host out e Hnone) as [Hs Hm].
    split; [exact Hs|]. rewrite Hm. intros H. discriminate H.
Qed.

(** Where [Ping] parses the whole output and computes the loss, the result
    satisfies the relations between its counters. *)
Lemma pingFinish_loss (sys : Sys) (output : string) (r : PingResult) :
  Sent (pingFinish sys output r) > 0 ->
  Lost (pingFinish sys output r)
  = Sent (pingFinish sys output r) - Received (pingFinish sys output r) /\
  PacketLoss (pingFinish sys output r)
  = fmul (fdiv (f_of_int (Lost (pingFinish sys output r)))
               (f_of_int (Sent (pingFinish sys output r)))) (f_of_int 100) /\
  Success (pingFinish sys output r) = (Received (pingFinish sys output r) >? 0).
Proof.
  unfold pingFinish. destruct (Sent (parsePingOutput sys output r) >? 0) eqn:E.
  - intros _. repeat split.
  - intros H. rewrite Z.gtb_ltb in E. apply Z.ltb_ge in E. lia.
Qed.

(** The relations of C5 hold for the result of [Ping] unless the process
    returned an error and printed nothing that shows both a packet sent
    and a packet received. *)
Lemma pingOutcome_loss (sys : Sys) (host out : string) (err : option error) :
  err = None \/
  (out <> "" /\
   Sent (parsePingOutput sys out (PingResult_new host)) <> 0 /\
   Received (parsePingOutput sys out (PingResult_new host)) <> 0) ->
  Sent (pingOutcome sys host (out, err)) > 0 ->
  Lost (pingOutcome sys host (out, err))
  = Sent (pingOutcome sys host (out, err)) - Received (pingOutcome sys host (out, err)) /\
  PacketLoss (pingOutcome sys host (out, err))
  = fmul (fdiv (f_of_int (Lost (pingOutcome sys host (out, err))))
               (f_of_int (Sent (pingOutcome sys host (out, err))))) (f_of_int 100) /\
  Success (pingOutcome sys host (out, err))
  = (Received (pingOutcome sys host (out, err)) >? 0).
Proof.
  intros H. unfold pingOutcome. destruct err as [e|].
  - destruct H as [H | (Hout & Hs & Hr)]; [discriminate H|].
    apply String.eqb_neq in Hout. rewrite Hout. cbn [negb].
    apply Z.eqb_neq in Hs, Hr. rewrite Hs, Hr. cbn [orb]. apply pingFinish_loss.
  - apply pingFinish_loss.
Qed.

Lemma validated_eq (o : PingOptions) :
  validateSize (validateTimeout (validateCount o)) = validated o.
Proof.
  unfold validateSize, validateTimeout, validateCount, validated.
  destruct o as [c t z]. cbn [Count Timeout Size].
  destruct (c <=? 0); cbn [Count Timeout Size];
    destruct (t <=? 0); cbn [Count Timeout Size];
    destruct (z <=? 0); reflexivity.
Qed.


End PingProperties.

Lemma Ping_error_iff_empty_host_witness :
  exists pr,
    outcome (Ping (F := exactFloat64) linuxNoPingSys "8.8.8.8" None zeroOptions)
    = Ok (Some pr, None) /\
    Host pr = "8.8.8.8" /\ Success pr = false /\ ErrorMessage pr <> "".
Proof.
  destruct (Ping_error_iff_empty_host (F := exactFloat64) linuxNoPingSys "8.8.8.8" None
              zeroOptions) as (res & err & Ho & _ & H).
  destruct H as (-> & pr & -> & Hh & Hf); [intros H; discriminate H|].
  exists pr. split; [exact Ho|]. split; [exact Hh|].
  apply (Hf "ping" ["-c"; "4"; "-W"; "4"; "-s"; "56"; "8.8.8.8"] "" "exec: not found").
  - vm_compute. reflexivity.
  - reflexivity.
  - left. reflexivity.
Defined.

(** C5 (the code at a failing input).  On Windows, for a host that does
    not answer, [ping] prints its statistics and exits with status 1;
    [Ping] returns early with [Sent = 4], [Lost = 4] and a [PacketLoss]
    that is still 0, not [Lost / Sent * 100 = 100]. *)
Theorem Ping_windows_timeout_loss :
  exists pr : PingResult (F := exactFloat64),
    outcome (Ping windowsPingSys "10.255.255.1" (Some 0%nat) zeroOptions)
    = Ok (Some pr, None) /\
    Sent pr = 4 /\ Received pr = 0 /\ Lost pr = 4 /\ Success pr = false /\
    (PacketLoss pr == 0)%Q /\
    (inject_Z (Lost pr) / inject_Z (Sent pr) * 100 == 100)%Q /\
    ~ (PacketLoss pr == inject_Z (Lost pr) / inject_Z (Sent pr) * 100)%Q.
Proof.
  eexists. split; [vm_compute; reflexivity|]. cbn.
  repeat split; try reflexivity. intros H. discriminate H.
Qed.

(** C6 (the code at a failing input).  On Linux a size that is not
    positive is replaced by 32, while the default size there is 56; the
    count and the timeout are replaced by their defaults and the call is
    not rejected. *)
Theorem Ping_default_size_linux :
  state (Ping (F := exactFloat64) linuxPingSys "8.8.8.8" (Some 0%nat) zeroOptions) !! 0%nat
  = Some {| Count := 4; Timeout := 4 * Second; Size := 32 |} /\
  defaultOptions linuxPingSys = {| Count := 4; Timeout := 4 * Second; Size := 56 |} /\
  calls (Ping (F := exactFloat64) linuxPingSys "8.8.8.8" (Some 0%nat) zeroOptions)
  = [CLookPath "/bin/ping";
     CExec "/bin/ping" ["-c"; "4"; "-W"; "4"; "-s"; "32"; "8.8.8.8"]] /\
  exists pr,
    outcome (Ping (F := exactFloat64) linuxPingSys "8.8.8.8" (Some 0%nat) zeroOptions)
    = Ok (Some pr, None).
Proof.
  repeat split; try (vm_compute; reflexivity).
  eexists. vm_compute. reflexivity.
Qed.



(** ** DNS *)

Lemma firstOccurrences_elem (l : list string) (x : string) :
  x ∈ firstOccurrences l <-> x ∈ l.
Proof.
  induction l as [|y l IH]; [reflexivity|].
  cbn [firstOccurrences]. rewrite !elem_of_cons, list_elem_of_filter, IH.
  destruct (decide (x = y)); tauto.
Qed.

Lemma firstOccurrences_NoDup (l : list string) : NoDup (firstOccurrences l).
Proof.
  induction l as [|y l IH]; [constructor|].
  cbn [firstOccurrences]. constructor.
  - rewrite list_elem_of_filter. tauto.
  - now apply NoDup_filter.
Qed.

Lemma filter_all (P : string -> Prop) `{!forall x, Decision (P x)} (l : list string) :
  (forall x, P x) -> filter P l = l.
Proof.
  intros HP. induction l as [|x l IH]; [reflexivity|].
  rewrite filter_cons_True by apply HP. now rewrite IH.
Qed.

(** The loop of [NSLookup], for a map that holds the elements of
    [result]. *)
Lemma uniqueLoop_spec (ips : list string) :
  forall (uniqueIPs : gmap string bool) (result : list string),
    (forall x, default false (uniqueIPs !! x) = true <-> x ∈ result) ->
    DNS.uniqueLoop ips uniqueIPs result
    = result ++ filter (fun x => x ∉ result) (firstOccurrences ips).
Proof.
  induction ips as [|ip rest IH]; intros seen result Hseen.
  - cbn. now rewrite app_nil_r.
  - cbn [DNS.uniqueLoop firstOccurrences]. rewrite filter_cons.
    destruct (default false (seen !! ip)) eqn:E; cbn [negb].
    + apply Hseen in E. rewrite decide_False by tauto.
      rewrite (IH seen result Hseen). f_equal.
      rewrite list_filter_filter. apply list_filter_iff.
      intros x. split; [|tauto]. intros Hx. split; [exact Hx|]. congruence.
    + assert (Hip : ip ∉ result) by (rewrite <- Hseen, E; discriminate).
      rewrite decide_True by exact Hip.
      rewrite (IH (<[ip := true]> seen) (result ++ [ip])).
      * rewrite <- app_assoc. cbn [app]. do 2 f_equal.
        rewrite list_filter_filter. apply list_filter_iff.
        intros x. rewrite elem_of_app, list_elem_of_singleton. tauto.
      * intros x. rewrite elem_of_app, list_elem_of_singleton.
        destruct (decide (ip = x)) as [->|Hne].
        -- rewrite lookup_insert_eq. cbn. tauto.
        -- rewrite lookup_insert_ne by exact Hne. rewrite Hseen.
           split; [tauto|]. intros [H | H]; [exact H | congruence].
Qed.

Lemma uniqueLoop_firstOccurrences (ips : list string) :
  DNS.uniqueLoop ips ∅ [] = firstOccurrences ips.
Proof.
  rewrite uniqueLoop_spec.
  - cbn [app]. apply filter_all. intros x. apply not_elem_of_nil.
  - intros x. rewrite lookup_empty. cbn. split; [discriminate|].
    intros H. now apply not_elem_of_nil in H.
Qed.

(** C9.  [NSLookup] and [Resolve] return the error of an empty domain
    without a call of the resolver.  For a domain that is not empty both
    query the resolver for the domain without a leading "http://", then a
    leading "https://", and a trailing "/", so that two domains that are
    equal once stripped give the same calls and the same outcome; and the
    list that [NSLookup] returns has no duplicates: it lists the answers of
    the resolver in the order of their first occurrence. *)
Theorem lookups_strip_and_deduplicate (sys : Sys) :
  (DNS.NSLookup sys "" tt = ([], tt, Err "domain cannot be empty") /\
   DNS.Resolve sys "" tt = ([], tt, Err "domain cannot be empty")) /\
  (forall d,
      d <> "" ->
      DNS.cleanDomain d
      = TrimSuffix (TrimPrefix (TrimPrefix d "http://") "https://") "/" /\
      calls (DNS.NSLookup sys d tt) = [CLookupHost (DNS.cleanDomain d)] /\
      (exists rest, calls (DNS.Resolve sys d tt) = CLookupHost (DNS.cleanDomain d) :: rest) /\
      (forall r, outcome (DNS.Resolve sys d tt) = Ok r -> DNS.Domain r = DNS.cleanDomain d)) /\
  (forall d1 d2,
      d1 <> "" -> d2 <> "" -> DNS.cleanDomain d1 = DNS.cleanDomain d2 ->
      DNS.NSLookup sys d1 tt = DNS.NSLookup sys d2 tt /\
      DNS.Resolve sys d1 tt = DNS.Resolve sys d2 tt) /\
  (forall d ips,
      outcome (DNS.NSLookup sys d tt) = Ok ips ->
      NoDup ips /\
      exists answers,
        LookupHost sys (DNS.cleanDomain d) = Ok answers /\
        ips = firstOccurrences answers /\
        forall x, x ∈ ips <-> x ∈ answers).
Proof.
  split; [split; reflexivity|]. split; [|split].
  - intros d Hd. apply String.eqb_neq in Hd.
    split; [reflexivity|]. unfold DNS.NSLookup, DNS.Resolve. rewrite Hd.
    cbv zeta. split; [|split].
    + rewrite emit_bind. cbn [calls fst snd].
      destruct (LookupHost sys (DNS.cleanDomain d)); reflexivity.
    + rewrite emit_bind. cbn [calls fst snd]. eexists; reflexivity.
    + intros r. rewrite emit_bind. cbn [outcome snd].
      destruct (match LookupHost sys (DNS.cleanDomain d) with
                | Ok addrs => DNS.hostAddrs sys addrs [] []
                | Err _ => ([], [])
                end) as [a aaaa].
      rewrite !emit_bind. cbn [calls state outcome fst snd].
      unfold DNS.lookupSOA, bind, emit, ret.
      destruct (LookupNS sys (DNS.cleanDomain d)) as [[|ns0 nss]|e'];
        destruct (ParseIP sys (DNS.cleanDomain d)); cbn;
        try (destruct (LookupAddr sys (DNS.cleanDomain d)); cbn);
        intros [= <-]; reflexivity.
  - intros d1 d2 H1 H2 Hc. apply String.eqb_neq in H1, H2.
    unfold DNS.NSLookup, DNS.Resolve. now rewrite H1, H2, Hc.
  - intros d ips. unfold DNS.NSLookup.
    destruct (String.eqb d ""); [intros H; discriminate H|].
    cbv zeta. rewrite emit_bind. cbn [calls state outcome fst snd].
    destruct (LookupHost sys (DNS.cleanDomain d)) as [answers|e]; cbn;
      [|intros H; discriminate H].
    intros [= <-]. rewrite uniqueLoop_firstOccurrences.
    split; [apply firstOccurrences_NoDup|].
    exists answers. split; [reflexivity|]. split; [reflexivity|].
    intros x. apply firstOccurrences_elem.
Qed.

Lemma lookups_strip_and_deduplicate_witness :
  DNS.NSLookup dnsSys "https://example.com/" tt = DNS.NSLookup dnsSys "example.com" tt /\
  outcome (DNS.NSLookup dnsSys "https://example.com/" tt)
  = Ok ["93.184.216.34"; "2606:2800:220:1::1"] /\
  NoDup ["93.184.216.34"; "2606:2800:220:1::1"].
Proof.
  destruct (lookups_strip_and_deduplicate dnsSys) as (_ & _ & Hsame & Hdedup).
  split.
  - apply (Hsame "https://example.com/" "example.com").
    + intros H; discriminate H.
    + intros H; discriminate H.
    + vm_compute. reflexivity.
  - assert (E : outcome (DNS.NSLookup dnsSys "https://example.com/" tt)
                = Ok ["93.184.216.34"; "2606:2800:220:1::1"]) by (vm_compute; reflexivity).
    split; [exact E|]. exact (proj1 (Hdedup _ _ E)).
Defined.

(** * Further properties of the code *)

(** ** The monad, continued *)

Lemma bind_calls_Forall {S A B} (P : Call -> Prop) (m : M S A) (k : A -> M S B) (s : S) :
  Forall P (calls (m s)) ->
  (forall a s1, Forall P (calls (k a s1))) ->
  Forall P (calls (bind m k s)).
Proof.
  intros Hm Hk. unfold bind. destruct (m s) as [[t1 s1] [a|e]]; [|exact Hm].
  specialize (Hk a s1). destruct (k a s1) as [[t2 s2] r].
  cbn [calls fst snd] in *. apply Forall_app. now split.
Qed.

Lemma bind_Err {S A B} (m : M S A) (k : A -> M S B) (s s' : S) (t : list Call) (e : error) :
  bind m k s = (t, s', Err e) ->
  m s = (t, s', Err e) \/
  exists t1 s1 a t2, m s = (t1, s1, Ok a) /\ k a s1 = (t2, s', Err e) /\ t = t1 ++ t2.
Proof.
  unfold bind. destruct (m s) as [[t1 s1] [a|e1]]; [|intros [= <- <- <-]; now left].
  destruct (k a s1) as [[t2 s2] r] eqn:Hk. intros [= <- <- ->].
  right. now exists t1, s1, a, t2.
Qed.

(** What a computation preserves of its state, whatever its outcome. *)
Lemma bind_state {S A B} (R : S -> S -> Prop) (m : M S A) (k : A -> M S B) (s : S) :
  (forall x y z, R x y -> R y z -> R x z) ->
  R s (state (m s)) ->
  (forall a s1, R s1 (state (k a s1))) ->
  R s (state (bind m k s)).
Proof.
  intros Htrans Hm Hk. unfold bind. destruct (m s) as [[t1 s1] [a|e]]; [|exact Hm].
  specialize (Hk a s1). destruct (k a s1) as [[t2 s2] r].
  cbn [state fst snd] in *. now apply (Htrans _ s1).
Qed.

(** ** Command lookup, continued *)

Lemma findCommandPaths_none {S} (sys : Sys) (paths : list string) (s : S) :
  Forall (fun q => LookPath sys q = None) paths ->
  findCommandPaths sys paths s = (map CLookPath paths, s, Ok None).
Proof.
  induction 1 as [|q qs Hq _ IH]; [reflexivity|].
  cbn [findCommandPaths map]. rewrite (bind_run _ _ _ _ _ _ (lookPath_run sys q s)).
  now rewrite Hq, IH.
Qed.

Lemma findCommandPaths_first {S} (sys : Sys) (pre : list string) (p x : string)
    (post : list string) (s : S) :
  Forall (fun q => LookPath sys q = None) pre ->
  LookPath sys p = Some x ->
  findCommandPaths sys (pre ++ p :: post) s = (map CLookPath (pre ++ [p]), s, Ok (Some p)).
Proof.
  intros Hpre Hp. induction Hpre as [|q qs Hq _ IH].
  - cbn [app findCommandPaths map].
    rewrite (bind_run _ _ _ _ _ _ (lookPath_run sys p s)). now rewrite Hp.
  - cbn [app findCommandPaths map].
    rewrite (bind_run _ _ _ _ _ _ (lookPath_run sys q s)). now rewrite Hq, IH.
Qed.

(** X1.  [findCommand] tries the candidate paths in order and returns the
    first one that [exec.LookPath] accepts (the candidate itself, not the
    path that the lookup resolved), without looking further; when no
    candidate is accepted it looks [name] up on the search path and returns
    what that gives, or the empty string.  It never fails and issues no
    call but these lookups. *)
Theorem findCommand_contract {S} (sys : Sys) (name : string) (s : S) :
  (forall pre p x post,
      Forall (fun q => LookPath sys q = None) pre ->
      LookPath sys p = Some x ->
      findCommand sys name (pre ++ p :: post) s = (map CLookPath (pre ++ [p]), s, Ok p)) /\
  (forall paths,
      Forall (fun q => LookPath sys q = None) paths ->
      findCommand sys name paths s
      = (map CLookPath (paths ++ [name]), s, Ok (default "" (LookPath sys name)))).
Proof.
  split.
  - intros pre p x post Hpre Hp. unfold findCommand.
    rewrite (bind_run _ _ _ _ _ _ (findCommandPaths_first sys pre p x post s Hpre Hp)).
    cbn [calls state outcome fst snd ret]. now rewrite app_nil_r.
  - intros paths Hnone. unfold findCommand.
    rewrite (bind_run _ _ _ _ _ _ (findCommandPaths_none sys paths s Hnone)).
    rewrite (bind_run _ _ _ _ _ _ (lookPath_run sys name s)).
    rewrite map_app. cbn [map].
    destruct (LookPath sys name); reflexivity.
Qed.

Lemma findCommand_contract_witness :
  findCommand linuxNoIp "ip" ["/bin/ip"; "/sbin/ip"] tt
  = ([CLookPath "/bin/ip"; CLookPath "/sbin/ip"; CLookPath "ip"], tt, Ok "") /\
  findCommand eth0Sys "ip" ([] ++ "/bin/ip" :: ["/sbin/ip"]) tt
  = ([CLookPath "/bin/ip"], tt, Ok "/bin/ip").
Proof.
  split.
  - apply (proj2 (findCommand_contract linuxNoIp "ip" tt) ["/bin/ip"; "/sbin/ip"]).
    repeat constructor.
  - apply (proj1 (findCommand_contract eth0Sys "ip" tt) [] "/bin/ip" "/bin/ip" ["/sbin/ip"]).
    + constructor.
    + reflexivity.
Defined.

(** ** Discovery on Linux, continued *)

Lemma output_calls {S} (sys : Sys) (name : string) (args : list string) (s : S) :
  calls (output sys name args s) = [CExec name args].
Proof. now rewrite output_run. Qed.

Section LinuxCalls.

(** The calls of each step satisfy any property [P] of the calls that the
    step can issue. *)
Variable sys : Sys.
Variable P : Call -> Prop.
Hypothesis P_lookPath : forall f, P (CLookPath f).
Hypothesis P_route : forall cmd, P (CExec cmd ["route"; "get"; "8.8.8.8"]).
Hypothesis P_interface : forall name, P (CInterfaceByName name).
Hypothesis P_ifconfig : forall cmd name, P (CExec cmd [name]).
Hypothesis P_lease :
  forall name,
    ContainsAny name shellMeta = false ->
    P (CExec "grep"
         ["domain-name"; PathJoin sys "/var/lib/dhcp" ("dhclient." +:+ name +:+ ".leases")]).

Lemma findCommand_calls (name : string) (paths : list string) (n : Network) :
  Forall P (calls (findCommand sys name paths n)).
Proof.
  destruct (findCommand_run sys name paths n) as (t & r & E & Ht).
  rewrite E. eapply Forall_impl; [exact Ht|]. intros c [f ->]. apply P_lookPath.
Qed.

Lemma linuxRoute_calls (n : Network) : Forall P (calls (linuxRoute sys n)).
Proof.
  unfold linuxRoute. apply bind_calls_Forall; [apply findCommand_calls|].
  intros ipCmd n1. destruct (String.eqb ipCmd ""); [constructor|].
  apply bind_calls_Forall.
  - rewrite output_calls. constructor; [apply P_route | constructor].
  - intros out n2. destruct (length (Fields out) <? 7)%nat; constructor.
Qed.

Lemma linuxInterface_calls (n : Network) : Forall P (calls (linuxInterface sys n)).
Proof.
  unfold linuxInterface. rewrite get_bind, emit_bind. cbn [calls fst snd].
  constructor; [apply P_interface|].
  unfold bind, lift, modify, ret, fail.
  destruct (InterfaceByName sys (InterfaceName n)); constructor.
Qed.

Lemma linuxSubnet_calls (n : Network) : Forall P (calls (linuxSubnet sys n)).
Proof.
  unfold linuxSubnet. apply bind_calls_Forall; [apply findCommand_calls|].
  intros found n1. rewrite get_bind. apply bind_calls_Forall.
  - rewrite output_calls. constructor; [apply P_ifconfig | constructor].
  - intros out n2.
    destruct (1 <? length (Split out LF))%nat;
      [destruct (4 <? length (Fields (TrimSpace (idx (Split out LF) 1))))%nat|];
      constructor.
Qed.

Lemma linuxLease_calls (n : Network) : Forall P (calls (linuxLease sys n)).
Proof.
  unfold linuxLease. rewrite get_bind.
  destruct (ContainsAny (InterfaceName n) shellMeta) eqn:Hmeta; [constructor|].
  apply bind_calls_Forall.
  - rewrite output_calls. constructor; [now apply P_lease | constructor].
  - intros out n2. destruct (leaseLines _ _ _) as [dnslist [suffix|]];
      unfold bind, modify, ret; constructor.
Qed.

End LinuxCalls.

Lemma linuxArp_calls (sys : Sys) (n : Network) :
  Forall (linuxCall sys) (calls (linuxArp sys n)).
Proof.
  unfold linuxArp. rewrite get_bind. destruct (DefaultGateway n); [|constructor].
  apply bind_calls_Forall.
  - rewrite output_calls. constructor; [|constructor].
    right; right; right; right; right. now eexists.
  - intros out n2.
    destruct (2 <=? length (Split out LF))%nat;
      [destruct (2 <? length (Fields (idx (Split out LF) 1)))%nat|]; constructor.
Qed.

(** X2.  Whatever the system answers and however discovery ends, every
    call that [getLinux] issues is a path lookup, the route query, the
    interface lookup, [ifconfig] with the interface name as its only
    argument, [grep domain-name] on the lease file of an interface whose
    name contains no shell metacharacter, or [arp -e] with one address; in
    particular a search of a lease file is only ever issued for a name that
    passed the check. *)
Theorem getLinux_calls (sys : Sys) (n0 : Network) :
  Forall (linuxCall sys) (calls (getLinux sys n0)) /\
  forall path,
    CExec "grep" ["domain-name"; path] ∈ calls (getLinux sys n0) ->
    exists name,
      ContainsAny name shellMeta = false /\
      path = PathJoin sys "/var/lib/dhcp" ("dhclient." +:+ name +:+ ".leases").
Proof.
  assert (H : Forall (linuxCall sys) (calls (getLinux sys n0))).
  { assert (H1 : forall f, linuxCall sys (CLookPath f)) by (intros f; left; now exists f).
    assert (H2 : forall cmd, linuxCall sys (CExec cmd ["route"; "get"; "8.8.8.8"]))
      by (intros cmd; right; left; now exists cmd).
    assert (H3 : forall name, linuxCall sys (CInterfaceByName name))
      by (intros name; right; right; left; now exists name).
    assert (H4 : forall cmd name, linuxCall sys (CExec cmd [name]))
      by (intros cmd name; right; right; right; left; now exists cmd, name).
    assert (H5 : forall name,
               ContainsAny name shellMeta = false ->
               linuxCall sys
                 (CExec "grep"
                    ["domain-name";
                     PathJoin sys "/var/lib/dhcp" ("dhclient." +:+ name +:+ ".leases")]))
      by (intros name Hm; right; right; right; right; left; now exists name).
    unfold getLinux.
    apply bind_calls_Forall; [now apply linuxRoute_calls|]. intros _ n1.
    apply bind_calls_Forall; [now apply linuxInterface_calls|]. intros _ n2.
    apply bind_calls_Forall; [now apply linuxSubnet_calls|]. intros _ n3.
    apply bind_calls_Forall; [now apply linuxLease_calls|]. intros _ n4.
    apply linuxArp_calls. }
  split; [exact H|].
  intros path Hin. rewrite Forall_forall in H. specialize (H _ Hin).
  destruct H as [(f & E) | [(cmd & E) | [(name & E) | [(cmd & name & E) |
                 [(name & Hmeta & E) | (gw & E)]]]]]; try discriminate E.
  injection E as ->. now exists name.
Qed.

Lemma getLinux_calls_witness :
  exists name,
    ContainsAny name shellMeta = false /\
    "/var/lib/dhcp/dhclient.eth0.leases"
    = PathJoin eth0Sys "/var/lib/dhcp" ("dhclient." +:+ name +:+ ".leases").
Proof.
  apply (proj2 (getLinux_calls eth0Sys Network_zero)).
  apply list_elem_of_In. vm_compute. do 5 right. left. reflexivity.
Defined.

Lemma bind_fail {S A B} (m : M S A) (k : A -> M S B) (s s' : S) (t : list Call) (e : error) :
  m s = (t, s', Err e) -> bind m k s = (t, s', Err e).
Proof. intros H. unfold bind. now rewrite H. Qed.

Lemma output_bind {S A} (sys : Sys) (name : string) (args : list string)
    (k : string -> M S A) (s : S) :
  bind (output sys name args) k s =
  match Output sys name args with
  | Ok out => (CExec name args :: calls (k out s), state (k out s), outcome (k out s))
  | Err e => ([CExec name args], s, Err e)
  end.
Proof.
  unfold bind. rewrite output_run. destruct (Output sys name args) as [out|e]; [|reflexivity].
  now destruct (k out s) as [[t s'] r].
Qed.

(** [linuxRoute], computed from the result of the command lookup. *)
Lemma linuxRoute_run (sys : Sys) (n0 : Network) (t : list Call) (ipCmd : string) :
  findCommand sys "ip" ipCandidates n0 = (t, n0, Ok ipCmd) ->
  linuxRoute sys n0 =
  if String.eqb ipCmd "" then (t, n0, Err "ip command not found")
  else
    match Output sys ipCmd routeArgs with
    | Err e => (t ++ [CExec ipCmd routeArgs], n0, Err e)
    | Ok out =>
        if (length (Fields out) <? 7)%nat
        then (t ++ [CExec ipCmd routeArgs], n0, Err "unexpected ip route output format")
        else (t ++ [CExec ipCmd routeArgs],
              set_LocalIP (ParseIP sys (idx (Fields out) 6))
                (set_InterfaceName (idx (Fields out) 4)
                   (set_DefaultGateway (ParseIP sys (idx (Fields out) 2)) n0)),
              Ok tt)
    end.
Proof.
  intros E. unfold linuxRoute. fold ipCandidates. rewrite (bind_run _ _ _ _ _ _ E).
  destruct (String.eqb ipCmd ""); [cbn; now rewrite app_nil_r|].
  fold routeArgs. rewrite output_bind.
  destruct (Output sys ipCmd routeArgs) as [out|e]; [|reflexivity].
  destruct (length (Fields out) <? 7)%nat; reflexivity.
Qed.

Lemma linuxInterface_run (sys : Sys) (n : Network) :
  linuxInterface sys n =
  match InterfaceByName sys (InterfaceName n) with
  | Ok interf =>
      ([CInterfaceByName (InterfaceName n)],
       set_Interface (Some interf) (set_HardwareAddress (HardwareAddr_of interf) n), Ok tt)
  | Err e => ([CInterfaceByName (InterfaceName n)], n, Err e)
  end.
Proof.
  unfold linuxInterface, bind, get, emit, lift, modify, ret, fail.
  now destruct (InterfaceByName sys (InterfaceName n)).
Qed.

(** X3.  The first steps of discovery on Linux stop at the first
    failure: without [ip] command the error is "ip command not found" and
    only path lookups were made; when the route query fails its error is
    returned and the snapshot is as it was; when it prints
    fewer than seven fields the error is "unexpected ip route output
    format"; and when the interface named by the fifth field is unknown,
    the error of the interface lookup is returned.  In each case no further
    call is issued: [ifconfig], [grep] and [arp] are not run. *)
Theorem getLinux_early_failures (sys : Sys) (n0 : Network) (t : list Call) (ipCmd : string) :
  findCommand sys "ip" ipCandidates n0 = (t, n0, Ok ipCmd) ->
  Forall isLookPath t /\
  (ipCmd = "" -> getLinux sys n0 = (t, n0, Err "ip command not found")) /\
  (ipCmd <> "" ->
   (forall e,
       Output sys ipCmd routeArgs = Err e ->
       getLinux sys n0 = (t ++ [CExec ipCmd routeArgs], n0, Err e)) /\
   (forall out,
       Output sys ipCmd routeArgs = Ok out ->
       (length (Fields out) < 7)%nat ->
       getLinux sys n0
       = (t ++ [CExec ipCmd routeArgs], n0, Err "unexpected ip route output format")) /\
   (forall out e,
       Output sys ipCmd routeArgs = Ok out ->
       (7 <= length (Fields out))%nat ->
       InterfaceByName sys (idx (Fields out) 4) = Err e ->
       calls (getLinux sys n0)
       = t ++ [CExec ipCmd routeArgs; CInterfaceByName (idx (Fields out) 4)] /\
       outcome (getLinux sys n0) = Err e)).
Proof.
  intros E. pose proof (linuxRoute_run sys n0 t ipCmd E) as HR.
  split.
  { destruct (findCommand_run sys "ip" ipCandidates n0) as (t' & r & E' & Ht).
    rewrite E in E'. now injection E' as -> _. }
  split.
  - intros ->. cbn in HR. unfold getLinux. now apply bind_fail.
  - intros Hne. apply String.eqb_neq in Hne. rewrite Hne in HR.
    split; [|split].
    + intros e He. rewrite He in HR. unfold getLinux. now apply bind_fail.
    + intros out Hout Hlen. rewrite Hout in HR. apply Nat.ltb_lt in Hlen.
      rewrite Hlen in HR. unfold getLinux. now apply bind_fail.
    + intros out e Hout Hlen Hif. rewrite Hout in HR. apply Nat.ltb_ge in Hlen.
      rewrite Hlen in HR. unfold getLinux. rewrite (bind_run _ _ _ _ _ _ HR).
      assert (HI : linuxInterface sys
                     (set_LocalIP (ParseIP sys (idx (Fields out) 6))
                        (set_InterfaceName (idx (Fields out) 4)
                           (set_DefaultGateway (ParseIP sys (idx (Fields out) 2)) n0)))
                   = ([CInterfaceByName (idx (Fields out) 4)],
                      set_LocalIP (ParseIP sys (idx (Fields out) 6))
                        (set_InterfaceName (idx (Fields out) 4)
                           (set_DefaultGateway (ParseIP sys (idx (Fields out) 2)) n0)),
                      Err e)).
      { rewrite linuxInterface_run. cbn [InterfaceName set_LocalIP set_InterfaceName].
        now rewrite Hif. }
      rewrite (bind_fail _ _ _ _ _ _ HI). cbn [calls outcome fst snd].
      split; [now rewrite <- app_assoc | reflexivity].
Qed.

Lemma getLinux_early_failures_witness :
  getLinux linuxNoIp Network_zero
  = (map CLookPath (ipCandidates ++ ["ip"]), Network_zero, Err "ip command not found") /\
  getLinux shortRouteSys Network_zero
  = ([CLookPath "/bin/ip"; CExec "/bin/ip" routeArgs], Network_zero,
     Err "unexpected ip route output format").
Proof.
  split.
  - apply (proj1 (proj2 (getLinux_early_failures linuxNoIp Network_zero
                           (map CLookPath (ipCandidates ++ ["ip"])) "" eq_refl))).
    reflexivity.
  - refine (proj1 (proj2 (proj2 (proj2 (getLinux_early_failures shortRouteSys Network_zero
                                          [CLookPath "/bin/ip"] "/bin/ip" eq_refl)) _))
              "RTNETLINK answers: Network unreachable" eq_refl _).
    + intros H; discriminate H.
    + vm_compute. lia.
Defined.

(** What the later steps leave alone when they succeed. *)
Lemma linuxSubnet_frame (sys : Sys) (n0 n : Network) (t : list Call) :
  linuxSubnet sys n0 = (t, n, Ok tt) ->
  LocalIP n = LocalIP n0 /\ DefaultGateway n = DefaultGateway n0 /\
  Interface n = Interface n0 /\
  DefaultGatewayHardwareAddress n = DefaultGatewayHardwareAddress n0.
Proof.
  unfold linuxSubnet. intros H.
  apply bind_Ok in H. destruct H as (t1 & n1 & found & t2 & E & H & ->).
  destruct (findCommand_run sys "ifconfig"
              ["/sbin/ifconfig"; "/bin/ifconfig"; "/usr/sbin/ifconfig"; "/usr/bin/ifconfig"] n0)
    as (t' & r & E' & _).
  rewrite E in E'. injection E' as _ -> _.
  rewrite get_bind in H. apply output_Ok in H. destruct H as (out & _ & _ & -> & _).
  destruct (1 <? length (Split out LF))%nat;
    [destruct (4 <? length (Fields (TrimSpace (idx (Split out LF) 1))))%nat|];
    unfold modify, ret; cbn; now repeat split.
Qed.

Lemma linuxLease_frame (sys : Sys) (n0 n : Network) (t : list Call) :
  linuxLease sys n0 = (t, n, Ok tt) ->
  (exists path, t = [CExec "grep" ["domain-name"; path]]) /\
  DNS n <> [] /\
  LocalIP n = LocalIP n0 /\ DefaultGateway n = DefaultGateway n0 /\
  Interface n = Interface n0 /\
  DefaultGatewayHardwareAddress n = DefaultGatewayHardwareAddress n0.
Proof.
  unfold linuxLease. rewrite get_bind.
  destruct (ContainsAny (InterfaceName n0) shellMeta); [intros H; discriminate H|].
  intros H. apply output_Ok in H. destruct H as (out & _ & -> & -> & _).
  destruct (leaseLines _ _ _) as [dnslist [suffix|]];
    unfold bind, modify, ret; cbn; (split; [now eexists|]);
    (split; [apply Split_not_nil|]); now repeat split.
Qed.

Lemma linuxArp_frame (sys : Sys) (n0 n : Network) (t : list Call) :
  linuxArp sys n0 = (t, n, Ok tt) ->
  LocalIP n = LocalIP n0 /\ DefaultGateway n = DefaultGateway n0 /\
  Interface n = Interface n0 /\ DNS n = DNS n0 /\
  (DefaultGateway n0 = None -> t = [] /\ n = n0).
Proof.
  unfold linuxArp. rewrite get_bind.
  destruct (DefaultGateway n0) as [gw|] eqn:G; [|intros [= <- <-]; now repeat split].
  intros H. apply output_Ok in H. destruct H as (out & _ & _ & -> & _).
  destruct (2 <=? length (Split out LF))%nat;
    [destruct (2 <? length (Fields (idx (Split out LF) 1)))%nat|];
    unfold modify, ret; cbn; repeat split; try assumption; try discriminate.
Qed.

(** X4.  A discovery on Linux that succeeds has read the snapshot off the
    route query: the gateway is the third field, the interface name the
    fifth and the local address the seventh; the interface descriptor and
    the hardware address are those of the interface of that name; the name
    has no shell metacharacter; the list of DNS servers is not empty (it
    holds one empty string when no server was found); and when the third
    field is no address, [arp] was not run and the hardware address of the
    gateway is left as it was. *)
Theorem getLinux_snapshot (sys : Sys) (n0 n : Network) (t : list Call) :
  getLinux sys n0 = (t, n, Ok tt) ->
  exists ipCmd out interf,
    Output sys ipCmd routeArgs = Ok out /\
    (7 <= length (Fields out))%nat /\
    DefaultGateway n = ParseIP sys (idx (Fields out) 2) /\
    InterfaceName n = idx (Fields out) 4 /\
    LocalIP n = ParseIP sys (idx (Fields out) 6) /\
    InterfaceByName sys (idx (Fields out) 4) = Ok interf /\
    Interface n = Some interf /\
    HardwareAddress n = HardwareAddr_of interf /\
    ContainsAny (InterfaceName n) shellMeta = false /\
    DNS n <> [] /\
    (DefaultGateway n = None ->
     DefaultGatewayHardwareAddress n = DefaultGatewayHardwareAddress n0 /\
     Forall (fun c => ~ isArpQuery c) t).
Proof.
  unfold getLinux. intros H.
  apply bind_Ok in H. destruct H as (tR & nR & [] & t1 & HR & H & ->).
  apply bind_Ok in H. destruct H as (tI & nI & [] & t2 & HI & H & ->).
  apply bind_Ok in H. destruct H as (tS & nS & [] & t3 & HS & H & ->).
  apply bind_Ok in H. destruct H as (tL & nL & [] & tA & HL & HA & ->).
  assert (P1 : forall f, ~ isArpQuery (CLookPath f)) by (intros f [gw E]; discriminate E).
  assert (P2 : forall cmd, ~ isArpQuery (CExec cmd ["route"; "get"; "8.8.8.8"]))
    by (intros cmd [gw E]; discriminate E).
  assert (P3 : forall name, ~ isArpQuery (CInterfaceByName name))
    by (intros name [gw E]; discriminate E).
  assert (P4 : forall cmd name, ~ isArpQuery (CExec cmd [name]))
    by (intros cmd name [gw E]; discriminate E).
  pose proof (linuxRoute_calls sys (fun c => ~ isArpQuery c) P1 P2 n0) as CR.
  pose proof (linuxInterface_calls sys (fun c => ~ isArpQuery c) P3 nR) as CI.
  pose proof (linuxSubnet_calls sys (fun c => ~ isArpQuery c) P1 P4 nI) as CS.
  rewrite HR in CR. rewrite HI in CI. rewrite HS in CS.
  cbn [calls fst snd] in CR, CI, CS.
  pose proof (linuxSubnet_frame _ _ _ _ HS) as (SL & SG & SI & SH).
  apply linuxSubnet_Ok in HS. destruct HS as (_ & _ & _ & _ & SN & SW).
  pose proof (linuxLease_frame _ _ _ _ HL) as ((path & ->) & LD & LL & LG & LI & LH).
  apply linuxLease_Ok in HL. destruct HL as (LM & LN & LW).
  pose proof (linuxArp_frame _ _ _ _ HA) as (AL & AG & AI & AD & Anone).
  apply linuxArp_Ok in HA. destruct HA as (AN & AW).
  apply linuxRoute_Ok in HR. destruct HR as (t0 & ipCmd & out & _ & -> & Hout & Hlen & ->).
  apply linuxInterface_Ok in HI. destruct HI as (interf & -> & Hif & ->).
  cbn [InterfaceName HardwareAddress LocalIP DefaultGateway Interface
       DefaultGatewayHardwareAddress set_Interface set_HardwareAddress set_LocalIP
       set_InterfaceName set_DefaultGateway] in *.
  exists ipCmd, out, interf.
  split; [exact Hout|]. split; [exact Hlen|].
  split; [now rewrite AG, LG, SG|].
  split; [now rewrite AN, LN, SN|].
  split; [now rewrite AL, LL, SL|].
  split; [exact Hif|].
  split; [now rewrite AI, LI, SI|].
  split; [now rewrite AW, LW, SW|].
  split; [now rewrite AN, LN|].
  split; [now rewrite AD|].
  intros Hgw. rewrite AG in Hgw. destruct (Anone Hgw) as [-> ->].
  split; [now rewrite LH, SH|].
  apply Forall_app; split; [exact CR|]. apply Forall_app; split; [exact CI|].
  apply Forall_app; split; [exact CS|]. apply Forall_app; split; [|constructor].
  constructor; [|constructor]. intros [gw E]. discriminate E.
Qed.

Lemma getLinux_snapshot_witness :
  exists n,
    state (getLinux noGatewaySys Network_zero) = n /\
    DefaultGateway n = None /\
    DefaultGatewayHardwareAddress n = [] /\ DNS n <> [] /\
    Forall (fun c => ~ isArpQuery c) (calls (getLinux noGatewaySys Network_zero)).
Proof.
  assert (E : getLinux noGatewaySys Network_zero
              = (calls (getLinux noGatewaySys Network_zero),
                 state (getLinux noGatewaySys Network_zero), Ok tt))
    by (vm_compute; reflexivity).
  destruct (getLinux_snapshot _ _ _ _ E)
    as (ipCmd & out & interf & _ & _ & Hgw & _ & _ & _ & _ & _ & _ & Hdns & Hnone).
  exists (state (getLinux noGatewaySys Network_zero)).
  split; [reflexivity|].
  assert (Hg : DefaultGateway (state (getLinux noGatewaySys Network_zero)) = None)
    by (vm_compute; reflexivity).
  split; [exact Hg|]. destruct (Hnone Hg) as [Hh Hc].
  split; [exact Hh|]. split; [exact Hdns | exact Hc].
Defined.

(** ** Discovery on Windows *)

Lemma sameInterface_refl (n : Network) : sameInterface n n.
Proof. now repeat split. Qed.

Lemma sameInterface_trans (x y z : Network) :
  sameInterface x y -> sameInterface y z -> sameInterface x z.
Proof.
  intros (A1 & A2 & A3 & A4) (B1 & B2 & B3 & B4).
  repeat split; congruence.
Qed.

Lemma gatewayLines_frame (sys : Sys) (lines : list string) :
  forall n,
    sameInterface n (gatewayLines sys lines n) /\
    (DefaultGateway n <> None -> DefaultGateway (gatewayLines sys lines n) <> None).
Proof.
  induction lines as [|line rest IH]; intros n; cbn [gatewayLines].
  - split; [apply sameInterface_refl | tauto].
  - match goal with |- context [gatewayLines sys rest ?m] => set (n1 := m) end.
    assert (H1 : sameInterface n n1 /\ (DefaultGateway n <> None -> DefaultGateway n1 <> None)).
    { subst n1. destruct (Contains line "Default Gateway");
        [|split; [apply sameInterface_refl | tauto]].
      destruct (length (Split line ":") =? 2)%nat;
        [|split; [apply sameInterface_refl | tauto]].
      destruct (ParseIP sys _); [|split; [apply sameInterface_refl | tauto]].
      split; [now repeat split | intros _ H; discriminate H]. }
    destruct H1 as [S1 G1]. destruct (IH n1) as [S2 G2].
    split; [now apply (sameInterface_trans _ n1) | tauto].
Qed.

Lemma windowsItem_frame (sys : Sys) (item : string) (n : Network) :
  sameInterface n (windowsItem sys item n) /\
  (DefaultGateway n <> None -> DefaultGateway (windowsItem sys item n) <> None).
Proof.
  unfold windowsItem.
  match goal with |- context [gatewayLines sys _ ?m] => set (n1 := m) end.
  assert (H1 : sameInterface n n1 /\ DefaultGateway n1 = DefaultGateway n).
  { subst n1. destruct (HasPrefix item (InterfaceName n)); [|now repeat split].
    destruct (String.eqb (Suffix (set_DNS _ n)) "");
      [destruct (0 <? length (extractDotted _ "Connection-specific DNS Suffix"))%nat|];
      destruct (0 <? length (extractDotted _ "Subnet Mask"))%nat; now repeat split. }
  destruct H1 as [S1 G1]. destruct (gatewayLines_frame sys (Split item CRLF) n1) as [S2 G2].
  split; [now apply (sameInterface_trans _ n1)|]. rewrite G1 in G2. exact G2.
Qed.

Lemma windowsItems_frame (sys : Sys) (items : list string) :
  forall n,
    sameInterface n (windowsItems sys items n) /\
    (DefaultGateway n <> None -> DefaultGateway (windowsItems sys items n) <> None).
Proof.
  unfold windowsItems. induction items as [|item rest IH]; intros n; cbn [fold_left].
  - split; [apply sameInterface_refl | tauto].
  - destruct (windowsItem_frame sys item n) as [S1 G1].
    destruct (IH (windowsItem sys item n)) as [S2 G2].
    split; [now apply (sameInterface_trans _ (windowsItem sys item n)) | tauto].
Qed.

(** [getWindows], computed from the answers of the two tools. *)
Lemma getWindows_run (sys : Sys) (n : Network) :
  getWindows sys n =
  match Output sys "ipconfig" ["/all"] with
  | Err e => ([CExec "ipconfig" ["/all"]], n, Err e)
  | Ok out =>
      let n1 := windowsItems sys (Split out "Ethernet adapter ") n in
      match DefaultGateway n1 with
      | None => ([CExec "ipconfig" ["/all"]], n1, Ok tt)
      | Some _ =>
          let gw := IPString sys (DefaultGateway n1) in
          match Output sys "arp" ["-a"; gw] with
          | Err e => ([CExec "ipconfig" ["/all"]; CExec "arp" ["-a"; gw]], n1, Err e)
          | Ok out2 =>
              ([CExec "ipconfig" ["/all"]; CExec "arp" ["-a"; gw]],
               (if (3 <=? length (Split out2 gw))%nat
                then if (0 <? length (Fields (idx (Split out2 gw) 2)))%nat
                     then set_DefaultGatewayHardwareAddress
                            (parseMAC sys (idx (Fields (idx (Split out2 gw) 2)) 0)) n1
                     else n1
                else n1),
               Ok tt)
          end
      end
  end.
Proof.
  unfold getWindows. rewrite output_bind.
  destruct (Output sys "ipconfig" ["/all"]) as [out|e]; [|reflexivity].
  rewrite modify_bind, get_bind. cbv zeta.
  destruct (DefaultGateway (windowsItems sys (Split out "Ethernet adapter ") n)) eqn:G;
    [|reflexivity].
  rewrite output_bind. destruct (Output sys "arp" _) as [out2|e]; [|reflexivity].
  destruct (3 <=? length _)%nat; [destruct (0 <? length _)%nat|]; reflexivity.
Qed.

(** X5.  [getWindows] never touches what names the interface of the
    snapshot (interface name, hardware address, descriptor, local
    address), and never erases a gateway that is set, whatever the tools
    answer.  It runs [ipconfig /all], and then [arp -a <gateway>] exactly
    when the snapshot has a gateway after the scan of the sections; the
    error of either tool is returned; when [ipconfig] fails nothing was
    changed and [arp] is not run. *)
Theorem getWindows_frame (sys : Sys) (n : Network) :
  sameInterface n (state (getWindows sys n)) /\
  (DefaultGateway n <> None -> DefaultGateway (state (getWindows sys n)) <> None) /\
  (forall e,
      Output sys "ipconfig" ["/all"] = Err e ->
      getWindows sys n = ([CExec "ipconfig" ["/all"]], n, Err e)) /\
  (DefaultGateway (state (getWindows sys n)) = None ->
   calls (getWindows sys n) = [CExec "ipconfig" ["/all"]]) /\
  (DefaultGateway (state (getWindows sys n)) <> None ->
   outcome (getWindows sys n) = Ok tt ->
   calls (getWindows sys n)
   = [CExec "ipconfig" ["/all"];
      CExec "arp" ["-a"; IPString sys (DefaultGateway (state (getWindows sys n)))]]).
Proof.
  rewrite getWindows_run.
  destruct (Output sys "ipconfig" ["/all"]) as [out|e].
  2:{ cbn [calls state outcome fst snd].
      split; [apply sameInterface_refl|]. split; [tauto|].
      split; [intros e' [= <-]; reflexivity|].
      split; [reflexivity|]. intros _ H. discriminate H. }
  cbv zeta. destruct (windowsItems_frame sys (Split out "Ethernet adapter ") n) as [S1 G1].
  set (n1 := windowsItems sys (Split out "Ethernet adapter ") n) in *.
  destruct (DefaultGateway n1) as [gw|] eqn:G.
  2:{ cbn [calls state outcome fst snd].
      split; [exact S1|]. split; [rewrite G; exact G1|].
      split; [intros e H; discriminate H|].
      split; [reflexivity|]. intros H. now rewrite G in H. }
  destruct (Output sys "arp" _) as [out2|e].
  - match goal with |- context [(_, ?m, Ok tt)] => set (n2 := m) end.
    assert (H2 : sameInterface n1 n2 /\ DefaultGateway n2 = DefaultGateway n1).
    { subst n2. destruct (3 <=? length _)%nat; [destruct (0 <? length _)%nat|];
        now repeat split. }
    destruct H2 as [S2 G2]. cbn [calls state outcome fst snd].
    split; [now apply (sameInterface_trans _ n1)|].
    split; [intros _; rewrite G2, G; discriminate|].
    split; [intros e H; discriminate H|].
    split; [intros H; rewrite G2, G in H; discriminate H|].
    intros _ _. now rewrite G2, G.
  - cbn [calls state outcome fst snd].
    split; [exact S1|]. split; [intros _; rewrite G; discriminate|].
    split; [intros e' H; discriminate H|].
    split; [intros H; rewrite G in H; discriminate H|].
    intros _ H. discriminate H.
Qed.

Lemma getWindows_frame_witness :
  getWindows windowsNoIpconfig Network_zero
  = ([CExec "ipconfig" ["/all"]], Network_zero, Err "exec: ipconfig: not found") /\
  calls (getWindows windowsSys Network_zero)
  = [CExec "ipconfig" ["/all"]; CExec "arp" ["-a"; "192.168.1.1"]].
Proof.
  split.
  - apply (proj1 (proj2 (proj2 (getWindows_frame windowsNoIpconfig Network_zero)))).
    reflexivity.
  - etransitivity;
      [apply (proj2 (proj2 (proj2 (proj2 (getWindows_frame windowsSys Network_zero)))))|].
    + vm_compute. intros H. discriminate H.
    + vm_compute. reflexivity.
    + vm_compute. reflexivity.
Defined.

(** The Windows branch of [GetConfig] before [getWindows], computed. *)
Lemma windowsProbe_run (sys : Sys) (n : Network) :
  windowsProbe sys n =
  match DialLocalAddr sys with
  | Err e => ([CDial "udp" "8.8.8.8:80"], n, Err e)
  | Ok None => ([CDial "udp" "8.8.8.8:80"], n, Err "failed to get local UDP address")
  | Ok (Some ip) =>
      match Interfaces sys with
      | Err e => ([CDial "udp" "8.8.8.8:80"; CInterfaces], set_LocalIP ip n,
                  Err ("failed to get network interfaces: " +:+ e))
      | Ok interfaces =>
          ([CDial "udp" "8.8.8.8:80"; CInterfaces],
           matchInterfaces sys interfaces (set_LocalIP ip n), Ok tt)
      end
  end.
Proof.
  unfold windowsProbe. rewrite emit_bind. unfold bind, lift, ret, fail, modify, emit.
  destruct (DialLocalAddr sys) as [[ip|]|e]; try reflexivity.
  destruct (Interfaces sys); reflexivity.
Qed.

(** X6.  On Windows, discovery stops at the first failure of the probe:
    the error of the dial is returned as it is; a local address that is no
    UDP address gives "failed to get local UDP address"; the error of the
    interface table is returned behind "failed to get network interfaces:
    ".  In these cases no process is run, and [GetConfig] on an empty cache
    returns the same error and leaves the cache empty. *)
Theorem windows_probe_failures (sys : Sys) (st : Cache) :
  isWindows sys = true ->
  instance st = None ->
  (forall e,
      DialLocalAddr sys = Err e ->
      GetConfig sys st = ([CDial "udp" "8.8.8.8:80"], st, Err e)) /\
  (DialLocalAddr sys = Ok None ->
   GetConfig sys st
   = ([CDial "udp" "8.8.8.8:80"], st, Err "failed to get local UDP address")) /\
  (forall ip e,
      DialLocalAddr sys = Ok (Some ip) ->
      Interfaces sys = Err e ->
      GetConfig sys st
      = ([CDial "udp" "8.8.8.8:80"; CInterfaces], st,
         Err ("failed to get network interfaces: " +:+ e))).
Proof.
  intros Hos Hst. unfold GetConfig, discover. rewrite Hst, Hos.
  repeat split.
  - intros e He.
    assert (E : windowsProbe sys Network_zero = ([CDial "udp" "8.8.8.8:80"], Network_zero, Err e))
      by (now rewrite windowsProbe_run, He).
    now rewrite (bind_fail _ _ _ _ _ _ E).
  - intros He.
    assert (E : windowsProbe sys Network_zero
                = ([CDial "udp" "8.8.8.8:80"], Network_zero,
                   Err "failed to get local UDP address"))
      by (now rewrite windowsProbe_run, He).
    now rewrite (bind_fail _ _ _ _ _ _ E).
  - intros ip e Hip He.
    assert (E : windowsProbe sys Network_zero
                = ([CDial "udp" "8.8.8.8:80"; CInterfaces], set_LocalIP ip Network_zero,
                   Err ("failed to get network interfaces: " +:+ e)))
      by (now rewrite windowsProbe_run, Hip, He).
    now rewrite (bind_fail _ _ _ _ _ _ E).
Qed.

Lemma windows_probe_failures_witness :
  GetConfig windowsNoNetwork Cache_init
  = ([CDial "udp" "8.8.8.8:80"], Cache_init,
     Err "dial udp 8.8.8.8:80: connect: network is unreachable").
Proof.
  apply (proj1 (windows_probe_failures windowsNoNetwork Cache_init eq_refl eq_refl)).
  reflexivity.
Defined.

Lemma getWindows_sameInterface (sys : Sys) (n : Network) :
  sameInterface n (state (getWindows sys n)).
Proof.
  rewrite getWindows_run.
  destruct (Output sys "ipconfig" ["/all"]) as [out|e]; [|apply sameInterface_refl].
  cbv zeta. pose proof (proj1 (windowsItems_frame sys (Split out "Ethernet adapter ") n)) as S1.
  set (n1 := windowsItems sys (Split out "Ethernet adapter ") n) in *.
  destruct (DefaultGateway n1); [|exact S1].
  destruct (Output sys "arp" _) as [out2|e]; [|exact S1].
  cbn [state fst snd]. apply (sameInterface_trans _ n1); [exact S1|].
  destruct (3 <=? length _)%nat; [destruct (0 <? length _)%nat|]; now repeat split.
Qed.

(** The inner loop: when an address of the interface contains the text of
    the local address, the snapshot names this interface and its
    descriptor is the range variable; else nothing is changed. *)
Lemma matchAddrs_run (sys : Sys) (interf : NetInterface) (addrs : list string) :
  forall n points,
    LocalIP (fst (matchAddrs sys interf addrs n points)) = LocalIP n /\
    if existsb (fun addr => Contains addr (IPString sys (LocalIP n))) addrs
    then snd (matchAddrs sys interf addrs n points) = true /\
         InterfaceName (fst (matchAddrs sys interf addrs n points)) = Name interf /\
         HardwareAddress (fst (matchAddrs sys interf addrs n points)) = HardwareAddr_of interf /\
         Interface (fst (matchAddrs sys interf addrs n points)) = Some interf
    else matchAddrs sys interf addrs n points = (n, points).
Proof.
  induction addrs as [|addr rest IH]; intros n points; cbn [matchAddrs existsb];
    [now split|].
  destruct (Contains addr (IPString sys (LocalIP n))) eqn:C; cbn [orb]; [|apply IH].
  specialize (IH (set_Interface (Some interf)
                    (set_HardwareAddress (HardwareAddr_of interf)
                       (set_InterfaceName (Name interf) n))) true).
  cbn [LocalIP set_Interface set_HardwareAddress set_InterfaceName] in IH.
  destruct IH as [HL HR]. split; [exact HL|].
  destruct (existsb _ rest); [exact HR|]. rewrite HR. now repeat split.
Qed.

(** The outer loop, from a snapshot that names no interface: the name and
    the hardware address are those of the last interface that lists the
    local address, and the descriptor, which points to the range
    variable, shows the last interface of the table. *)
Lemma matchInterfaces_loop (sys : Sys) (n0 : Network)
    (interfaces : list (NetInterface * result (list string))) :
  InterfaceName n0 = "" -> HardwareAddress n0 = [] -> Interface n0 = None ->
  LocalIP (fst (fold_left (matchInterface sys) interfaces (n0, false))) = LocalIP n0 /\
  match last (List.filter (listsAddress sys (LocalIP n0)) interfaces) with
  | Some entry =>
      snd (fold_left (matchInterface sys) interfaces (n0, false)) = true /\
      InterfaceName (fst (fold_left (matchInterface sys) interfaces (n0, false)))
      = Name (fst entry) /\
      HardwareAddress (fst (fold_left (matchInterface sys) interfaces (n0, false)))
      = HardwareAddr_of (fst entry) /\
      Interface (fst (fold_left (matchInterface sys) interfaces (n0, false)))
      = fst <$> last interfaces
  | None =>
      snd (fold_left (matchInterface sys) interfaces (n0, false)) = false /\
      InterfaceName (fst (fold_left (matchInterface sys) interfaces (n0, false))) = "" /\
      HardwareAddress (fst (fold_left (matchInterface sys) interfaces (n0, false))) = [] /\
      Interface (fst (fold_left (matchInterface sys) interfaces (n0, false))) = None
  end.
Proof.
  intros Hname Hhw Hif.
  induction interfaces as [|[interf listed] pre IH] using rev_ind;
    [cbn; now repeat split|].
  rewrite fold_left_app, List.filter_app, last_snoc. cbn [fold_left List.filter].
  destruct IH as [HL IH].
  destruct (fold_left (matchInterface sys) pre (n0, false)) as [n points].
  cbn [fst snd] in *. unfold matchInterface, listsAddress. cbn [fst snd].
  set (n1 := if points then set_Interface (Some interf) n else n).
  assert (HL1 : LocalIP n1 = LocalIP n0) by (subst n1; now destruct points).
  assert (Hkeep :
    match last (List.filter (listsAddress sys (LocalIP n0)) pre) with
    | Some entry =>
        points = true /\ InterfaceName n1 = Name (fst entry) /\
        HardwareAddress n1 = HardwareAddr_of (fst entry) /\ Interface n1 = Some interf
    | None =>
        points = false /\ InterfaceName n1 = "" /\ HardwareAddress n1 = [] /\
        Interface n1 = None
    end).
  { subst n1. destruct (last (List.filter _ pre)) as [entry|];
      destruct IH as (-> & H1 & H2 & H3); now repeat split. }
  assert (Hrest :
    LocalIP n1 = LocalIP n0 /\
    match last (List.filter (listsAddress sys (LocalIP n0)) pre ++ []) with
    | Some entry =>
        points = true /\ InterfaceName n1 = Name (fst entry) /\
        HardwareAddress n1 = HardwareAddr_of (fst entry) /\
        Interface n1 = fst <$> Some (interf, listed)
    | None =>
        points = false /\ InterfaceName n1 = "" /\ HardwareAddress n1 = [] /\
        Interface n1 = None
    end) by (rewrite app_nil_r; now split).
  destruct listed as [addrs|e]; [|exact Hrest].
  pose proof (matchAddrs_run sys interf addrs n1 points) as [HA HB].
  rewrite HL1 in HB.
  destruct (existsb (fun addr => Contains addr (IPString sys (LocalIP n0))) addrs).
  - rewrite last_snoc. cbn [fst]. split; [congruence | exact HB].
  - rewrite HB. exact Hrest.
Qed.

(** X7.  A snapshot that discovery on Windows produces has the local
    address of the probe.  Its interface name and hardware address are
    those of the last interface of the table that lists an address
    containing the text of the local address, and its descriptor is then
    the last interface of the table, whichever interface is named: the
    descriptor is the address of the range variable of the loop.  When no
    interface lists the local address, the snapshot has an empty name, no
    hardware address and no descriptor. *)
Theorem windows_snapshot_interface (sys : Sys) (t : list Call) (n : Network) :
  isWindows sys = true ->
  discover sys Network_zero = (t, n, Ok tt) ->
  exists interfaces,
    Interfaces sys = Ok interfaces /\
    DialLocalAddr sys = Ok (Some (LocalIP n)) /\
    match last (List.filter (listsAddress sys (LocalIP n)) interfaces) with
    | Some entry =>
        InterfaceName n = Name (fst entry) /\
        HardwareAddress n = HardwareAddr_of (fst entry) /\
        Interface n = fst <$> last interfaces
    | None => InterfaceName n = "" /\ HardwareAddress n = [] /\ Interface n = None
    end.
Proof.
  intros Hos. unfold discover. rewrite Hos. intros H.
  apply bind_Ok in H. destruct H as (t1 & n1 & [] & t2 & HP & HW & ->).
  pose proof (getWindows_sameInterface sys n1) as HS. rewrite HW in HS.
  cbn [state fst snd] in HS. destruct HS as (Sname & Shw & Sif & Sip).
  rewrite windowsProbe_run in HP.
  destruct (DialLocalAddr sys) as [[ip|]|e]; try discriminate HP.
  destruct (Interfaces sys) as [interfaces|e]; [|discriminate HP].
  injection HP as _ <-. exists interfaces. split; [reflexivity|].
  unfold matchInterfaces in *.
  destruct (matchInterfaces_loop sys (set_LocalIP ip Network_zero) interfaces
              eq_refl eq_refl eq_refl) as [HL HI].
  change (LocalIP (set_LocalIP ip Network_zero)) with ip in HL, HI.
  rewrite Sname, Shw, Sif, Sip, HL. split; [reflexivity|].
  destruct (last (List.filter (listsAddress sys ip) interfaces)) as [entry|].
  - destruct HI as (_ & H1 & H2 & H3). now repeat split.
  - destruct HI as (_ & H1 & H2 & H3). now repeat split.
Qed.

Lemma windows_snapshot_interface_witness :
  InterfaceName (state (discover windowsTwoInterfaces Network_zero)) = "Ethernet" /\
  Interface (state (discover windowsTwoInterfaces Network_zero))
  = Some {| Index := 1; Name := "Loopback Pseudo-Interface 1"; HardwareAddr_of := [] |} /\
  ~ interfaceConsistent (state (discover windowsTwoInterfaces Network_zero)).
Proof.
  destruct (windows_snapshot_interface windowsTwoInterfaces
              (calls (discover windowsTwoInterfaces Network_zero))
              (state (discover windowsTwoInterfaces Network_zero)) eq_refl
              ltac:(vm_compute; reflexivity))
    as (interfaces & HI & _ & H).
  assert (Ei : interfaces = match Interfaces windowsTwoInterfaces with
                            | Ok l => l
                            | Err _ => []
                            end) by (now rewrite HI).
  subst interfaces.
  assert (E : last (List.filter
                      (listsAddress windowsTwoInterfaces
                         (LocalIP (state (discover windowsTwoInterfaces Network_zero))))
                      (match Interfaces windowsTwoInterfaces with
                       | Ok l => l
                       | Err _ => []
                       end))
              = Some ({| Index := 4; Name := "Ethernet";
                         HardwareAddr_of := [0; 17; 34; 51; 68; 85]%nat |},
                      Ok ["192.168.1.10/24"])) by (vm_compute; reflexivity).
  rewrite E in H. destruct H as (Hn & _ & Hi).
  split; [exact Hn|]. split; [exact Hi|].
  unfold interfaceConsistent. rewrite Hi, Hn. intros [Hbad _]. discriminate Hbad.
Defined.

(** ** The cache, continued *)

Lemma GetConfig_keeps (sys : Sys) (st : Cache) (p : ptr) (n : Network) :
  heap st !! p = Some n -> heap (state (GetConfig sys st)) !! p = Some n.
Proof.
  intros Hp.
  destruct (GetConfig_cases sys st)
    as [(q & _ & ->) | [(_ & t & m & e & _ & ->) | (_ & t & m & _ & ->)]];
    cbn [state fst snd heap]; try exact Hp.
  rewrite lookup_insert_ne; [exact Hp|].
  intros Heq. apply (is_fresh (dom (heap st))). rewrite Heq.
  apply elem_of_dom. now exists n.
Qed.

(** X8.  A snapshot is never changed nor dropped once it is allocated:
    through any series of [GetConfig] and [RefreshConfig] calls, whatever
    the system answers, the value at its address stays the same (a refresh
    allocates a new snapshot and leaves the old one to those who hold
    it). *)
Theorem snapshots_immutable (st st' : Cache) (p : ptr) (n : Network) :
  evolves st st' ->
  heap st !! p = Some n ->
  heap st' !! p = Some n.
Proof.
  intros Hev Hp. induction Hev as [st|sys st st' _ IH|sys st st' _ IH].
  - exact Hp.
  - apply GetConfig_keeps. now apply IH.
  - rewrite RefreshConfig_unfold.
    apply (GetConfig_keeps sys {| instance := None; heap := heap st' |}). now apply IH.
Qed.

Lemma snapshots_immutable_witness :
  exists n,
    heap (state eth0_first) !! 0%nat = Some n /\
    heap (state (GetConfig tunSys (state eth0_refreshed))) !! 0%nat = Some n /\
    heap (state eth0_refresh_failed) !! 0%nat = Some n.
Proof.
  destruct (heap (state eth0_first) !! 0%nat) as [n|] eqn:E;
    [|vm_compute in E; discriminate E].
  exists n. split; [reflexivity|]. split.
  - apply (snapshots_immutable (state eth0_first)); [|exact E].
    apply evolves_GetConfig. apply (evolves_RefreshConfig eth0Sys). apply evolves_refl.
  - apply (snapshots_immutable (state eth0_first)); [|exact E].
    apply (evolves_RefreshConfig linuxNoIp). apply evolves_refl.
Defined.

(** ** Ping, continued *)

Section ParserFrame.

(** The parsers only assign to the counters, the loss and the round trip
    times: any function [f] of the result that these assignments do not
    change is unchanged by parsing. *)
Context {F : Float64}.
Variable A : Type.
Variable f : PingResult -> A.
Hypothesis f_Sent : forall v r, f (with_Sent v r) = f r.
Hypothesis f_Received : forall v r, f (with_Received v r) = f r.
Hypothesis f_Lost : forall v r, f (with_Lost v r) = f r.
Hypothesis f_PacketLoss : forall v r, f (with_PacketLoss v r) = f r.
Hypothesis f_MinRTT : forall v r, f (with_MinRTT v r) = f r.
Hypothesis f_MaxRTT : forall v r, f (with_MaxRTT v r) = f r.
Hypothesis f_AvgRTT : forall v r, f (with_AvgRTT v r) = f r.
Hypothesis f_StdDevRTT : forall v r, f (with_StdDevRTT v r) = f r.

Lemma fold_left_keeps (g : PingResult -> string -> PingResult) (lines : list string) :
  (forall r line, f (g r line) = f r) ->
  forall r, f (fold_left g lines r) = f r.
Proof.
  intros Hg. induction lines as [|l ls IH]; intros r; [reflexivity|].
  cbn [fold_left]. now rewrite IH, Hg.
Qed.

Lemma atoiMillis_keeps (s : string) (set : Z -> PingResult -> PingResult) (r : PingResult) :
  (forall v r', f (set v r') = f r') -> f (atoiMillis s set r) = f r.
Proof. intros H. unfold atoiMillis. destruct (Atoi s) as [v []]; [apply H | reflexivity]. Qed.

Lemma floatMillis_keeps (s : string) (set : Z -> PingResult -> PingResult) (r : PingResult) :
  (forall v r', f (set v r') = f r') -> f (floatMillis s set r) = f r.
Proof.
  intros H. unfold floatMillis. destruct (ParseFloat s) as [v []]; [apply H | reflexivity].
Qed.

Lemma windowsPingLine_keeps (line : string) (r : PingResult) :
  f (windowsPingLine line r) = f r.
Proof.
  unfold windowsPingLine.
  set (r1 := if Contains (TrimSpace line) "Packets:" then _ else _).
  assert (H1 : f r1 = f r).
  { subst r1. destruct (Contains _ "Packets:"); [|reflexivity].
    destruct (FindStringSubmatch regexPackets _) as [[|m1 [|m2 [|m3 [|m4 ms]]]]|];
      try reflexivity.
    now rewrite f_Lost, f_Received, f_Sent. }
  destruct (Contains _ "Minimum" && Contains _ "Maximum"); [|exact H1].
  destruct (FindStringSubmatch regexMinMax _) as [[|m1 [|m2 [|m3 [|m4 ms]]]]|];
    try exact H1.
  now rewrite !atoiMillis_keeps.
Qed.

Lemma linuxPingLine_keeps (line : string) (r : PingResult) :
  f (linuxPingLine line r) = f r.
Proof.
  unfold linuxPingLine.
  set (r1 := if Contains (TrimSpace line) "packets transmitted" then _ else _).
  assert (H1 : f r1 = f r).
  { subst r1. destruct (Contains _ "packets transmitted"); [|reflexivity].
    destruct (FindStringSubmatch regexLoss _) as [[|l1 [|l2 ls]]|];
      destruct (FindStringSubmatch regexTransmitted _) as [[|m1 [|m2 [|m3 ms]]]|];
      rewrite ?f_PacketLoss, ?f_Received, ?f_Sent; reflexivity. }
  destruct (Contains _ "rtt min/avg/max"); [|exact H1].
  destruct (FindStringSubmatch regexRtt _) as [[|m1 [|m2 [|m3 [|m4 [|m5 ms]]]]]|];
    try exact H1.
  now rewrite !floatMillis_keeps.
Qed.

Lemma parsePingOutput_keeps (sys : Sys) (output : string) (r : PingResult) :
  f (parsePingOutput sys output r) = f r.
Proof.
  unfold parsePingOutput, parseWindowsPingOutput, parseLinuxPingOutput.
  destruct (isWindows sys).
  - apply fold_left_keeps. intros; apply windowsPingLine_keeps.
  - match goal with |- f (if ?c then _ else _) = _ => destruct c end;
      rewrite ?f_Lost; apply fold_left_keeps; intros; apply linuxPingLine_keeps.
Qed.

End ParserFrame.

Section PingStatus.

Context {F : Float64}.

Lemma parsePingOutput_Success (sys : Sys) (output : string) (r : PingResult) :
  Success (parsePingOutput sys output r) = Success r.
Proof. now apply parsePingOutput_keeps. Qed.

Lemma parsePingOutput_ErrorMessage (sys : Sys) (output : string) (r : PingResult) :
  ErrorMessage (parsePingOutput sys output r) = ErrorMessage r.
Proof. now apply parsePingOutput_keeps. Qed.

(** The status of what [Ping] makes of the answer of the process. *)
Lemma pingOutcome_status (sys : Sys) (host : string) (oe : string * option error) :
  (Success (pingOutcome sys host oe) = true ->
   0 < Sent (pingOutcome sys host oe) /\ 0 < Received (pingOutcome sys host oe) /\
   ErrorMessage (pingOutcome sys host oe) = "") /\
  (ErrorMessage (pingOutcome sys host oe) <> "" ->
   Success (pingOutcome sys host oe) = false /\
   (Sent (pingOutcome sys host oe) = 0 \/ Received (pingOutcome sys host oe) = 0) /\
   exists e, snd oe = Some e /\
             ErrorMessage (pingOutcome sys host oe) = "failed to ping " +:+ host +:+ ": " +:+ e).
Proof.
  assert (Hfin : forall output r,
             Success r = false -> ErrorMessage r = "" ->
             (Success (pingFinish sys output r) = true ->
              0 < Sent (pingFinish sys output r) /\ 0 < Received (pingFinish sys output r)) /\
             ErrorMessage (pingFinish sys output r) = "").
  { intros output r Hs Hm. unfold pingFinish.
    destruct (Sent (parsePingOutput sys output r) >? 0) eqn:E.
    - cbn [Success Sent Received ErrorMessage with_Success with_PacketLoss with_Lost].
      rewrite parsePingOutput_ErrorMessage. split; [|exact Hm].
      intros H. rewrite Z.gtb_ltb in E, H. apply Z.ltb_lt in E, H. now split.
    - rewrite parsePingOutput_Success, parsePingOutput_ErrorMessage.
      split; [rewrite Hs; discriminate | exact Hm]. }
  unfold pingOutcome. destruct oe as [output [e|]]; cbn [snd].
  - set (r1 := if negb (String.eqb output "") then _ else _).
    assert (H1 : Success r1 = false /\ ErrorMessage r1 = "").
    { subst r1. destruct (negb (String.eqb output ""));
        rewrite ?parsePingOutput_Success, ?parsePingOutput_ErrorMessage; now split. }
    destruct H1 as [Hs Hm].
    destruct ((Sent r1 =? 0) || (Received r1 =? 0)) eqn:E.
    + cbn [Success Sent Received ErrorMessage with_Success with_ErrorMessage].
      split; [discriminate|]. intros _. split; [reflexivity|]. split.
      * apply orb_true_iff in E. destruct E as [E | E]; apply Z.eqb_eq in E; tauto.
      * now exists e.
    + destruct (Hfin output r1 Hs Hm) as [H2 H3]. split.
      * intros H. destruct (H2 H) as [Ha Hb]. now repeat split.
      * intros H. now rewrite H3 in H.
  - destruct (Hfin output (PingResult_new host) eq_refl eq_refl) as [H2 H3]. split.
    + intros H. destruct (H2 H) as [Ha Hb]. now repeat split.
    + intros H. now rewrite H3 in H.
Qed.

(** X9.  For every result that [Ping] returns: a result marked successful
    has packets sent, packets received and no error message; and a result
    with an error message is not successful, has nothing sent or nothing
    received, and the message is "failed to ping <host>: " followed by the
    error of the process that was run. *)
Theorem Ping_result_status (sys : Sys) (host : string) (options : option ptr)
    (st : Options) (pr : PingResult) (err : option error) :
  outcome (Ping sys host options st) = Ok (Some pr, err) ->
  (Success pr = true -> 0 < Sent pr /\ 0 < Received pr /\ ErrorMessage pr = "") /\
  (ErrorMessage pr <> "" ->
   Success pr = false /\ (Sent pr = 0 \/ Received pr = 0) /\
   exists name args e,
     last (calls (Ping sys host options st)) = Some (CExec name args) /\
     snd (CombinedOutput sys name args) = Some e /\
     ErrorMessage pr = "failed to ping " +:+ host +:+ ": " +:+ e).
Proof.
  destruct (String.eqb_spec host "") as [->|Hhost].
  - rewrite Ping_empty_host. intros H. discriminate H.
  - destruct (Ping_run sys host options st Hhost) as (t & name & args & _ & E).
    rewrite E. cbn [calls state outcome fst snd]. intros [= <- <-].
    destruct (pingOutcome_status sys host (CombinedOutput sys name args)) as [H1 H2].
    split; [exact H1|]. intros Hm. destruct (H2 Hm) as (Hs & Hz & e & He & Hmsg).
    split; [exact Hs|]. split; [exact Hz|].
    exists name, args, e. split; [apply last_snoc|]. now split.
Qed.

End PingStatus.

Lemma Ping_result_status_witness :
  exists pr,
    outcome (Ping (F := exactFloat64) linuxPingSys "8.8.8.8" None zeroOptions)
    = Ok (Some pr, None) /\
    Success pr = true /\ 0 < Sent pr /\ 0 < Received pr /\ ErrorMessage pr = "".
Proof.
  destruct (outcome (Ping (F := exactFloat64) linuxPingSys "8.8.8.8" None zeroOptions))
    as [[[pr|] [e|]]|e] eqn:E; try (vm_compute in E; discriminate E).
  exists pr. split; [reflexivity|].
  assert (Hs : Success pr = true) by (vm_compute in E; injection E as <-; reflexivity).
  split; [exact Hs|].
  exact (proj1 (Ping_result_status (F := exactFloat64) linuxPingSys "8.8.8.8" None zeroOptions
                  pr None E) Hs).
Defined.

(** ** The counters of a ping result *)

Lemma digitRun_allDigits (s : string) : allDigits (fst (digitRun s)) = true.
Proof.
  induction s as [|c s IH]; [reflexivity|]. cbn [digitRun].
  destruct (isDigit c) eqn:Hc; [|reflexivity].
  destruct (digitRun s) as [d r]. cbn [fst allDigits] in *. now rewrite Hc, IH.
Qed.

Lemma matchHere_digits (p : list Item) :
  digitsPattern p ->
  forall s gs, matchHere p s = Some gs -> Forall digits gs.
Proof.
  induction 1 as [|it p Hit _ IH]; intros s gs; cbn [matchHere].
  - intros [= <-]. constructor.
  - destruct (matchItem it s) as [[g r]|] eqn:Hm; [|intros H; discriminate H].
    destruct (matchHere p r) as [gs'|] eqn:Hr; [|intros H; discriminate H].
    intros [= <-]. specialize (IH _ _ Hr).
    destruct it as [l| |]; cbn [matchItem] in Hm.
    + destruct (String.prefix l s); [|discriminate Hm]. injection Hm as <- _. exact IH.
    + pose proof (digitRun_allDigits s) as Hd. destruct (digitRun s) as [d r'].
      destruct (String.eqb_spec d "") as [|Hne]; [discriminate Hm|].
      injection Hm as <- _. constructor; [now split | exact IH].
    + now contradiction Hit.
Qed.

Lemma FindStringSubmatch_digits (p : list Item) (s : string) (gs : list string) :
  digitsPattern p -> FindStringSubmatch p s = Some gs -> Forall digits gs.
Proof.
  intros Hp. induction s as [|c s IH]; cbn [FindStringSubmatch].
  - destruct (matchHere p "") as [gs'|] eqn:E; [|intros H; discriminate H].
    intros [= <-]. exact (matchHere_digits p Hp _ _ E).
  - destruct (matchHere p (String c s)) as [gs'|] eqn:E; [|exact IH].
    intros [= <-]. exact (matchHere_digits p Hp _ _ E).
Qed.

Lemma decimalValue_nonneg (s : string) :
  forall acc, 0 <= acc -> allDigits s = true -> 0 <= decimalValue acc s.
Proof.
  induction s as [|c s IH]; intros acc Hacc Hs; cbn [decimalValue]; [exact Hacc|].
  cbn [allDigits] in Hs. apply andb_true_iff in Hs. destruct Hs as [Hc Hs].
  apply IH; [|exact Hs]. unfold isDigit in Hc. apply andb_true_iff in Hc.
  destruct Hc as [Hc _]. apply Nat.leb_le in Hc. unfold digitVal. lia.
Qed.

(** [Atoi] of a run of digits is a counter, also when it is out of range. *)
Lemma Atoi_digits (s : string) : digits s -> counter (fst (Atoi s)).
Proof.
  intros [Hs Hne]. unfold counter, maxInt.
  assert (Hv : 0 <= decimalValue 0 s) by (apply decimalValue_nonneg; [lia | exact Hs]).
  destruct s as [|c s']; [now contradiction Hne|].
  assert (Hc : isDigit c = true) by (cbn [allDigits] in Hs; now apply andb_true_iff in Hs).
  assert (E : Atoi (String c s')
              = if decimalValue 0 (String c s') >? maxInt then (maxInt, false)
                else if decimalValue 0 (String c s') <? minInt then (minInt, false)
                     else (decimalValue 0 (String c s'), true)).
  { unfold Atoi. destruct c as [b0 b1 b2 b3 b4 b5 b6 b7].
    destruct b0, b1, b2, b3, b4, b5, b6, b7; try discriminate Hc;
      rewrite Hs; reflexivity. }
  rewrite E. unfold maxInt, minInt in *.
  destruct (decimalValue 0 (String c s') >? 2 ^ 63 - 1) eqn:G; cbn [fst]; [lia|].
  rewrite Z.gtb_ltb in G. apply Z.ltb_ge in G.
  destruct (decimalValue 0 (String c s') <? - 2 ^ 63) eqn:L; cbn [fst]; [|lia].
  apply Z.ltb_lt in L. lia.
Qed.

Lemma regexPackets_digits : digitsPattern regexPackets.
Proof. repeat constructor; discriminate. Qed.

Lemma regexTransmitted_digits : digitsPattern regexTransmitted.
Proof. repeat constructor; discriminate. Qed.

Section PingCounters.

Context {F : Float64}.

Lemma fold_left_inv (P : PingResult -> Prop) (g : PingResult -> string -> PingResult)
    (lines : list string) :
  (forall r line, P r -> P (g r line)) -> forall r, P r -> P (fold_left g lines r).
Proof.
  intros Hg. induction lines as [|l ls IH]; intros r Hr; [exact Hr|].
  cbn [fold_left]. apply IH. now apply Hg.
Qed.

Lemma windowsPingLine_counters (line : string) (r : PingResult) :
  countersInRange r -> countersInRange (windowsPingLine line r).
Proof.
  intros Hr. unfold windowsPingLine.
  set (r1 := if Contains (TrimSpace line) "Packets:" then _ else _).
  assert (H1 : countersInRange r1).
  { subst r1. destruct (Contains _ "Packets:"); [|exact Hr].
    destruct (FindStringSubmatch regexPackets _) as [gs|] eqn:E; [|exact Hr].
    pose proof (FindStringSubmatch_digits _ _ _ regexPackets_digits E) as Hd.
    destruct gs as [|m1 [|m2 [|m3 [|m4 ms]]]]; try exact Hr.
    inversion Hd as [|? ? D1 Hd1]; subst. inversion Hd1 as [|? ? D2 Hd2]; subst.
    inversion Hd2 as [|? ? D3 _]; subst.
    apply Atoi_digits in D1, D2, D3. unfold countersInRange, counter in *.
    cbn [Sent Received Lost with_Sent with_Received with_Lost]. lia. }
  destruct (Contains _ "Minimum" && Contains _ "Maximum"); [|exact H1].
  destruct (FindStringSubmatch regexMinMax _) as [[|m1 [|m2 [|m3 [|m4 ms]]]]|];
    try exact H1.
  unfold countersInRange.
  rewrite !(atoiMillis_keeps _ Sent), !(atoiMillis_keeps _ Received),
    !(atoiMillis_keeps _ Lost); try reflexivity. exact H1.
Qed.

Lemma linuxPingLine_counters (line : string) (r : PingResult) :
  countersInRange r -> countersInRange (linuxPingLine line r).
Proof.
  intros Hr. unfold linuxPingLine.
  set (r1 := if Contains (TrimSpace line) "packets transmitted" then _ else _).
  assert (H1 : countersInRange r1).
  { subst r1. destruct (Contains _ "packets transmitted"); [|exact Hr].
    set (r0 := match FindStringSubmatch regexTransmitted _ with Some _ => _ | None => _ end).
    assert (H0 : countersInRange r0).
    { subst r0. destruct (FindStringSubmatch regexTransmitted _) as [gs|] eqn:E; [|exact Hr].
      pose proof (FindStringSubmatch_digits _ _ _ regexTransmitted_digits E) as Hd.
      destruct gs as [|m1 [|m2 [|m3 ms]]]; try exact Hr.
      inversion Hd as [|? ? D1 Hd1]; subst. inversion Hd1 as [|? ? D2 _]; subst.
      apply Atoi_digits in D1, D2. unfold countersInRange, counter in *.
      cbn [Sent Received Lost with_Sent with_Received]. lia. }
    destruct (FindStringSubmatch regexLoss _) as [[|l1 [|l2 ls]]|]; exact H0. }
  destruct (Contains _ "rtt min/avg/max"); [|exact H1].
  destruct (FindStringSubmatch regexRtt _) as [[|m1 [|m2 [|m3 [|m4 [|m5 ms]]]]]|];
    try exact H1.
  unfold countersInRange.
  rewrite !(floatMillis_keeps _ Sent), !(floatMillis_keeps _ Received),
    !(floatMillis_keeps _ Lost); try reflexivity. exact H1.
Qed.

Lemma parsePingOutput_counters (sys : Sys) (output : string) (r : PingResult) :
  countersInRange r -> countersInRange (parsePingOutput sys output r).
Proof.
  intros Hr. unfold parsePingOutput, parseWindowsPingOutput, parseLinuxPingOutput.
  destruct (isWindows sys).
  - apply fold_left_inv; [|exact Hr]. intros; now apply windowsPingLine_counters.
  - set (r1 := fold_left _ _ r).
    assert (H1 : countersInRange r1)
      by (apply fold_left_inv; [|exact Hr]; intros; now apply linuxPingLine_counters).
    destruct ((Sent r1 >? 0) && (Lost r1 =? 0)); [|exact H1].
    unfold countersInRange, counter in *.
    cbn [Sent Received Lost with_Lost]. lia.
Qed.

Lemma pingFinish_counters (sys : Sys) (output : string) (r : PingResult) :
  countersInRange r -> countersInRange (pingFinish sys output r).
Proof.
  intros Hr. unfold pingFinish.
  pose proof (parsePingOutput_counters sys output r Hr) as H1.
  destruct (Sent (parsePingOutput sys output r) >? 0); [|exact H1].
  unfold countersInRange, counter in *.
  cbn [Sent Received Lost with_Success with_PacketLoss with_Lost]. lia.
Qed.

(** X10.  In every result that [Ping] returns the numbers of packets sent
    and received are between 0 and the largest 64-bit integer, whatever
    the process printed, and the number lost is between minus and plus
    that bound: no subtraction of the counters overflows. *)
Theorem Ping_counters_in_range (sys : Sys) (host : string) (options : option ptr)
    (st : Options) (pr : PingResult) (err : option error) :
  outcome (Ping sys host options st) = Ok (Some pr, err) ->
  0 <= Sent pr <= maxInt /\ 0 <= Received pr <= maxInt /\ - maxInt <= Lost pr <= maxInt.
Proof.
  destruct (String.eqb_spec host "") as [->|Hhost].
  - rewrite Ping_empty_host. intros H. discriminate H.
  - destruct (Ping_run sys host options st Hhost) as (t & name & args & _ & E).
    rewrite E. cbn [calls state outcome fst snd]. intros [= <- <-].
    assert (H0 : countersInRange (PingResult_new host))
      by (unfold countersInRange, counter, maxInt; cbn; lia).
    unfold pingOutcome. destruct (CombinedOutput sys name args) as [output [e|]].
    + set (r1 := if negb (String.eqb output "") then _ else _).
      assert (H1 : countersInRange r1)
        by (subst r1; destruct (negb (String.eqb output ""));
            [now apply parsePingOutput_counters | exact H0]).
      destruct ((Sent r1 =? 0) || (Received r1 =? 0)).
      * exact H1.
      * now apply pingFinish_counters.
    + now apply pingFinish_counters.
Qed.

End PingCounters.

Lemma Ping_counters_in_range_witness :
  exists pr,
    outcome (Ping (F := exactFloat64) windowsPingSys "10.255.255.1" None zeroOptions)
    = Ok (Some pr, None) /\
    0 <= Sent pr <= maxInt /\ 0 <= Received pr <= maxInt /\ - maxInt <= Lost pr <= maxInt.
Proof.
  destruct (outcome (Ping (F := exactFloat64) windowsPingSys "10.255.255.1" None zeroOptions))
    as [[[pr|] [e|]]|e] eqn:E; try (vm_compute in E; discriminate E).
  exists pr. split; [reflexivity|].
  exact (Ping_counters_in_range (F := exactFloat64) _ _ _ _ _ _ E).
Defined.

(** ** The options of Ping *)

Section PingOptionsMore.

Context {F : Float64}.

Lemma validated_positive (o : PingOptions) :
  0 < Count (validated o) /\ 0 < Timeout (validated o) /\ 0 < Size (validated o).
Proof.
  unfold validated, Second. cbn [Count Timeout Size].
  destruct (Count o <=? 0) eqn:C; destruct (Timeout o <=? 0) eqn:T;
    destruct (Size o <=? 0) eqn:Z0;
    rewrite ?Z.leb_gt in *; lia.
Qed.

Lemma validated_fixed (o : PingOptions) :
  0 < Count o -> 0 < Timeout o -> 0 < Size o -> validated o = o.
Proof.
  intros C T Z0. unfold validated. destruct o as [c t z]. cbn [Count Timeout Size] in *.
  apply Z.leb_gt in C, T, Z0. now rewrite C, T, Z0.
Qed.

Lemma Ping_state (sys : Sys) (host : string) (p : ptr) (st : Options) (o : PingOptions) :
  st !! p = Some o ->
  state (Ping sys host (Some p) st) !! p = Some (if String.eqb host "" then o else validated o).
Proof.
  intros Hp. destruct (String.eqb_spec host "") as [->|Hhost]; [exact Hp|].
  destruct (Ping_run sys host (Some p) st Hhost) as (t & name & args & _ & E).
  rewrite E. cbn [state fst snd optionsAddress optionsStore].
  rewrite !lookup_alter_eq, Hp. cbn. now rewrite validated_eq.
Qed.

Lemma pingWindows_args (sys : Sys) (host : string) (p : ptr) (st : Options) :
  pingWindows sys host p st
  = ([CExec "ping" (windowsPingArgs host (st !!! p))], st,
     Ok (CombinedOutput sys "ping" (windowsPingArgs host (st !!! p)))).
Proof.
  unfold pingWindows. rewrite get_bind. unfold combinedOutput. now rewrite emit_bind.
Qed.

Lemma pingLinux_args (sys : Sys) (host : string) (p : ptr) (st : Options) :
  exists t found,
    findCommand sys "ping" pingCandidates st = (t, st, Ok found) /\
    pingLinux sys host p st
    = (t ++ [CExec (if String.eqb found "" then "ping" else found)
               (linuxPingArgs host (st !!! p))], st,
       Ok (CombinedOutput sys (if String.eqb found "" then "ping" else found)
             (linuxPingArgs host (st !!! p)))).
Proof.
  unfold pingLinux. fold pingCandidates.
  destruct (findCommand_run sys "ping" pingCandidates st) as (t & found & Ef & _).
  exists t, found. split; [exact Ef|].
  rewrite (bind_run _ _ _ _ _ _ Ef), get_bind. unfold combinedOutput.
  now rewrite emit_bind.
Qed.

(** X11.  After a call of [Ping] with a non-empty host, the three fields of
    the caller's options are positive, and the options are stable: any
    later call with the same options, for any host and whatever the system
    answers, leaves them as they are. *)
Theorem Ping_options_stable (sys : Sys) (host : string) (p : ptr) (st : Options)
    (o : PingOptions) :
  host <> "" ->
  st !! p = Some o ->
  exists o',
    state (Ping sys host (Some p) st) !! p = Some o' /\
    0 < Count o' /\ 0 < Timeout o' /\ 0 < Size o' /\
    forall sys' host',
      state (Ping sys' host' (Some p) (state (Ping sys host (Some p) st))) !! p = Some o'.
Proof.
  intros Hhost Hp. apply String.eqb_neq in Hhost.
  pose proof (Ping_state sys host p st o Hp) as H1. rewrite Hhost in H1.
  destruct (validated_positive o) as (C & T & Z0).
  exists (validated o). split; [exact H1|]. split; [exact C|]. split; [exact T|].
  split; [exact Z0|]. intros sys' host'.
  rewrite (Ping_state sys' host' p _ _ H1).
  destruct (String.eqb host' ""); [reflexivity|]. now rewrite validated_fixed.
Qed.

(** X12.  [Ping] with nil options works on a value of its own: no options
    value of the caller is changed, the new value is the default one of
    the platform, and the process is run with the default count, timeout
    and size. *)
Theorem Ping_nil_options (sys : Sys) (host : string) (st : Options) :
  (forall q o, st !! q = Some o -> state (Ping sys host None st) !! q = Some o) /\
  (host <> "" ->
   state (Ping sys host None st) !! fresh (dom st) = Some (defaultOptions sys) /\
   exists t name,
     calls (Ping sys host None st)
     = t ++ [CExec name (if isWindows sys then windowsPingArgs host (defaultOptions sys)
                         else linuxPingArgs host (defaultOptions sys))]).
Proof.
  assert (Hdef : validated (defaultOptions sys) = defaultOptions sys).
  { apply validated_fixed; unfold defaultOptions, Second; cbn [Count Timeout Size];
      try lia. destruct (isWindows sys); lia. }
  destruct (String.eqb_spec host "") as [->|Hhost].
  { split; [intros q o Hq; exact Hq | intros H; now contradiction H]. }
  assert (Hst : state (Ping sys host None st)
                = alter validateSize (fresh (dom st))
                    (alter validateTimeout (fresh (dom st))
                       (alter validateCount (fresh (dom st))
                          (<[fresh (dom st) := defaultOptions sys]> st)))).
  { destruct (Ping_run sys host None st Hhost) as (t & name & args & _ & E). now rewrite E. }
  assert (Hnew : state (Ping sys host None st) !! fresh (dom st) = Some (defaultOptions sys)).
  { rewrite Hst, !lookup_alter_eq, lookup_insert_eq. cbn [fmap option_fmap option_map].
    now rewrite validated_eq, Hdef. }
  split; [|intros _; split; [exact Hnew|]].
  - intros q o Hq. rewrite Hst.
    assert (Hne : fresh (dom st) <> q).
    { intros Heq. apply (is_fresh (dom st)). rewrite Heq. apply elem_of_dom. now exists o. }
    now rewrite !lookup_alter_ne, lookup_insert_ne.
  - unfold Ping. apply String.eqb_neq in Hhost. rewrite Hhost.
    assert (E : DefaultPingOptions sys st
                = ([], <[fresh (dom st) := defaultOptions sys]> st, Ok (fresh (dom st))))
      by reflexivity.
    rewrite (bind_run _ _ _ _ _ _ E).
    rewrite (bind_run _ _ _ _ _ _ (validateOptions_run _ _)).
    set (st1 := alter validateSize _ _).
    assert (Ho : st1 !!! fresh (dom st) = defaultOptions sys).
    { apply lookup_total_correct. subst st1.
      rewrite !lookup_alter_eq, lookup_insert_eq. cbn [fmap option_fmap option_map].
      now rewrite validated_eq, Hdef. }
    destruct (isWindows sys).
    + rewrite (bind_run _ _ _ _ _ _ (pingWindows_args sys host _ st1)), Ho.
      exists [], "ping". reflexivity.
    + destruct (pingLinux_args sys host (fresh (dom st)) st1) as (t & found & _ & El).
      rewrite (bind_run _ _ _ _ _ _ El), Ho.
      exists t. eexists. cbn [calls state outcome fst snd ret]. now rewrite app_nil_r.
Qed.

End PingOptionsMore.

Lemma Ping_options_stable_witness :
  exists o',
    state (Ping (F := exactFloat64) linuxPingSys "8.8.8.8" (Some 0%nat) zeroOptions) !! 0%nat
    = Some o' /\
    0 < Count o' /\ 0 < Timeout o' /\ 0 < Size o'.
Proof.
  destruct (Ping_options_stable (F := exactFloat64) linuxPingSys "8.8.8.8" 0%nat zeroOptions
              {| Count := 0; Timeout := 0; Size := 0 |})
    as (o' & Ho & C & T & Z0 & _).
  - intros H. discriminate H.
  - reflexivity.
  - exists o'. now repeat split.
Defined.

Lemma Ping_nil_options_witness :
  state (Ping (F := exactFloat64) linuxPingSys "8.8.8.8" None zeroOptions) !! 0%nat
  = Some {| Count := 0; Timeout := 0; Size := 0 |} /\
  state (Ping (F := exactFloat64) linuxPingSys "8.8.8.8" None zeroOptions) !! 1%nat
  = Some {| Count := 4; Timeout := 4 * Second; Size := 56 |}.
Proof.
  destruct (Ping_nil_options (F := exactFloat64) linuxPingSys "8.8.8.8" zeroOptions)
    as [Hframe Hnew].
  split.
  - apply Hframe. reflexivity.
  - destruct Hnew as [H _]; [intros H; discriminate H|]. exact H.
Defined.

Lemma findCommandPaths_indep {S S'} (sys : Sys) (paths : list string) (s : S) (s' : S')
    (t : list Call) (r : option string) :
  findCommandPaths sys paths s = (t, s, Ok r) ->
  findCommandPaths sys paths s' = (t, s', Ok r).
Proof.
  revert t r. induction paths as [|path rest IH]; intros t r.
  - cbn. intros [= <- <-]. reflexivity.
  - cbn [findCommandPaths].
    rewrite (bind_run _ _ _ _ _ _ (lookPath_run sys path s)).
    rewrite (bind_run _ _ _ _ _ _ (lookPath_run sys path s')).
    destruct (LookPath sys path).
    + cbn. intros [= <- <-]. reflexivity.
    + destruct (findCommandPaths_run sys rest s) as (t1 & r1 & E1 & _).
      rewrite E1, (IH _ _ E1). cbn. intros [= <- <-]. reflexivity.
Qed.

(** The lookup of a command does not depend on the state it runs in. *)
Lemma findCommand_indep {S S'} (sys : Sys) (name : string) (paths : list string)
    (s : S) (s' : S') (t : list Call) (r : string) :
  findCommand sys name paths s = (t, s, Ok r) ->
  findCommand sys name paths s' = (t, s', Ok r).
Proof.
  unfold findCommand.
  destruct (findCommandPaths_run sys paths s) as (t1 & r1 & E1 & _).
  rewrite (bind_run _ _ _ _ _ _ E1).
  rewrite (bind_run _ _ _ _ _ _ (findCommandPaths_indep sys paths s s' _ _ E1)).
  destruct r1 as [path|].
  - cbn. intros [= <- <-]. reflexivity.
  - rewrite (bind_run _ _ _ _ _ _ (lookPath_run sys name s)).
    rewrite (bind_run _ _ _ _ _ _ (lookPath_run sys name s')).
    destruct (LookPath sys name); cbn; intros [= <- <-]; reflexivity.
Qed.

Section PingCommand.

Context {F : Float64}.

(** X13.  For a non-empty host and options of the caller, [Ping] runs
    exactly one process, given as an argument vector that ends with the
    host, with the validated count, timeout and size: on Windows
    [ping -n <count> -w <milliseconds> -l <size> <host>], and elsewhere
    [-c <count> -W <seconds> -s <size> <host>] for the command that the
    lookup of [ping] found, or for [ping] when it found none, after the
    path lookups of that search. *)
Theorem Ping_command_line (sys : Sys) (host : string) (p : ptr) (st : Options)
    (o : PingOptions) :
  host <> "" ->
  st !! p = Some o ->
  (isWindows sys = true ->
   calls (Ping sys host (Some p) st) = [CExec "ping" (windowsPingArgs host (validated o))]) /\
  (isWindows sys = false ->
   forall t found,
     findCommand sys "ping" pingCandidates tt = (t, tt, Ok found) ->
     calls (Ping sys host (Some p) st)
     = t ++ [CExec (if String.eqb found "" then "ping" else found)
               (linuxPingArgs host (validated o))]).
Proof.
  intros Hhost Hp. unfold Ping. apply String.eqb_neq in Hhost. rewrite Hhost.
  assert (E : @ret Options ptr p st = ([], st, Ok p)) by reflexivity.
  rewrite (bind_run _ _ _ _ _ _ E).
  rewrite (bind_run _ _ _ _ _ _ (validateOptions_run _ _)).
  set (st1 := alter validateSize _ _).
  assert (Ho : st1 !!! p = validated o).
  { apply lookup_total_correct. subst st1.
    rewrite !lookup_alter_eq, Hp. cbn [fmap option_fmap option_map].
    now rewrite validated_eq. }
  split; intros Hos; rewrite Hos.
  - rewrite (bind_run _ _ _ _ _ _ (pingWindows_args sys host p st1)), Ho. reflexivity.
  - intros t found Ef.
    destruct (pingLinux_args sys host p st1) as (t' & found' & Ef' & El).
    rewrite (findCommand_indep sys "ping" pingCandidates tt st1 _ _ Ef) in Ef'.
    injection Ef' as <- <-.
    rewrite (bind_run _ _ _ _ _ _ El), Ho.
    cbn [calls state outcome fst snd ret]. now rewrite app_nil_r.
Qed.

End PingCommand.

Lemma Ping_command_line_witness :
  calls (Ping (F := exactFloat64) windowsPingSys "10.255.255.1" (Some 0%nat) zeroOptions)
  = [CExec "ping" ["-n"; "4"; "-w"; "4000"; "-l"; "32"; "10.255.255.1"]] /\
  calls (Ping (F := exactFloat64) linuxNoPingSys "8.8.8.8" (Some 0%nat) zeroOptions)
  = map CLookPath (pingCandidates ++ ["ping"])
    ++ [CExec "ping" ["-c"; "4"; "-W"; "4"; "-s"; "32"; "8.8.8.8"]].
Proof.
  split.
  - apply (proj1 (Ping_command_line (F := exactFloat64) windowsPingSys "10.255.255.1" 0%nat
                    zeroOptions {| Count := 0; Timeout := 0; Size := 0 |}
                    ltac:(discriminate) eq_refl)).
    reflexivity.
  - apply (proj2 (Ping_command_line (F := exactFloat64) linuxNoPingSys "8.8.8.8" 0%nat
                    zeroOptions {| Count := 0; Timeout := 0; Size := 0 |}
                    ltac:(discriminate) eq_refl) eq_refl
             (map CLookPath (pingCandidates ++ ["ping"])) "").
    reflexivity.
Defined.

(** ** DNS lookups, continued *)

Lemma hostAddrs_filter (sys : Sys) (addrs : list string) :
  forall a aaaa,
    DNS.hostAddrs sys addrs a aaaa
    = (a ++ List.filter (isIPv4 sys) addrs, aaaa ++ List.filter (isIPv6 sys) addrs).
Proof.
  induction addrs as [|addr rest IH]; intros a aaaa; cbn [DNS.hostAddrs List.filter].
  - now rewrite !app_nil_r.
  - unfold isIPv4, isIPv6. destruct (ParseIP sys addr) as [ip|]; [|apply IH].
    destruct (To4 sys ip); rewrite IH; now rewrite <- app_assoc.
Qed.

(** [Resolve] on a domain that is not empty, computed. *)
Lemma Resolve_run (sys : Sys) (d : string) :
  d <> "" ->
  DNS.Resolve sys d tt
  = (resolveCalls sys (DNS.cleanDomain d), tt, Ok (resolved sys (DNS.cleanDomain d))).
Proof.
  intros Hd. apply String.eqb_neq in Hd. unfold DNS.Resolve. rewrite Hd. cbv zeta.
  set (c := DNS.cleanDomain d). unfold resolveCalls, resolved.
  rewrite emit_bind.
  assert (Hh : match LookupHost sys c with
               | Ok addrs => DNS.hostAddrs sys addrs [] []
               | Err _ => ([], [])
               end
               = (match LookupHost sys c with
                  | Ok addrs => List.filter (isIPv4 sys) addrs
                  | Err _ => []
                  end,
                  match LookupHost sys c with
                  | Ok addrs => List.filter (isIPv6 sys) addrs
                  | Err _ => []
                  end)).
  { destruct (LookupHost sys c); [apply hostAddrs_filter | reflexivity]. }
  rewrite Hh. rewrite !emit_bind. cbn [calls state outcome fst snd].
  unfold DNS.lookupSOA, bind, emit, ret.
  destruct (LookupNS sys c) as [[|ns0 nss]|e]; destruct (ParseIP sys c); cbn;
    try (destruct (LookupAddr sys c); cbn); reflexivity.
Qed.

(** X14.  [Resolve] on a domain that is not empty never returns an error:
    it queries the resolver for the stripped domain, for the host, the
    canonical name, the mail exchangers, the name servers, the texts and
    again the name servers, and for the names of the address exactly when
    the domain parses as an IP address; a category whose query fails is
    left empty.  With a resolver that fails for every query the result is
    the record set without records. *)
Theorem Resolve_total (sys : Sys) (d : string) :
  d <> "" ->
  exists r,
    DNS.Resolve sys d tt = (resolveCalls sys (DNS.cleanDomain d), tt, Ok r) /\
    DNS.Domain r = DNS.cleanDomain d /\
    (forall e, LookupHost sys (DNS.cleanDomain d) = Err e -> DNS.A r = [] /\ DNS.AAAA r = []) /\
    (forall e, LookupCNAME sys (DNS.cleanDomain d) = Err e -> DNS.CNAME r = []) /\
    (forall e, LookupMX sys (DNS.cleanDomain d) = Err e -> DNS.MX r = []) /\
    (forall e, LookupNS sys (DNS.cleanDomain d) = Err e -> DNS.NS r = [] /\ DNS.SOA r = None) /\
    (forall e, LookupTXT sys (DNS.cleanDomain d) = Err e -> DNS.TXT r = []) /\
    (ParseIP sys (DNS.cleanDomain d) = None -> DNS.PTR r = []) /\
    (forall e, LookupAddr sys (DNS.cleanDomain d) = Err e -> DNS.PTR r = []) /\
    ((forall e, LookupHost sys (DNS.cleanDomain d) = Err e -> 
      forall e1 e2 e3 e4,
        LookupCNAME sys (DNS.cleanDomain d) = Err e1 ->
        LookupMX sys (DNS.cleanDomain d) = Err e2 ->
        LookupNS sys (DNS.cleanDomain d) = Err e3 ->
        LookupTXT sys (DNS.cleanDomain d) = Err e4 ->
        ParseIP sys (DNS.cleanDomain d) = None ->
        r = emptyRecords (DNS.cleanDomain d))).
Proof.
  intros Hd. exists (resolved sys (DNS.cleanDomain d)).
  split; [now apply Resolve_run|]. unfold resolved. cbn.
  split; [reflexivity|].
  split; [intros e ->; now split|].
  split; [intros e ->; reflexivity|].
  split; [intros e ->; reflexivity|].
  split; [intros e ->; now split|].
  split; [intros e ->; reflexivity|].
  split; [intros ->; reflexivity|].
  split; [intros e ->; now destruct (ParseIP sys (DNS.cleanDomain d))|].
  intros e -> e1 e2 e3 e4 -> -> -> -> ->. reflexivity.
Qed.

Lemma Resolve_total_witness :
  DNS.Resolve noDnsSys "https://example.com/" tt
  = ([CLookupHost "example.com"; CLookupCNAME "example.com"; CLookupMX "example.com";
      CLookupNS "example.com"; CLookupTXT "example.com"; CLookupNS "example.com"],
     tt, Ok (emptyRecords "example.com")).
Proof.
  destruct (Resolve_total noDnsSys "https://example.com/") as (r & E & _ & H);
    [intros H; discriminate H|].
  destruct H as (_ & _ & _ & _ & _ & _ & _ & Hempty).
  rewrite E. rewrite (Hempty "no such host" eq_refl "no such host" "no such host"
                        "no such host" "no such host" eq_refl eq_refl eq_refl eq_refl eq_refl).
  reflexivity.
Defined.

(** X15.  In the result of [Resolve] the IPv4 addresses are the answers of
    the resolver that parse as IPv4 addresses and the IPv6 addresses the
    answers that parse as other addresses, both in the order of the
    answers and with their repetitions; an answer that does not parse is in
    neither list. *)
Theorem Resolve_addresses (sys : Sys) (d : string) (answers : list string)
    (r : DNS.DNSRecords) :
  d <> "" ->
  LookupHost sys (DNS.cleanDomain d) = Ok answers ->
  outcome (DNS.Resolve sys d tt) = Ok r ->
  DNS.A r = List.filter (isIPv4 sys) answers /\
  DNS.AAAA r = List.filter (isIPv6 sys) answers /\
  (forall a, a ∈ DNS.A r ++ DNS.AAAA r -> a ∈ answers /\ ParseIP sys a <> None) /\
  (forall a, a ∈ answers -> ParseIP sys a <> None -> a ∈ DNS.A r ++ DNS.AAAA r) /\
  (forall a, a ∈ DNS.A r -> a ∉ DNS.AAAA r).
Proof.
  intros Hd Ha. rewrite (Resolve_run sys d Hd). cbn [outcome snd]. intros [= <-].
  unfold resolved. cbn [DNS.A DNS.AAAA]. rewrite Ha.
  split; [reflexivity|]. split; [reflexivity|].
  split; [|split].
  - intros a. rewrite elem_of_app, !list_elem_of_In, !filter_In.
    unfold isIPv4, isIPv6. destruct (ParseIP sys a) as [ip|].
    + intros [[H _] | [H _]]; (split; [exact H | discriminate]).
    + intros [[_ H] | [_ H]]; discriminate H.
  - intros a Hin Hp. rewrite elem_of_app, !list_elem_of_In, !filter_In.
    apply list_elem_of_In in Hin. unfold isIPv4, isIPv6.
    destruct (ParseIP sys a) as [ip|]; [|now contradiction Hp].
    destruct (To4 sys ip); [left | right]; now split.
  - intros a. rewrite !list_elem_of_In, !filter_In. unfold isIPv4, isIPv6.
    destruct (ParseIP sys a) as [ip|]; [destruct (To4 sys ip)|];
      intros [_ H1] [_ H2]; discriminate.
Qed.

Lemma Resolve_addresses_witness :
  exists r,
    outcome (DNS.Resolve fullDnsSys "http://example.com" tt) = Ok r /\
    DNS.A r = ["93.184.216.34"; "93.184.216.34"] /\
    DNS.AAAA r = ["2606:2800:220:1::1"].
Proof.
  destruct (outcome (DNS.Resolve fullDnsSys "http://example.com" tt)) as [r|e] eqn:E;
    [|vm_compute in E; discriminate E].
  exists r. split; [reflexivity|].
  destruct (Resolve_addresses fullDnsSys "http://example.com"
              ["93.184.216.34"; "2606:2800:220:1::1"; "93.184.216.34"; "not-an-address"] r)
    as (HA & HAAAA & _); [intros H; discriminate H | reflexivity | exact E |].
  split; [rewrite HA | rewrite HAAAA]; vm_compute; reflexivity.
Defined.

(** X16.  [NSLookup] on a domain that is not empty issues one query, for
    the stripped domain, and fails exactly when the resolver fails: its
    error is then "failed to lookup <stripped domain>: " followed by the
    error of the resolver. *)
Theorem NSLookup_resolver_failure (sys : Sys) (d : string) :
  d <> "" ->
  calls (DNS.NSLookup sys d tt) = [CLookupHost (DNS.cleanDomain d)] /\
  (forall e,
      LookupHost sys (DNS.cleanDomain d) = Err e ->
      outcome (DNS.NSLookup sys d tt)
      = Err ("failed to lookup " +:+ DNS.cleanDomain d +:+ ": " +:+ e)) /\
  (forall e',
      outcome (DNS.NSLookup sys d tt) = Err e' ->
      exists e, LookupHost sys (DNS.cleanDomain d) = Err e /\
                e' = "failed to lookup " +:+ DNS.cleanDomain d +:+ ": " +:+ e).
Proof.
  intros Hd. apply String.eqb_neq in Hd. unfold DNS.NSLookup. rewrite Hd. cbv zeta.
  rewrite emit_bind. cbn [calls state outcome fst snd].
  destruct (LookupHost sys (DNS.cleanDomain d)) as [ips|e0]; cbn.
  - split; [reflexivity|]. split; [intros e H; discriminate H | intros e' H; discriminate H].
  - split; [reflexivity|]. split.
    + intros e [= <-]. reflexivity.
    + intros e' [= <-]. now exists e0.
Qed.

Lemma NSLookup_resolver_failure_witness :
  outcome (DNS.NSLookup dnsSys "https://example.org/" tt)
  = Err "failed to lookup example.org: no such host".
Proof.
  apply (proj1 (proj2 (NSLookup_resolver_failure dnsSys "https://example.org/"
                         ltac:(discriminate)))).
  reflexivity.
Defined.

(** ** The text of a record set *)

Lemma prefix_refl_append (p t : string) : String.prefix p (p +:+ t) = true.
Proof.
  induction p as [|c p IH]; [now destruct t|].
  rewrite append_cons. cbn [String.prefix]. now destruct (ascii_dec c c).
Qed.

Lemma prefix_append_l (p : string) : forall s t, String.prefix p s = true ->
                                                 String.prefix p (s +:+ t) = true.
Proof.
  induction p as [|c p IH]; intros s t H.
  - now destruct (s +:+ t).
  - destruct s as [|b s]; [discriminate H|]. rewrite append_cons.
    cbn [String.prefix] in *. destruct (ascii_dec c b); [now apply IH | discriminate H].
Qed.

Lemma prefix_append_cancel (a p s : string) :
  String.prefix (a +:+ p) (a +:+ s) = String.prefix p s.
Proof.
  induction a as [|c a IH]; [reflexivity|].
  rewrite !append_cons. cbn [String.prefix]. now destruct (ascii_dec c c).
Qed.

Lemma Contains_prefix (s sub : string) : String.prefix sub s = true -> Contains s sub = true.
Proof. intros H. destruct s; cbn [Contains]; now rewrite H. Qed.

Lemma Contains_append_r (s t sub : string) :
  Contains t sub = true -> Contains (s +:+ t) sub = true.
Proof.
  intros H. induction s as [|c s IH]; [exact H|].
  rewrite append_cons. cbn [Contains]. rewrite IH. apply orb_true_r.
Qed.

Lemma Contains_append_l (s t sub : string) :
  Contains s sub = true -> Contains (s +:+ t) sub = true.
Proof.
  induction s as [|c s IH]; cbn [Contains].
  - rewrite orb_false_r. intros H. apply Contains_prefix.
    destruct sub; [now destruct ("" +:+ t) | discriminate H].
  - intros H. apply orb_true_iff in H. destruct H as [H | H].
    + apply Contains_prefix. now apply (prefix_append_l sub (String c s) t).
    + rewrite append_cons. cbn [Contains]. rewrite (IH H). apply orb_true_r.
Qed.

Lemma written_Contains (parts : list string) (part sub : string) :
  part ∈ parts -> Contains part sub = true -> Contains (written parts) sub = true.
Proof.
  intros Hin Hc. induction parts as [|q rest IH]; [now apply elem_of_nil in Hin|].
  cbn [written]. apply elem_of_cons in Hin. destruct Hin as [<- | Hin].
  - now apply Contains_append_l.
  - apply Contains_append_r. now apply IH.
Qed.

Lemma Contains_refl (s : string) : Contains s s = true.
Proof.
  apply Contains_prefix. rewrite <- (append_empty_r s) at 2. apply prefix_refl_append.
Qed.

Lemma category_Contains (title line : string) (lines : list string) :
  line ∈ lines -> Contains (category title lines) line = true.
Proof.
  intros Hin. unfold category. destruct lines as [|l ls]; [now apply elem_of_nil in Hin|].
  cbn [length Nat.ltb Nat.leb]. apply (written_Contains _ line).
  - apply elem_of_cons. now right.
  - apply Contains_refl.
Qed.

Lemma category_nil (title : string) : category title [] = "".
Proof. reflexivity. Qed.

(** X17.  The text of a record set starts with the line "DNS Records for
    <domain>:" and a line of fifty dashes; for every address, canonical
    name, name server, text and pointer of the set it contains
    "  - <record>" followed by a line feed, and for every mail exchanger
    "  - Priority <priority>: <host>" followed by a line feed; and the
    text of a set without records is the two heading lines alone. *)
Theorem DNSRecords_String_lists_records (r : DNS.DNSRecords) :
  HasPrefix (DNSRecords_String r)
    ("DNS Records for " +:+ DNS.Domain r +:+ ":" +:+ LF +:+ Repeat "-" 50 +:+ LF) = true /\
  (forall x,
      x ∈ DNS.A r ++ DNS.AAAA r ++ DNS.CNAME r ++ DNS.NS r ++ DNS.TXT r ++ DNS.PTR r ->
      Contains (DNSRecords_String r) ("  - " +:+ x +:+ LF) = true) /\
  (forall mx,
      mx ∈ DNS.MX r ->
      Contains (DNSRecords_String r)
        ("  - Priority " +:+ Itoa (DNS.Priority mx) +:+ ": " +:+ DNS.Host mx +:+ LF) = true) /\
  (r = emptyRecords (DNS.Domain r) ->
   DNSRecords_String r
   = "DNS Records for " +:+ DNS.Domain r +:+ ":" +:+ LF +:+ Repeat "-" 50 +:+ LF).
Proof.
  split; [|split; [|split]].
  - unfold HasPrefix, DNSRecords_String, DNSRecords_parts. cbn [written].
    rewrite !append_assoc, !prefix_append_cancel. apply prefix_refl_append.
  - intros x Hx. unfold DNSRecords_String.
    assert (Hline : forall xs, x ∈ xs -> ("  - " +:+ x +:+ LF) ∈ recordLines xs).
    { intros xs Hin. unfold recordLines.
      apply (list_elem_of_fmap_2 (fun x => "  - " +:+ x +:+ LF)). exact Hin. }
    rewrite !elem_of_app in Hx.
    destruct Hx as [H | [H | [H | [H | [H | H]]]]].
    + apply (written_Contains _ (category "A Records (IPv4):" (recordLines (DNS.A r))));
        [apply list_elem_of_In; do 2 right; left; reflexivity
        | now apply category_Contains, Hline].
    + apply (written_Contains _ (category "AAAA Records (IPv6):" (recordLines (DNS.AAAA r))));
        [apply list_elem_of_In; do 3 right; left; reflexivity
        | now apply category_Contains, Hline].
    + apply (written_Contains _ (category "CNAME Records:" (recordLines (DNS.CNAME r))));
        [apply list_elem_of_In; do 4 right; left; reflexivity
        | now apply category_Contains, Hline].
    + apply (written_Contains _
               (category "NS Records (Name Servers):" (recordLines (DNS.NS r))));
        [apply list_elem_of_In; do 6 right; left; reflexivity
        | now apply category_Contains, Hline].
    + apply (written_Contains _
               (category "TXT Records (includes SPF):" (recordLines (DNS.TXT r))));
        [apply list_elem_of_In; do 7 right; left; reflexivity
        | now apply category_Contains, Hline].
    + apply (written_Contains _
               (category "PTR Records (Reverse DNS):" (recordLines (DNS.PTR r))));
        [apply list_elem_of_In; do 9 right; left; reflexivity
        | now apply category_Contains, Hline].
  - intros mx Hmx. unfold DNSRecords_String.
    apply (written_Contains _ (category "MX Records (Mail):" (map mxLine (DNS.MX r))));
      [apply list_elem_of_In; do 5 right; left; reflexivity|].
    apply category_Contains. apply (list_elem_of_fmap_2 mxLine). exact Hmx.
  - intros ->. unfold DNSRecords_String, DNSRecords_parts, emptyRecords.
    cbn [DNS.Domain DNS.A DNS.AAAA DNS.CNAME DNS.MX DNS.NS DNS.TXT DNS.SOA DNS.PTR
         map recordLines].
    rewrite !category_nil. cbn [written soaText].
    change ("" +:+ "") with "". rewrite !append_empty_r. now rewrite !append_assoc.
Qed.

Lemma DNSRecords_String_lists_records_witness :
  exists r,
    outcome (DNS.Resolve fullDnsSys "example.com" tt) = Ok r /\
    Contains (DNSRecords_String r) ("  - 2606:2800:220:1::1" +:+ LF) = true /\
    Contains (DNSRecords_String r) ("  - Priority 10: mail.example.com" +:+ LF) = true /\
    DNSRecords_String (emptyRecords "example.com")
    = "DNS Records for example.com:" +:+ LF +:+ Repeat "-" 50 +:+ LF.
Proof.
  destruct (outcome (DNS.Resolve fullDnsSys "example.com" tt)) as [r|e] eqn:E;
    [|vm_compute in E; discriminate E].
  exists r. split; [reflexivity|].
  destruct (DNSRecords_String_lists_records r) as (_ & Hrec & Hmx & _).
  assert (Er : r = resolved fullDnsSys "example.com")
    by (vm_compute in E; injection E as <-; vm_compute; reflexivity).
  split; [|split].
  - apply (Hrec "2606:2800:220:1::1"). rewrite Er. vm_compute. set_solver.
  - apply (Hmx {| DNS.Host := "mail.example.com"; DNS.Priority := 10 |}).
    rewrite Er. vm_compute. set_solver.
  - apply (proj2 (proj2 (proj2 (DNSRecords_String_lists_records
                                  (emptyRecords "example.com"))))).
    reflexivity.
Defined.

(** ** An output without a line of packet statistics *)

Section PingSilent.

Context {F : Float64}.

Lemma windowsPingLine_unmarked (line : string) (r : PingResult) :
  Contains (TrimSpace line) "Packets:" = false ->
  packetCounters (windowsPingLine line r) = packetCounters r.
Proof.
  intros H. unfold windowsPingLine. cbv zeta. rewrite H.
  destruct (Contains _ "Minimum" && Contains _ "Maximum"); [|reflexivity].
  destruct (FindStringSubmatch regexMinMax _) as [[|m1 [|m2 [|m3 [|m4 ms]]]]|];
    try reflexivity.
  now rewrite !(atoiMillis_keeps _ packetCounters).
Qed.

Lemma linuxPingLine_unmarked (line : string) (r : PingResult) :
  Contains (TrimSpace line) "packets transmitted" = false ->
  packetCounters (linuxPingLine line r) = packetCounters r.
Proof.
  intros H. unfold linuxPingLine. cbv zeta. rewrite H.
  destruct (Contains _ "rtt min/avg/max"); [|reflexivity].
  destruct (FindStringSubmatch regexRtt _) as [[|m1 [|m2 [|m3 [|m4 [|m5 ms]]]]]|];
    try reflexivity.
  now rewrite !(floatMillis_keeps _ packetCounters).
Qed.

Lemma fold_left_unmarked (g : string -> PingResult -> PingResult) (mark : string)
    (lines : list string) :
  (forall line r, Contains (TrimSpace line) mark = false ->
                  packetCounters (g line r) = packetCounters r) ->
  forallb (fun line => negb (Contains (TrimSpace line) mark)) lines = true ->
  forall r, packetCounters (fold_left (fun r line => g line r) lines r) = packetCounters r.
Proof.
  intros Hg. induction lines as [|l ls IH]; intros Hall r; [reflexivity|].
  cbn [forallb] in Hall. apply andb_true_iff in Hall. destruct Hall as [Hl Hls].
  cbn [fold_left]. rewrite (IH Hls). apply Hg. now apply negb_true_iff.
Qed.

Lemma parsePingOutput_unmarked (sys : Sys) (output : string) (r : PingResult) :
  noStatistics sys output = true -> Sent r = 0 ->
  packetCounters (parsePingOutput sys output r) = packetCounters r.
Proof.
  unfold noStatistics, statisticsMark, parsePingOutput, parseWindowsPingOutput,
    parseLinuxPingOutput.
  intros Hno Hs. destruct (isWindows sys).
  - now apply (fold_left_unmarked windowsPingLine "Packets:"), Hno;
      apply windowsPingLine_unmarked.
  - pose proof (fold_left_unmarked linuxPingLine "packets transmitted" _
                  linuxPingLine_unmarked Hno r) as E.
    cbv zeta. set (r1 := fold_left _ _ r) in *.
    assert (E1 : Sent r1 = 0) by (injection E as E1 _ _; now rewrite E1).
    rewrite E1. exact E.
Qed.

Lemma pingOutcome_unmarked (sys : Sys) (host : string) (oe : string * option error) :
  noStatistics sys (fst oe) = true ->
  packetCounters (pingOutcome sys host oe) = (0, 0, 0) /\
  Success (pingOutcome sys host oe) = false /\
  (snd oe = None -> ErrorMessage (pingOutcome sys host oe) = "").
Proof.
  destruct oe as [output err]. cbn [fst snd]. intros Hno.
  pose proof (parsePingOutput_unmarked sys output (PingResult_new host) Hno eq_refl) as E.
  unfold pingOutcome. destruct err as [e|].
  - set (r1 := if negb (String.eqb output "") then _ else _).
    assert (E1 : packetCounters r1 = (0, 0, 0)) by (subst r1; now destruct (negb _)).
    assert (Hs : Sent r1 = 0) by (injection E1 as H _ _; exact H).
    rewrite Hs. cbn [Z.eqb orb]. split; [exact E1|]. split; [reflexivity|].
    intros H; discriminate H.
  - unfold pingFinish.
    assert (Hs : Sent (parsePingOutput sys output (PingResult_new host)) = 0)
      by (injection E as H _ _; exact H).
    rewrite Hs. cbn [Z.gtb Z.compare]. split; [exact E|].
    now rewrite parsePingOutput_Success, parsePingOutput_ErrorMessage.
Qed.

(** X18.  When no line of what the process printed contains the text by
    which the parser of the platform recognises the packet statistics
    ("Packets:" on Windows, "packets transmitted" elsewhere), the result
    of [Ping] has nothing sent, received or lost and is not successful;
    and when in addition the process ended without error, the result
    carries no error message and the returned error is nil: such a run
    is told from a failed one by neither of them. *)
Theorem Ping_without_statistics (sys : Sys) (host : string) (options : option ptr)
    (st : Options) (pr : PingResult) (err : option error) :
  outcome (Ping sys host options st) = Ok (Some pr, err) ->
  exists name args,
    last (calls (Ping sys host options st)) = Some (CExec name args) /\
    (noStatistics sys (fst (CombinedOutput sys name args)) = true ->
     Sent pr = 0 /\ Received pr = 0 /\ Lost pr = 0 /\ Success pr = false /\ err = None /\
     (snd (CombinedOutput sys name args) = None -> ErrorMessage pr = "")).
Proof.
  destruct (String.eqb_spec host "") as [->|Hhost].
  - rewrite Ping_empty_host. intros H. discriminate H.
  - destruct (Ping_run sys host options st Hhost) as (t & name & args & _ & E).
    rewrite E. cbn [calls state outcome fst snd]. intros [= <- <-].
    exists name, args. split; [apply last_snoc|]. intros Hno.
    destruct (pingOutcome_unmarked sys host (CombinedOutput sys name args) Hno)
      as (Hc & Hs & Hm).
    injection Hc as H1 H2 H3. now repeat split.
Qed.

End PingSilent.

Lemma Ping_without_statistics_witness :
  exists pr,
    outcome (Ping (F := exactFloat64) windowsGermanSys "8.8.8.8" None zeroOptions)
    = Ok (Some pr, None) /\
    Sent pr = 0 /\ Received pr = 0 /\ Success pr = false /\ ErrorMessage pr = "".
Proof.
  destruct (outcome (Ping (F := exactFloat64) windowsGermanSys "8.8.8.8" None zeroOptions))
    as [[[pr|] [e|]]|e] eqn:E; try (vm_compute in E; discriminate E).
  exists pr. split; [reflexivity|].
  destruct (Ping_without_statistics (F := exactFloat64) windowsGermanSys "8.8.8.8" None
              zeroOptions pr None E) as (name & args & Hlast & H).
  assert (Hn : name = "ping" /\ args = ["-n"; "4"; "-w"; "4000"; "-l"; "32"; "8.8.8.8"])
    by (vm_compute in Hlast; injection Hlast as <- <-; now split).
  destruct Hn as [-> ->].
  destruct (H ltac:(vm_compute; reflexivity)) as (H1 & H2 & _ & H4 & _ & H6).
  repeat split; try assumption. apply H6. reflexivity.
Defined.
